(** * TrueClaim: the detection-and-scoring pipeline, embedded and verified

    A shallow embedding of the TypeScript engines under [src/lib/engine]
    (cross-modal auditor, timeline detective, ghost and unbundling hunter,
    XAI advisor, orchestrator), of the [/api/analyze] route, of the row
    normalisation of the upload page and of the keyword matcher of the OCR
    helpers, followed by the properties of the specification that were
    checked against them and by further properties of the code.

    Modelling conventions.
    - A JavaScript [number] is a binary64 value: [NaN], [Infinity],
      [-Infinity], or a rational m * 2^e that binary64 represents.
      Arithmetic is correctly rounded ([JS.fl]: to the nearest value, to
      the even significand in a tie, to an infinity on overflow), a
      decimal literal denotes the nearest value ([JS.lit]), and the
      special values follow IEEE 754 as JavaScript exposes them (0/0 is
      NaN, x/0 is infinite, NaN poisons arithmetic and makes every
      comparison false).  The sign of zero is not modelled.  The integers
      the program turns into numbers (lengths, time values and their
      differences) are below 2^53 in ECMAScript and stand for themselves.
    - A JavaScript string is a [string] of code units below 256.
    - Plain objects used as dictionaries ([Record<string, T>]) are finite
      maps; the prototype chain is not modelled.
    - [Date] values are integers (milliseconds since the epoch); the
      bound of 8.64e15 ms is not enforced.  An ISO string produced by
      [toISOString] and read back by [new Date] stands for its time value.  The parser of
      date strings, the clock (read as one value during a run) and the
      transcendental functions of [Math] are implementation-defined in
      ECMAScript and are parameters of the model.
    - An [async] function is the function from its arguments to the value
      its promise is fulfilled with; a caller that does not await it
      holds the [Promise], not that value.
    - Template strings shown to the user (explanations, descriptions) are
      represented by a constructor per template carrying the interpolated
      values. *)

From Stdlib Require Import ZArith QArith Qround Qabs Qpower Lqa Lia String Ascii List
  Bool DecimalString.
From stdpp Require Import base option gmap strings.
Import ListNotations.

Local Open Scope string_scope.
Local Open Scope list_scope.

(* ================================================================== *)
(** * JavaScript values *)
(* ================================================================== *)

Module JS.

(** ** Numbers *)

Inductive number : Type :=
| NaN
| Infinity
| NegInfinity
| Num (q : Q).

Definition ofZ (z : Z) : number := Num (inject_Z z).
Definition ofNat (n : nat) : number := ofZ (Z.of_nat n).

(** Sign of a number as -1, 0 or 1 (0 for NaN and for zero). *)
Definition sign (x : number) : Z :=
  match x with
  | NaN => 0
  | Infinity => 1
  | NegInfinity => -1
  | Num q => Z.sgn (Qnum q)
  end.

(** The infinite value of a given sign; an undetermined sign is NaN. *)
Definition ofSign (s : Z) : number :=
  match s with
  | Z0 => NaN
  | Zpos _ => Infinity
  | Zneg _ => NegInfinity
  end.

Definition neg (x : number) : number :=
  match x with
  | NaN => NaN
  | Infinity => NegInfinity
  | NegInfinity => Infinity
  | Num q => Num (- q)
  end.

(** *** Rounding to binary64 *)

(** [floor (log2 q)] for [q > 0]. *)
Definition ilog2 (q : Q) : Z :=
  let k := (Z.log2 (Qnum q) - Z.log2 (Zpos (Qden q)))%Z in
  if Qle_bool (2 ^ k)%Q q then k else (k - 1)%Z.

(** The integer nearest to [x >= 0], the even one of two. *)
Definition roundHalfEven (x : Q) : Z :=
  let lo := Qfloor x in
  match ((x - inject_Z lo) ?= (1 # 2))%Q with
  | Lt => lo
  | Gt => (lo + 1)%Z
  | Eq => if Z.even lo then lo else (lo + 1)%Z
  end.

(** The exponent of the binary64 values next to [a > 0]: they are the
    multiples of [2 ^ exponentOf a], with 53 significant bits from the
    smallest normal value on and the spacing 2^-1074 below it. *)
Definition exponentOf (a : Q) : Z := Z.max (ilog2 a - 52) (-1074).

(** The binary64 value of a real [a > 0]: the nearest multiple of
    [2 ^ exponentOf a], and [Infinity] when that reaches 2^1024. *)
Definition flPos (a : Q) : number :=
  let e := exponentOf a in
  let v := (inject_Z (roundHalfEven (a / 2 ^ e)) * 2 ^ e)%Q in
  if Qle_bool (2 ^ 1024)%Q v then Infinity else Num (Qred v).

(** The binary64 value of a real: round to nearest, ties to even. *)
Definition fl (q : Q) : number :=
  match (q ?= 0)%Q with
  | Eq => Num 0
  | Gt => flPos q
  | Lt => neg (flPos (- q))
  end.

(** A decimal literal of the source. *)
Definition lit (q : Q) : number := fl q.

(** *** Arithmetic *)

Definition add (x y : number) : number :=
  match x, y with
  | NaN, _ | _, NaN => NaN
  | Infinity, NegInfinity | NegInfinity, Infinity => NaN
  | Infinity, _ | _, Infinity => Infinity
  | NegInfinity, _ | _, NegInfinity => NegInfinity
  | Num a, Num b => fl (a + b)
  end.

Definition sub (x y : number) : number := add x (neg y).

Definition mul (x y : number) : number :=
  match x, y with
  | NaN, _ | _, NaN => NaN
  | Num a, Num b => fl (a * b)
  | _, _ => ofSign (sign x * sign y)
  end.

(** Division; a zero divisor is the positive zero. *)
Definition div (x y : number) : number :=
  match x, y with
  | NaN, _ | _, NaN => NaN
  | Num a, Num b => if Qeq_bool b 0 then ofSign (sign x) else fl (a / b)
  | Num _, _ => Num 0
  | _, Num b => ofSign (sign x * (if Qeq_bool b 0 then 1 else sign y))
  | _, _ => NaN
  end.

(** [x <= y]; false as soon as one side is NaN. *)
Definition leb (x y : number) : bool :=
  match x, y with
  | NaN, _ | _, NaN => false
  | NegInfinity, _ => true
  | _, Infinity => true
  | Infinity, _ => false
  | _, NegInfinity => false
  | Num a, Num b => Qle_bool a b
  end.

Definition ltb (x y : number) : bool := leb x y && negb (leb y x).
Definition geb (x y : number) : bool := leb y x.
Definition gtb (x y : number) : bool := ltb y x.
(** Strict equality [===] on numbers. *)
Definition eqb (x y : number) : bool := leb x y && leb y x.

Definition isNaN (x : number) : bool :=
  match x with NaN => true | _ => false end.

(** [Number.isFinite] *)
Definition isFinite (x : number) : bool :=
  match x with Num _ => true | _ => false end.

(** [Math.min] and [Math.max] on two arguments. *)
Definition min (x y : number) : number :=
  if isNaN x || isNaN y then NaN else if ltb y x then y else x.

Definition max (x y : number) : number :=
  if isNaN x || isNaN y then NaN else if ltb x y then y else x.

(** [Math.max(...xs)]: the maximum of no argument is [-Infinity]. *)
Definition maxList (xs : list number) : number := fold_left max xs NegInfinity.

Definition abs (x : number) : number :=
  match x with
  | NaN => NaN
  | Infinity | NegInfinity => Infinity
  | Num q => Num (Qabs q)
  end.

(** [Math.round]: the nearest integer, a tie going up. *)
Definition round (x : number) : number :=
  match x with
  | Num q => ofZ (Qfloor (q + (1 # 2)))
  | _ => x
  end.

(** ToBoolean on a number: 0 and NaN are falsy. *)
Definition truthy (x : number) : bool :=
  match x with
  | NaN => false
  | Num q => negb (Qeq_bool q 0)
  | _ => true
  end.

(** ToBoolean on an optional number ([undefined] is falsy). *)
Definition truthyOpt (x : option number) : bool :=
  match x with
  | Some v => truthy v
  | None => false
  end.

(** [x || d] where [x] may be [undefined]. *)
Definition orElse (x : option number) (d : number) : number :=
  match x with
  | Some v => if truthy v then v else d
  | None => d
  end.

(** [xs.reduce((sum, x) => sum + f(x), 0)] *)
Definition sumBy {A : Type} (f : A -> number) (xs : list A) : number :=
  fold_left (fun sum x => add sum (f x)) xs (Num 0).

(** ** Strings *)

(** WhiteSpace and LineTerminator code units below 256, the characters
    removed by [trim] and matched by [\s]. *)
Definition isWhiteSpace (c : ascii) : bool :=
  let n := nat_of_ascii c in
  ((9 <=? n) && (n <=? 13) || (n =? 32) || (n =? 160))%nat.

Fixpoint trimStart (s : string) : string :=
  match s with
  | EmptyString => EmptyString
  | String c r => if isWhiteSpace c then trimStart r else s
  end.

Fixpoint trimEnd (s : string) : string :=
  match s with
  | EmptyString => EmptyString
  | String c r =>
      let r' := trimEnd r in
      if isWhiteSpace c && (String.length r' =? 0)%nat then EmptyString
      else String c r'
  end.

Definition trim (s : string) : string := trimEnd (trimStart s).

(** [s && s.trim().length > 0] *)
Definition hasText (s : string) : bool := (0 <? String.length (trim s))%nat.

Definition lowerChar (c : ascii) : ascii :=
  let n := nat_of_ascii c in
  if ((65 <=? n) && (n <=? 90)
      || (192 <=? n) && (n <=? 222) && negb (n =? 215))%nat
  then ascii_of_nat (n + 32) else c.

Fixpoint toLowerCase (s : string) : string :=
  match s with
  | EmptyString => EmptyString
  | String c r => String (lowerChar c) (toLowerCase r)
  end.

(** [s.includes(sub)] *)
Fixpoint includes (s sub : string) : bool :=
  String.prefix sub s ||
  match s with
  | EmptyString => false
  | String _ r => includes r sub
  end.

(** [xs.includes(x)] on an array of strings. *)
Definition arrayIncludes (xs : list string) (x : string) : bool :=
  existsb (String.eqb x) xs.

(** [s.split(/[...]+/)] for a character class [isSep]: the pieces
    between maximal runs of separators, empty first and last pieces
    included. *)
Fixpoint splitRuns (isSep : ascii -> bool) (s cur : string) (prevSep : bool)
  : list string :=
  match s with
  | EmptyString => [cur]
  | String c r =>
      if isSep c
      then (if prevSep then splitRuns isSep r EmptyString true
            else cur :: splitRuns isSep r EmptyString true)
      else splitRuns isSep r (cur ++ String c EmptyString) false
  end.

Definition split (isSep : ascii -> bool) (s : string) : list string :=
  splitRuns isSep s EmptyString false.

End JS.

Export JS(number, NaN, Infinity, NegInfinity, Num).

Declare Scope js_scope.
Delimit Scope js_scope with js.
Bind Scope js_scope with JS.number.
Infix "+" := JS.add : js_scope.
Infix "-" := JS.sub : js_scope.
Infix "*" := JS.mul : js_scope.
Infix "/" := JS.div : js_scope.
Infix "<?" := JS.ltb : js_scope.
Infix "<=?" := JS.leb : js_scope.
Infix ">?" := JS.gtb : js_scope.
Infix ">=?" := JS.geb : js_scope.
Infix "===" := JS.eqb (at level 70) : js_scope.

(** A [for] loop over [xs] whose body pushes the elements [body x] on a
    result array, in order. *)
Definition forEachPush {A B : Type} (body : A -> list B) (xs : list A) : list B :=
  fold_left (fun acc x => acc ++ body x) xs [].

(** [dict[key] || []] for a dictionary of arrays. *)
Definition lookupList {V : Type} (dict : list (string * list V)) (key : string)
  : list V :=
  match find (fun kv => String.eqb (fst kv) key) dict with
  | Some kv => snd kv
  | None => []
  end.

(** A plain object used as a table of counters, [counts[k] = (counts[k] ||
    0) + 1]: the keys stay in insertion order, which is the order of
    [Object.entries]. *)
Module Counter.

Definition t : Type := list (string * nat).

Definition empty : t := [].

Fixpoint incr (k : string) (counts : t) : t :=
  match counts with
  | [] => [(k, 1%nat)]
  | (k', n) :: rest =>
      if String.eqb k' k then (k', S n) :: rest else (k', n) :: incr k rest
  end.

(** Insertion of an entry in front of a list sorted by decreasing count:
    the entry goes before the first entry whose count is not larger. *)
Fixpoint insertDescending (e : string * nat) (sorted : t) : t :=
  match sorted with
  | [] => [e]
  | e' :: rest =>
      if (snd e' <=? snd e)%nat then e :: sorted
      else e' :: insertDescending e rest
  end.

(** [Object.entries(counts).sort((a, b) => b[1] - a[1])]: a stable sort
    by decreasing count. *)
Definition sortDescending (counts : t) : t :=
  fold_right insertDescending [] counts.

End Counter.

(* ================================================================== *)
(** * Data model ([src/lib/types]) *)
(* ================================================================== *)

Record ClaimItem : Type := {
  claim_id : string;
  patient_name : string;
  date : string;
  time : string;
  department : string;
  cpt_code : string;
  cpt_description : string;
  billed_amount_inr : number;
  recorded_clinical_notes : string;
  location_lat : option number;
  location_lng : option number;
}.

Record CPTCode : Type := {
  description : string;
  severity : number;
  avg_cost_inr : number;
  category : string;
}.

Record NCCIBundle : Type := {
  primary_code : string;
  bundled_codes : list string;
  bundle_description : string;
  correct_single_code : string;
  correct_description : string;
}.

Record CPTDatabase : Type := {
  codes : gmap string CPTCode;
  ncci_bundles : list NCCIBundle;
  severity_keywords : gmap string (list string);
}.

Inductive RiskLevel : Type := LOW | MEDIUM | HIGH | CRITICAL.

(** The engines' risk level from a count of findings. *)
Definition levelOfCount (flaggedCount : nat) : RiskLevel :=
  if (3 <=? flaggedCount)%nat then CRITICAL
  else if (2 <=? flaggedCount)%nat then HIGH
  else if (1 <=? flaggedCount)%nat then MEDIUM
  else LOW.

(* ================================================================== *)
(** * Feature 1: cross-modal auditor ([cross-modal-auditor.ts]) *)
(* ================================================================== *)

Module CrossModal.

(** An entry of [highlighted_keywords]. *)
Inductive Keyword : Type :=
| Kw (text : string)
| KwNoEvidence          (* 'No specific evidence found for this service' *)
| KwMaxSeverity (maxSupportedSeverity : number)
| KwDominantAreas (areas : list string).

(** The templates of [generateExplanation] and of the missing
    documentation message. *)
Inductive Explanation : Type :=
| NoSupportingDocumentation
| CriticalMismatch (gap : number) (context : option (list (string * string * option number)))
| SignificantMismatch (gap : number) (context : option (list (string * string * option number)))
| MinorDiscrepancy
| MissingDocumentation.

Inductive EvidenceText : Type :=
| Notes (text : string)
| InferredFromBilling (evidence : list (string * string * option number)).

Record SeverityMismatch : Type := {
  sm_claim_id : string;
  sm_cpt_code : string;
  sm_cpt_description : string;
  billed_severity : number;
  note_severity : number;
  severity_gap : number;
  sm_billed_amount : number;
  evidence_text : EvidenceText;
  highlighted_keywords : list Keyword;
  sm_explanation : Explanation;
  sm_department : option string;
}.

Record CrossModalResult : Type := {
  mismatches : list SeverityMismatch;
  total_claims : nat;
  flagged_count : nat;
  risk_level : RiskLevel;
}.

Record NoteSeverity : Type := {
  level : number;
  keywords : list string;
}.

(** [severityKeywords[level] || []] *)
Definition keywordsAt (severityKeywords : gmap string (list string))
  (lvl : string) : list string :=
  default [] (severityKeywords !! lvl).

(** Is [k] one of [kws], case-insensitively? *)
Definition isKeywordOf (kws : list string) (k : string) : bool :=
  existsb (fun kw => String.eqb (JS.toLowerCase k) (JS.toLowerCase kw)) kws.

(** The levels scanned by [extractNoteSeverity], highest first, with the
    dictionary key [level.toString()]. *)
Definition scanLevels : list (number * string) :=
  [(JS.ofZ 5, "5"); (JS.ofZ 4, "4"); (JS.ofZ 3, "3"); (JS.ofZ 2, "2"); (JS.ofZ 1, "1")].

Definition extractNoteSeverity (notes : string)
  (severityKeywords : gmap string (list string)) : NoteSeverity :=
  let lowerNotes := JS.toLowerCase notes in
  let '(foundKeywords, maxLevel) :=
    fold_left
      (fun st lk =>
         fold_left
           (fun '(found, maxLevel) kw =>
              if JS.includes lowerNotes (JS.toLowerCase kw)
              then (found ++ [kw],
                    if (fst lk >? maxLevel)%js then fst lk else maxLevel)
              else (found, maxLevel))
           (keywordsAt severityKeywords (snd lk)) st)
      scanLevels ([], JS.ofZ 1) in
  if JS.includes lowerNotes "no record found"
     || JS.includes lowerNotes "no clinical notes available"
  then {| level := JS.ofZ 0; keywords := ["NO RECORD FOUND"] |}
  else
    let lowCount :=
      length (List.filter
                (isKeywordOf (keywordsAt severityKeywords "1"
                              ++ keywordsAt severityKeywords "2"))
                foundKeywords) in
    let highCount :=
      length (List.filter
                (isKeywordOf (keywordsAt severityKeywords "4"
                              ++ keywordsAt severityKeywords "5"))
                foundKeywords) in
    let maxLevel :=
      if (highCount <? lowCount)%nat && (maxLevel >? JS.ofZ 2)%js
      then JS.ofZ 2 else maxLevel in
    {| level := maxLevel; keywords := foundKeywords |}.

(** The character class of the regular expression that splits a
    procedure description into terms: white space, comma, hyphen,
    parentheses and slash (the em dash of the source lies outside the
    modelled code units). *)
Definition isTermSeparator (c : ascii) : bool :=
  JS.isWhiteSpace c
  || existsb (Ascii.eqb c) ["," ; "-" ; "(" ; ")" ; "/"]%char.

Definition genericTerms : list string :=
  ["the"; "and"; "with"; "level"; "visit"; "established"; "patient"; "low"; "high"].

Definition evidencePatterns : list (string * list string) :=
  [ ("99285", ["emergency"; "life threatening"; "critical"; "unstable"; "code blue"; "resuscitation"]);
    ("99284", ["emergency"; "high severity"; "urgent"; "acute"]);
    ("99283", ["emergency"; "moderate"]);
    ("73600", ["x-ray"; "xray"; "x ray"; "ankle"; "radiograph"]);
    ("70553", ["mri"; "brain"; "magnetic resonance"; "contrast"; "neurological"]);
    ("99070", ["supplies"; "brace"; "material"; "medication"; "med"; "ankle brace"; "tab."; "tablet"]);
    ("99213", ["office visit"; "follow-up"; "follow up"; "outpatient"; "review"]);
    ("99214", ["office visit"; "moderate complexity"]);
    ("49320", ["laparoscop"; "exploratory"; "scope"]);
    ("44950", ["appendectomy"; "appendix"]);
    ("44970", ["laparoscopic appendectomy"]);
    ("12001", ["suture"; "wound"; "closure"]) ].

Definition checkServiceEvidence (cptCode cptDescription notes : string) : bool :=
  let lowerNotes := JS.toLowerCase notes in
  let lowerDesc := JS.toLowerCase cptDescription in
  let descTerms :=
    List.filter (fun t => (3 <=? String.length t)%nat)
                (JS.split isTermSeparator lowerDesc) in
  let matchCount :=
    fold_left
      (fun matchCount term =>
         if JS.arrayIncludes genericTerms term then matchCount
         else if JS.includes lowerNotes term then S matchCount
         else matchCount)
      descTerms 0%nat in
  let patterns := lookupList evidencePatterns cptCode in
  let patternMatches :=
    fold_left
      (fun patternMatches p =>
         if JS.includes lowerNotes p then S patternMatches else patternMatches)
      patterns 0%nat in
  (2 <=? matchCount)%nat || (1 <=? patternMatches)%nat.

(** Body-area detection categories for cross-referencing services, in
    the order of [Object.entries]. *)
Definition BODY_AREA_KEYWORDS : list (string * list string) :=
  [ ("ankle", ["ankle"; "73600"; "73610"; "73620"]);
    ("brain", ["brain"; "cerebral"; "cranial"; "70553"; "70551"; "70552"]);
    ("abdomen", ["abdomen"; "abdominal"; "appendix"; "laparoscop"; "49320"; "44950"; "44970"]);
    ("chest", ["chest"; "thorax"; "pulmonary"; "cardiac"; "heart"]);
    ("spine", ["spine"; "spinal"; "lumbar"; "cervical"; "thoracic"]);
    ("knee", ["knee"; "patellar"; "73721"; "73560"]);
    ("shoulder", ["shoulder"; "rotator"; "acromial"]);
    ("hip", ["hip"; "femoral"; "acetabular"]);
    ("wrist", ["wrist"; "carpal"; "73100"]) ].

Record ClinicalPicture : Type := {
  dominantAreas : list string;
  maxSupportedSeverity : number;
  inferredDescription : string;
}.

(** First pass of [inferClinicalPicture]: the per-area counters and
    maximal severities after the claims seen so far. *)
Definition countAreas (claims : list ClaimItem) (cptDb : CPTDatabase)
  : Counter.t * gmap string number :=
  fold_left
    (fun st c =>
       let desc := JS.toLowerCase (cpt_description c) in
       let cptInfo := codes cptDb !! cpt_code c in
       if match cptInfo with
          | Some info => String.eqb (category info) "E&M"
          | None => false
          end
       then st
       else
         fold_left
           (fun '(areaCounts, areaSeverities) entry =>
              let '(area, keywords) := entry in
              if existsb (fun kw => JS.includes desc kw || String.eqb (cpt_code c) kw)
                         keywords
              then
                let sev := JS.orElse (severity <$> cptInfo) (JS.ofZ 1) in
                (Counter.incr area areaCounts,
                 <[area := JS.max (JS.orElse (areaSeverities !! area) (JS.ofZ 0)) sev]>
                   areaSeverities)
              else (areaCounts, areaSeverities))
           BODY_AREA_KEYWORDS st)
    claims (Counter.empty, ∅).

(** Fallback of [inferClinicalPicture]: the largest severity among the
    services that are neither E&M nor Supplies, at least 1. *)
Definition fallbackSeverity (claims : list ClaimItem) (cptDb : CPTDatabase)
  : number :=
  fold_left
    (fun maxSupportedSev c =>
       match codes cptDb !! cpt_code c with
       | Some info =>
           if negb (String.eqb (category info) "E&M")
              && negb (String.eqb (category info) "Supplies")
           then JS.max maxSupportedSev (severity info)
           else maxSupportedSev
       | None => maxSupportedSev
       end)
    claims (JS.ofZ 1).

Definition inferClinicalPicture (claims : list ClaimItem) (cptDb : CPTDatabase)
  : ClinicalPicture :=
  let allDescriptions := map (fun c => JS.toLowerCase (cpt_description c)) claims in
  let '(areaCounts, areaSeverities) := countAreas claims cptDb in
  let sortedAreas := Counter.sortDescending areaCounts in
  let dominantAreas := map fst sortedAreas in
  let maxSupportedSev :=
    match head dominantAreas with
    | Some dominantArea =>
        match (if (0 <? String.length dominantArea)%nat
               then areaSeverities !! dominantArea else None) with
        | Some sev => sev
        | None => fallbackSeverity claims cptDb
        end
    | None => fallbackSeverity claims cptDb
    end in
  {| dominantAreas := dominantAreas;
     maxSupportedSeverity := maxSupportedSev;
     inferredDescription := String.concat "; " allDescriptions |}.

Definition generateExplanation (billedSeverity noteSeverity : number)
  (inferredContext : option (list (string * string * option number)))
  : Explanation :=
  let gap := (billedSeverity - noteSeverity)%js in
  if (noteSeverity === JS.ofZ 0)%js then NoSupportingDocumentation
  else if (gap >=? JS.ofZ 3)%js then CriticalMismatch gap inferredContext
  else if (gap >=? JS.ofZ 2)%js then SignificantMismatch gap inferredContext
  else MinorDiscrepancy.

(** The condition under which Path A records a mismatch. *)
Definition shouldFlag (hasEvidence : bool) (billedSeverity gap : number) : bool :=
  (negb hasEvidence && (billedSeverity >=? JS.ofZ 2)%js)
  || (gap >=? JS.ofZ 3)%js
  || ((gap >=? JS.ofZ 2)%js && negb hasEvidence).

(** The other billed services cited as evidence by Path B. *)
Definition billingEvidence (claims : list ClaimItem) (cptDb : CPTDatabase)
  (claim : ClaimItem) : list (string * string * option number) :=
  map (fun c =>
         (cpt_code c, cpt_description c,
          match codes cptDb !! cpt_code c with
          | Some info => if JS.truthy (severity info) then Some (severity info) else None
          | None => None
          end))
      (List.filter
         (fun c =>
            negb (String.eqb (claim_id c) (claim_id claim))
            && negb (match codes cptDb !! cpt_code c with
                     | Some info => String.eqb (category info) "E&M"
                     | None => false
                     end))
         claims).

(** The body of the loop of [runCrossModalAudit]: the mismatches pushed
    for one claim (none or one). *)
Definition auditClaim (claims : list ClaimItem) (cptDb : CPTDatabase)
  (clinicalPicture : ClinicalPicture) (hasAnyNotes : bool) (claim : ClaimItem)
  : list SeverityMismatch :=
  match codes cptDb !! cpt_code claim with
  | None => []
  | Some cptInfo =>
      let billedSeverity := severity cptInfo in
      if JS.hasText (recorded_clinical_notes claim) then
        (* Path A: clinical notes exist, compare directly *)
        let noteAnalysis :=
          extractNoteSeverity (recorded_clinical_notes claim) (severity_keywords cptDb) in
        let hasEvidence :=
          checkServiceEvidence (cpt_code claim) (cpt_description claim)
                               (recorded_clinical_notes claim) in
        let gap := (billedSeverity - level noteAnalysis)%js in
        if shouldFlag hasEvidence billedSeverity gap then
          let effectiveNoteSeverity :=
            if hasEvidence then level noteAnalysis
            else JS.min (level noteAnalysis) (JS.ofZ 1) in
          let effectiveGap := (billedSeverity - effectiveNoteSeverity)%js in
          [ {| sm_claim_id := claim_id claim;
               sm_cpt_code := cpt_code claim;
               sm_cpt_description := cpt_description claim;
               billed_severity := billedSeverity;
               note_severity := effectiveNoteSeverity;
               severity_gap := effectiveGap;
               sm_billed_amount := billed_amount_inr claim;
               evidence_text := Notes (recorded_clinical_notes claim);
               highlighted_keywords :=
                 if hasEvidence then map Kw (keywords noteAnalysis) else [KwNoEvidence];
               sm_explanation :=
                 if hasEvidence
                 then generateExplanation billedSeverity (level noteAnalysis) None
                 else MissingDocumentation;
               sm_department := Some (department claim) |} ]
        else []
      else
        (* Path B: no clinical notes, infer from the billing context *)
        if negb (String.eqb (category cptInfo) "E&M") then []
        else if (billedSeverity <=? JS.ofZ 2)%js then []
        else
          let inferredSeverity :=
            JS.min (maxSupportedSeverity clinicalPicture + JS.ofZ 1)%js (JS.ofZ 5) in
          let gap := (billedSeverity - inferredSeverity)%js in
          if (gap >=? JS.ofZ 2)%js then
            let evidence := billingEvidence claims cptDb claim in
            [ {| sm_claim_id := claim_id claim;
                 sm_cpt_code := cpt_code claim;
                 sm_cpt_description := cpt_description claim;
                 billed_severity := billedSeverity;
                 note_severity := inferredSeverity;
                 severity_gap := gap;
                 sm_billed_amount := billed_amount_inr claim;
                 evidence_text :=
                   if hasAnyNotes then Notes EmptyString else InferredFromBilling evidence;
                 highlighted_keywords :=
                   [ KwMaxSeverity (maxSupportedSeverity clinicalPicture);
                     KwDominantAreas (dominantAreas clinicalPicture) ];
                 sm_explanation :=
                   generateExplanation billedSeverity inferredSeverity (Some evidence);
                 sm_department := None |} ]
          else []
  end.

Definition runCrossModalAudit (claims : list ClaimItem) (cptDb : CPTDatabase)
  : CrossModalResult :=
  let hasAnyNotes := existsb (fun c => JS.hasText (recorded_clinical_notes c)) claims in
  let clinicalPicture := inferClinicalPicture claims cptDb in
  let mismatches :=
    forEachPush (auditClaim claims cptDb clinicalPicture hasAnyNotes) claims in
  let flaggedCount := length mismatches in
  {| mismatches := mismatches;
     total_claims := length claims;
     flagged_count := flaggedCount;
     risk_level := levelOfCount flaggedCount |}.

End CrossModal.

(* ================================================================== *)
(** * The platform: clock, date parser and [Math] *)
(* ================================================================== *)

(** What ECMAScript leaves to the implementation or to the environment.
    [dateParse s] is the time value of [new Date(s)], [None] for an
    invalid date; [dateNow] is the time value of [new Date()].  The
    functions of [Math] are implementation-approximated. *)
Record Platform : Type := {
  dateParse : string -> option Z;
  dateNow : Z;
  Math_PI : number;
  Math_sin : number -> number;
  Math_cos : number -> number;
  Math_sqrt : number -> number;
  Math_atan2 : number -> number -> number;
}.

Module DateISO.

(** [n] in decimal on [width] digits. *)
Fixpoint padDigits (width : nat) (n : Z) : string :=
  match width with
  | O => EmptyString
  | S w => padDigits w (n / 10)
           ++ String (ascii_of_nat (48 + Z.to_nat (n mod 10))) EmptyString
  end.

(** Year, month and day of a day number counted from 1970-01-01, in the
    proleptic Gregorian calendar. *)
Definition civilFromDays (days : Z) : Z * Z * Z :=
  let z := (days + 719468)%Z in
  let era := (z / 146097)%Z in
  let doe := (z - era * 146097)%Z in
  let yoe := ((doe - doe / 1460 + doe / 36524 - doe / 146096) / 365)%Z in
  let doy := (doe - (365 * yoe + yoe / 4 - yoe / 100))%Z in
  let mp := ((5 * doy + 2) / 153)%Z in
  let d := (doy - (153 * mp + 2) / 5 + 1)%Z in
  let m := (if mp <? 10 then mp + 3 else mp - 9)%Z in
  let y := (yoe + era * 400 + (if m <=? 2 then 1 else 0))%Z in
  (y, m, d).

(** Day number of a calendar date, the inverse of [civilFromDays]. *)
Definition daysFromCivil (y m d : Z) : Z :=
  let y' := (if m <=? 2 then y - 1 else y)%Z in
  let era := (y' / 400)%Z in
  let yoe := (y' - era * 400)%Z in
  let doy := ((153 * (if m >? 2 then m - 3 else m + 9) + 2) / 5 + d - 1)%Z in
  let doe := (yoe * 365 + yoe / 4 - yoe / 100 + doy)%Z in
  (era * 146097 + doe - 719468)%Z.

(** [new Date(t).toISOString().split('T')[0]] *)
Definition isoDatePart (t : Z) : string :=
  let '(y, m, d) := civilFromDays (t / 86400000) in
  (if (0 <=? y)%Z && (y <=? 9999)%Z then padDigits 4 y
   else (if (y <? 0)%Z then "-" else "+") ++ padDigits 6 (Z.abs y))
  ++ "-" ++ padDigits 2 m ++ "-" ++ padDigits 2 d.

End DateISO.

(* ================================================================== *)
(** * Feature 2: timeline detective ([timeline-detective.ts]) *)
(* ================================================================== *)

Module Timeline.

Record TimelineEvent : Type := {
  ev_claim_id : string;
  start_time : Z;   (* the time value behind the ISO string *)
  end_time : Z;
  ev_department : string;
  procedure : string;
  ev_location_lat : option number;
  ev_location_lng : option number;
}.

Inductive OverlapType : Type := OVERLAP | TELEPORTATION.

(** The four explanation templates. *)
Inductive Explanation : Type :=
| ImpossibleTravel (distance requiredSpeed : number)
| TimeOverlap (overlapMinutes : number)
| TimeOverlapDifferentLocations (overlapMinutes : number)
| SameLocationOverlap (overlapMinutes : number).

Record TimelineOverlap : Type := {
  event_a : TimelineEvent;
  event_b : TimelineEvent;
  overlap_minutes : number;
  explanation : Explanation;
  type : OverlapType;
  required_speed_kmh : option number;
}.

Record TimelineResult : Type := {
  events : list TimelineEvent;
  overlaps : list TimelineOverlap;
  flagged_count : nat;
  risk_level : RiskLevel;
}.

(** Default procedure durations in minutes by CPT category,
    [DEFAULT_DURATIONS[category] || 30]. *)
Definition DEFAULT_DURATIONS : list (string * Z) :=
  [ ("E&M", 30); ("Critical Care", 60); ("Radiology", 45);
    ("Surgery", 120); ("Physical Therapy", 30); ("Supplies", 10) ]%Z.

Definition durationOf (category : string) : Z :=
  match find (fun kv => String.eqb (fst kv) category) DEFAULT_DURATIONS with
  | Some kv => snd kv
  | None => 30
  end.

Section WithPlatform.

Variable P : Platform.

(** Haversine formula: distance between two lat/lng points in km. *)
Definition haversineDistance (lat1 lng1 lat2 lng2 : number) : number :=
  let R := JS.ofZ 6371 in
  let dLat := ((lat2 - lat1) * Math_PI P / JS.ofZ 180)%js in
  let dLng := ((lng2 - lng1) * Math_PI P / JS.ofZ 180)%js in
  let a :=
    (Math_sin P (dLat / JS.ofZ 2) * Math_sin P (dLat / JS.ofZ 2)
     + Math_cos P (lat1 * Math_PI P / JS.ofZ 180)
       * Math_cos P (lat2 * Math_PI P / JS.ofZ 180)
       * Math_sin P (dLng / JS.ofZ 2) * Math_sin P (dLng / JS.ofZ 2))%js in
  let c :=
    (JS.ofZ 2 * Math_atan2 P (Math_sqrt P a) (Math_sqrt P (JS.ofZ 1 - a)))%js in
  (R * c)%js.

(** The string handed to the [Date] constructor by [parseDateTime]. *)
Definition dateTimeString (date time : string) : string :=
  let validDate :=
    if JS.hasText date then date else DateISO.isoDatePart (dateNow P) in
  let validTime := if JS.hasText time then time else "12:00" in
  validDate ++ "T" ++ validTime ++ ":00".

(** Parse date + time to a time value; never an invalid date. *)
Definition parseDateTime (date time : string) : Z :=
  match dateParse P (dateTimeString date time) with
  | Some d => d
  | None => dateNow P
  end.

Definition claimToEvent (cptDb : CPTDatabase) (claim : ClaimItem) : TimelineEvent :=
  let cptInfo := codes cptDb !! cpt_code claim in
  let category :=
    match cptInfo with
    | Some info => if (0 <? String.length (category info))%nat
                   then category info else "E&M"
    | None => "E&M"
    end in
  let durationMinutes := durationOf category in
  let startDate := parseDateTime (date claim) (time claim) in
  let endDate := (startDate + durationMinutes * 60000)%Z in
  {| ev_claim_id := claim_id claim;
     start_time := startDate;
     end_time := endDate;
     ev_department := department claim;
     procedure := cpt_description claim;
     ev_location_lat := location_lat claim;
     ev_location_lng := location_lng claim |}.

Definition claimsToEvents (claims : list ClaimItem) (cptDb : CPTDatabase)
  : list TimelineEvent :=
  map (claimToEvent cptDb) claims.

(** Overlap of two time intervals in minutes, 0 when they do not overlap. *)
Definition intervalsOverlap (startA endA startB endB : Z) : number :=
  let overlapStart := Z.max startA startB in
  let overlapEnd := Z.min endA endB in
  let overlapMs := (overlapEnd - overlapStart)%Z in
  if (0 <? overlapMs)%Z then (JS.ofZ overlapMs / JS.ofZ 60000)%js else JS.ofZ 0.

(** The value of an optional number in arithmetic ([undefined] is NaN). *)
Definition toNumber (x : option number) : number := default NaN x.

(** The body of the pair loop of [runTimelineDetective]: the overlap
    pushed for the events [a] and [b] (none or one). *)
Definition checkPair (a b : TimelineEvent) : list TimelineOverlap :=
  let overlapMinutes :=
    intervalsOverlap (start_time a) (end_time a) (start_time b) (end_time b) in
  if (overlapMinutes >? JS.ofZ 0)%js then
    let differentLocation := negb (String.eqb (ev_department a) (ev_department b)) in
    if differentLocation
       && JS.truthyOpt (ev_location_lat a) && JS.truthyOpt (ev_location_lng a)
       && JS.truthyOpt (ev_location_lat b) && JS.truthyOpt (ev_location_lng b)
    then
      let distance :=
        haversineDistance (toNumber (ev_location_lat a)) (toNumber (ev_location_lng a))
                          (toNumber (ev_location_lat b)) (toNumber (ev_location_lng b)) in
      let timeDiffHours :=
        (JS.ofZ (Z.abs (start_time b - start_time a)) / JS.ofZ 3600000)%js in
      let requiredSpeed :=
        if (timeDiffHours >? JS.ofZ 0)%js then (distance / timeDiffHours)%js
        else Infinity in
      if (distance >? JS.ofZ 5)%js then
        [ {| event_a := a; event_b := b; overlap_minutes := overlapMinutes;
             explanation := ImpossibleTravel distance requiredSpeed;
             type := TELEPORTATION;
             required_speed_kmh := Some requiredSpeed |} ]
      else
        [ {| event_a := a; event_b := b; overlap_minutes := overlapMinutes;
             explanation := TimeOverlap overlapMinutes;
             type := OVERLAP;
             required_speed_kmh := Some requiredSpeed |} ]
    else if differentLocation then
      [ {| event_a := a; event_b := b; overlap_minutes := overlapMinutes;
           explanation := TimeOverlapDifferentLocations overlapMinutes;
           type := OVERLAP;
           required_speed_kmh := None |} ]
    else
      [ {| event_a := a; event_b := b; overlap_minutes := overlapMinutes;
           explanation := SameLocationOverlap overlapMinutes;
           type := OVERLAP;
           required_speed_kmh := None |} ]
  else [].

(** The two nested loops over [i < j]. *)
Fixpoint checkAllPairs (events : list TimelineEvent) : list TimelineOverlap :=
  match events with
  | [] => []
  | a :: later => forEachPush (checkPair a) later ++ checkAllPairs later
  end.

Definition isTeleportation (o : TimelineOverlap) : bool :=
  match type o with TELEPORTATION => true | OVERLAP => false end.

Definition runTimelineDetective (claims : list ClaimItem) (cptDb : CPTDatabase)
  : TimelineResult :=
  let events := claimsToEvents claims cptDb in
  let overlaps := checkAllPairs events in
  let flaggedCount := length overlaps in
  {| events := events;
     overlaps := overlaps;
     flagged_count := flaggedCount;
     risk_level :=
       if existsb isTeleportation overlaps then CRITICAL
       else if (3 <=? flaggedCount)%nat then HIGH
       else if (1 <=? flaggedCount)%nat then MEDIUM
       else LOW |}.

End WithPlatform.

End Timeline.

(* ================================================================== *)
(** * Feature 3: ghost and unbundling hunter ([ghost-unbundle-hunter.ts]) *)
(* ================================================================== *)

Module GhostUnbundle.

Inductive GhostExplanation : Type :=
| PhantomBilling                                   (* notes deny the service *)
| InsufficientEvidence (score : number) (category : string)
| PhantomUnrelatedArea (thisArea dominantArea : string).

Record GhostService : Type := {
  gs_claim_id : string;
  gs_cpt_code : string;
  gs_cpt_description : string;
  gs_billed_amount : number;
  similarity_score : number;
  gs_explanation : GhostExplanation;
}.

Inductive UnbundlingExplanation : Type :=
| UnbundlingDetected (codes : list string) (bundleDescription : string).

Record UnbundlingAlert : Type := {
  involved_claims : list string;
  involved_codes : list string;
  involved_descriptions : list string;
  total_billed : number;
  correct_code : string;
  ua_correct_description : string;
  correct_cost : number;
  potential_savings : number;
  ua_explanation : UnbundlingExplanation;
}.

Record GhostUnbundleResult : Type := {
  ghost_services : list GhostService;
  unbundling_alerts : list UnbundlingAlert;
  total_potential_savings : number;
  flagged_count : nat;
  risk_level : RiskLevel;
}.

(** Keyword synonym groups for semantic matching, in the order of
    [Object.entries]. *)
Definition SEMANTIC_GROUPS : list (string * list string) :=
  [ ("mri", ["mri"; "magnetic resonance"; "tesla"; "t1-weighted"; "t2-weighted"; "flair"; "stir"; "mri brain"; "axial"; "sagittal"; "coronal"]);
    ("xray", ["x-ray"; "xray"; "radiograph"; "film"; "views"; "ap "; "lateral"]);
    ("ct", ["ct scan"; "computed tomography"; "cat scan"]);
    ("surgery", ["surgery"; "surgical"; "incision"; "excision"; "resection"; "operation"; "operat"]);
    ("appendectomy", ["appendix"; "appendectomy"; "appendiceal"; "cecum"]);
    ("laparoscopy", ["laparoscop"; "trocar"; "abdomen inflated"; "scope"; "minimally invasive"]);
    ("suture", ["suture"; "stitch"; "closure"; "wound closure"; "closed with"]);
    ("physio", ["physiotherapy"; "physical therapy"; "exercise"; "rehabilitation"; "rehab"; "therapeutic exercise"]);
    ("pharmacy", ["medication"; "drug"; "prescribed"; "tablet"; "capsule"; "brace"; "supplies"; "tab"; "rice"; "ice"; "compression"; "ibuprofen"; "mg "; "bd "; " x "]);
    ("emergency", ["emergency"; "ed visit"; "er visit"; "trauma"; "acute presentation"; "triage"; "resuscitation"; "emergency department"]);
    ("brain", ["brain"; "cerebral"; "cranial"; "neurological"; "head"; "neuro"; "mental status"; "consciousness"]) ].

(** Body areas with their CPT codes and description keywords. *)
Definition BODY_AREA_MAP : list (string * (list string * list string)) :=
  [ ("ankle/foot", (["73600"; "73610"; "73620"; "73630"], ["ankle"; "foot"; "tarsal"; "metatarsal"]));
    ("knee", (["73560"; "73721"; "27447"], ["knee"; "patellar"; "tibial"]));
    ("hip", (["73501"; "73721"], ["hip"; "femoral"; "acetabulum"]));
    ("brain/head", (["70553"; "70551"; "70552"; "70540"], ["brain"; "head"; "cranial"; "cerebral"; "neurological"]));
    ("abdomen", (["49320"; "44950"; "44970"; "74177"], ["abdomen"; "abdominal"; "appendix"; "laparoscop"; "bowel"]));
    ("chest", (["71046"; "71275"], ["chest"; "thorax"; "pulmonary"; "cardiac"; "lung"]));
    ("spine", (["72148"; "72141"], ["spine"; "spinal"; "lumbar"; "cervical"; "vertebral"]));
    ("wrist/hand", (["73100"; "73110"; "73120"], ["wrist"; "hand"; "carpal"; "metacarpal"]));
    ("shoulder", (["73221"; "23472"], ["shoulder"; "rotator"; "acromial"; "clavicle"])) ].

(** Generic categories that can appear with any body area. *)
Definition GENERIC_CATEGORIES : list string := ["E&M"; "Supplies"; "Physical Therapy"].

(** The body area of a claim, [None] when generic. *)
Definition getBodyArea (cptCode description : string) : option string :=
  let lowerDesc := JS.toLowerCase description in
  fst <$> find (fun '(area, (codes, keywords)) =>
                  JS.arrayIncludes codes cptCode
                  || existsb (JS.includes lowerDesc) keywords)
               BODY_AREA_MAP.

(** The semantic groups relevant to a CPT description. *)
Definition getRelevantGroups (cptDescription : string) : list string :=
  let lower := JS.toLowerCase cptDescription in
  map fst (List.filter (fun '(group, keywords) => existsb (JS.includes lower) keywords)
                       SEMANTIC_GROUPS).

(** The explicit denial patterns of [calculateSimilarity]. *)
Definition hasDenial (lowerNotes : string) : bool :=
  JS.includes lowerNotes "no record found"
  || (JS.includes lowerNotes "not required" && (String.length lowerNotes <? 100)%nat)
  || JS.includes lowerNotes "no clinical notes available".

(** Semantic similarity score between a CPT description and clinical
    notes. *)
Definition calculateSimilarity (cptDescription notes : string) : number :=
  let relevantGroups := getRelevantGroups cptDescription in
  if (length relevantGroups =? 0)%nat then Num 0.5
  else
    let lowerNotes := JS.toLowerCase notes in
    let '(matchCount, totalKeywords) :=
      fold_left
        (fun st group =>
           fold_left
             (fun '(matchCount, totalKeywords) kw =>
                (if JS.includes lowerNotes kw then S matchCount else matchCount,
                 S totalKeywords))
             (lookupList SEMANTIC_GROUPS group) st)
        relevantGroups (0%nat, 0%nat) in
    if hasDenial lowerNotes then Num 0
    else if (0 <? totalKeywords)%nat
         then (JS.ofNat matchCount / JS.ofNat totalKeywords)%js
         else Num 0.5.

Definition THRESHOLD : number := JS.lit 0.15.

Record BodyAreaEntry : Type := {
  ba_code : string;
  ba_area : option string;
  ba_category : string;
}.

(** [cptInfo?.category || 'Unknown'] *)
Definition categoryOf (cptDb : CPTDatabase) (c : ClaimItem) : string :=
  match codes cptDb !! cpt_code c with
  | Some info => if (0 <? String.length (category info))%nat
                 then category info else "Unknown"
  | None => "Unknown"
  end.

Definition isGeneric (category : string) : bool :=
  JS.arrayIncludes GENERIC_CATEGORIES category.

(** A body area usable as a dictionary key test ([ba.area && ...]). *)
Definition truthyArea (area : option string) : option string :=
  match area with
  | Some a => if (0 <? String.length a)%nat then Some a else None
  | None => None
  end.

Definition sameArea (x y : option string) : bool :=
  match x, y with
  | Some a, Some b => String.eqb a b
  | None, None => true
  | _, _ => false
  end.

(** The body of the loop of [detectGhostServices] for the claim at
    index [i]. *)
Definition checkGhost (cptDb : CPTDatabase) (bodyAreas : list BodyAreaEntry)
  (dominantArea : option string) (i : nat) (claim : ClaimItem)
  : list GhostService :=
  let category := categoryOf cptDb claim in
  if JS.hasText (recorded_clinical_notes claim) then
    (* Path A: clinical notes exist, semantic matching *)
    let score := calculateSimilarity (cpt_description claim)
                                     (recorded_clinical_notes claim) in
    if (score <? THRESHOLD)%js then
      [ {| gs_claim_id := claim_id claim;
           gs_cpt_code := cpt_code claim;
           gs_cpt_description := cpt_description claim;
           gs_billed_amount := billed_amount_inr claim;
           similarity_score := score;
           gs_explanation :=
             if (score === JS.ofZ 0)%js then PhantomBilling
             else InsufficientEvidence score category |} ]
    else []
  else
    (* Path B: no notes, body-area analysis *)
    if isGeneric category then []
    else
      match truthyArea (bodyAreas !! i ≫= ba_area) with
      | None => []
      | Some thisArea =>
          match dominantArea with
          | Some dominant =>
              if negb (String.eqb thisArea dominant) then
                let hasRelatedService :=
                  existsb
                    (fun '(idx, ba) =>
                       negb (idx =? i)%nat
                       && sameArea (ba_area ba) (Some thisArea)
                       && negb (isGeneric (ba_category ba)))
                    (combine (seq 0 (length bodyAreas)) bodyAreas) in
                if negb hasRelatedService then
                  [ {| gs_claim_id := claim_id claim;
                       gs_cpt_code := cpt_code claim;
                       gs_cpt_description := cpt_description claim;
                       gs_billed_amount := billed_amount_inr claim;
                       similarity_score := Num 0;
                       gs_explanation := PhantomUnrelatedArea thisArea dominant |} ]
                else []
              else []
          | None => []
          end
      end.

(** Detect ghost (phantom) services: billed items with no clinical
    evidence. *)
Definition detectGhostServices (claims : list ClaimItem) (cptDb : CPTDatabase)
  : list GhostService :=
  let bodyAreas :=
    map (fun c => {| ba_code := cpt_code c;
                     ba_area := getBodyArea (cpt_code c) (cpt_description c);
                     ba_category := categoryOf cptDb c |})
        claims in
  let areaCounts :=
    fold_left
      (fun areaCounts ba =>
         match truthyArea (ba_area ba) with
         | Some area =>
             if negb (isGeneric (ba_category ba)) then Counter.incr area areaCounts
             else areaCounts
         | None => areaCounts
         end)
      bodyAreas Counter.empty in
  let sortedAreas := Counter.sortDescending areaCounts in
  let dominantArea := truthyArea (fst <$> head sortedAreas) in
  forEachPush (fun '(i, claim) => checkGhost cptDb bodyAreas dominantArea i claim)
              (combine (seq 0 (length claims)) claims).

(** The alert pushed for one bundling rule (none or one). *)
Definition checkBundle (claims : list ClaimItem) (cptDb : CPTDatabase)
  (billedCodes : gset string) (bundle : NCCIBundle) : list UnbundlingAlert :=
  let hasPrimary := bool_decide (primary_code bundle ∈ billedCodes) in
  let presentBundled :=
    List.filter (fun c => bool_decide (c ∈ billedCodes)) (bundled_codes bundle) in
  if hasPrimary && (0 <? length presentBundled)%nat then
    let involvedCodes := primary_code bundle :: presentBundled in
    let involvedClaims :=
      List.filter (fun c => JS.arrayIncludes involvedCodes (cpt_code c)) claims in
    let totalBilled := JS.sumBy billed_amount_inr involvedClaims in
    let correctCostInfo := codes cptDb !! correct_single_code bundle in
    let correctCost :=
      JS.orElse (avg_cost_inr <$> correctCostInfo) (totalBilled * JS.lit 0.6)%js in
    [ {| involved_claims := map claim_id involvedClaims;
         involved_codes := involvedCodes;
         involved_descriptions := map cpt_description involvedClaims;
         total_billed := totalBilled;
         correct_code := correct_single_code bundle;
         ua_correct_description := correct_description bundle;
         correct_cost := correctCost;
         potential_savings := (totalBilled - correctCost)%js;
         ua_explanation :=
           UnbundlingDetected involvedCodes (bundle_description bundle) |} ]
  else [].

(** Detect unbundling: procedures billed separately that should be a
    single bundle. *)
Definition detectUnbundling (claims : list ClaimItem) (cptDb : CPTDatabase)
  : list UnbundlingAlert :=
  let billedCodes : gset string := list_to_set (map cpt_code claims) in
  forEachPush (checkBundle claims cptDb billedCodes) (ncci_bundles cptDb).

Definition runGhostUnbundleHunter (claims : list ClaimItem) (cptDb : CPTDatabase)
  : GhostUnbundleResult :=
  let ghostServices := detectGhostServices claims cptDb in
  let unbundlingAlerts := detectUnbundling claims cptDb in
  let ghostSavings := JS.sumBy gs_billed_amount ghostServices in
  let unbundleSavings := JS.sumBy potential_savings unbundlingAlerts in
  let totalSavings := (ghostSavings + unbundleSavings)%js in
  let flaggedCount := (length ghostServices + length unbundlingAlerts)%nat in
  {| ghost_services := ghostServices;
     unbundling_alerts := unbundlingAlerts;
     total_potential_savings := totalSavings;
     flagged_count := flaggedCount;
     risk_level := levelOfCount flaggedCount |}.

End GhostUnbundle.

(* ================================================================== *)
(** * Feature 4: transparent advisor ([xai-advisor.ts]) *)
(* ================================================================== *)

Module XAI.

Import CrossModal Timeline GhostUnbundle.

Inductive Direction : Type := RISK | SAFE.

Inductive Recommendation : Type := APPROVE | REVIEW | REJECT | ESCALATE.

(** The description templates of the risk factors. *)
Inductive FactorDescription : Type :=
| SeverityMismatchText (count : nat) (maxGap : number)
| SeverityMatchText
| ImpossibleTravelText (count : nat)
| TimeOverlapsText (count : nat)
| TimelineCleanText
| PhantomChargesText (count : nat) (ghostAmount : number)
| CodeUnbundlingText (count : nat) (savings : number)
| ExcessiveBillingText (totalBilled costRatio avgExpected : number)
| CostNormalText (totalBilled : number)
| PoorDocumentationText (missingDocs : nat)
| DocumentationCompleteText.

Record RiskFactor : Type := {
  name : string;
  contribution : number;
  rf_description : FactorDescription;
  direction : Direction;
}.

Definition isRisk (f : RiskFactor) : bool :=
  match direction f with RISK => true | SAFE => false end.

Definition isSafe (f : RiskFactor) : bool :=
  match direction f with SAFE => true | RISK => false end.

Record FinancialSummary : Type := {
  billed_amount : number;
  expected_amount : number;
  fs_potential_savings : number;
}.

(** The deterministic narrative: the score band that selects the opening
    and the recommendation paragraphs, and the factors it lists. *)
Record LocalNarrative : Type := {
  patientName : string;
  band : RiskLevel;
  auditConcerns : list RiskFactor;
  inFavour : list RiskFactor;
}.

Inductive Narrative : Type :=
| LlmBrief (text : string)
| Template (local : LocalNarrative).

Record XAIResult : Type := {
  risk_score : number;
  risk_level : RiskLevel;
  factors : list RiskFactor;
  narrative : Narrative;
  recommendation : Recommendation;
  financial_summary : FinancialSummary;
}.

(** What [generateMegaLLMBrief] receives. *)
Record BriefRequest : Type := {
  br_patient_name : string;
  br_total_billed : number;
  br_total_claims : nat;
  br_risk_score : number;
  br_factors : list RiskFactor;
  br_potential_savings : number;
}.

(** Claims with a denial phrase or near-empty notes. *)
Definition lacksDocumentation (c : ClaimItem) : bool :=
  JS.includes (JS.toLowerCase (recorded_clinical_notes c)) "no record"
  || (String.length (recorded_clinical_notes c) <? 20)%nat.

(** Calculate individual risk factors from all feature results. *)
Definition calculateFactors (crossModal : CrossModalResult)
  (timeline : TimelineResult) (ghostUnbundle : GhostUnbundleResult)
  (claims : list ClaimItem) (cptDb : CPTDatabase) : list RiskFactor :=
  let totalBilled := JS.sumBy billed_amount_inr claims in
  let avgExpected :=
    JS.sumBy (fun c => JS.orElse (avg_cost_inr <$> (codes cptDb !! cpt_code c)) (JS.ofZ 0))
             claims in
  (* Factor 1: severity mismatch *)
  let factor1 :=
    if (0 <? length (mismatches crossModal))%nat then
      let maxGap := JS.maxList (map severity_gap (mismatches crossModal)) in
      [ {| name := "Severity Mismatch";
           contribution := JS.min (maxGap * JS.lit 0.12)%js (JS.lit 0.35);
           rf_description := SeverityMismatchText (length (mismatches crossModal)) maxGap;
           direction := RISK |} ]
    else
      [ {| name := "Severity Match";
           contribution := JS.lit (-0.08);
           rf_description := SeverityMatchText;
           direction := SAFE |} ] in
  (* Factor 2: timeline anomalies *)
  let factor2 :=
    if (0 <? length (overlaps timeline))%nat then
      let hasTeleportation := existsb isTeleportation (overlaps timeline) in
      let contribution :=
        if hasTeleportation then JS.lit 0.30
        else (JS.ofNat (length (overlaps timeline)) * JS.lit 0.10)%js in
      [ {| name := if hasTeleportation then "Impossible Travel" else "Time Overlaps";
           contribution := JS.min contribution (JS.lit 0.35);
           rf_description :=
             if hasTeleportation then ImpossibleTravelText (length (overlaps timeline))
             else TimeOverlapsText (length (overlaps timeline));
           direction := RISK |} ]
    else
      [ {| name := "Timeline Clean";
           contribution := JS.lit (-0.05);
           rf_description := TimelineCleanText;
           direction := SAFE |} ] in
  (* Factor 3: ghost services *)
  let factor3 :=
    if (0 <? length (ghost_services ghostUnbundle))%nat then
      let ghostAmount := JS.sumBy gs_billed_amount (ghost_services ghostUnbundle) in
      [ {| name := "Phantom Charges";
           contribution :=
             JS.min (JS.lit 0.10 + (ghostAmount / totalBilled) * JS.lit 0.3)%js
                    (JS.lit 0.30);
           rf_description :=
             PhantomChargesText (length (ghost_services ghostUnbundle)) ghostAmount;
           direction := RISK |} ]
    else [] in
  (* Factor 4: unbundling *)
  let factor4 :=
    if (0 <? length (unbundling_alerts ghostUnbundle))%nat then
      let savings := total_potential_savings ghostUnbundle in
      [ {| name := "Code Unbundling";
           contribution :=
             JS.min (JS.lit 0.08 + (savings / totalBilled) * JS.lit 0.2)%js
                    (JS.lit 0.25);
           rf_description :=
             CodeUnbundlingText (length (unbundling_alerts ghostUnbundle)) savings;
           direction := RISK |} ]
    else [] in
  (* Factor 5: cost anomaly *)
  let factor5 :=
    if (avgExpected >? JS.ofZ 0)%js then
      let costRatio := (totalBilled / avgExpected)%js in
      if (costRatio >? Num 1.5)%js then
        [ {| name := "Excessive Billing";
             contribution :=
               JS.min ((costRatio - JS.ofZ 1) * JS.lit 0.1)%js (JS.lit 0.20);
             rf_description := ExcessiveBillingText totalBilled costRatio avgExpected;
             direction := RISK |} ]
      else
        [ {| name := "Cost Normal";
             contribution := JS.lit (-0.05);
             rf_description := CostNormalText totalBilled;
             direction := SAFE |} ]
    else [] in
  (* Factor 6: documentation quality *)
  let missingDocs := length (List.filter lacksDocumentation claims) in
  let factor6 :=
    if (0 <? missingDocs)%nat then
      [ {| name := "Poor Documentation";
           contribution := (JS.ofNat missingDocs * JS.lit 0.08)%js;
           rf_description := PoorDocumentationText missingDocs;
           direction := RISK |} ]
    else
      [ {| name := "Documentation Complete";
           contribution := JS.lit (-0.05);
           rf_description := DocumentationCompleteText;
           direction := SAFE |} ] in
  factor1 ++ factor2 ++ factor3 ++ factor4 ++ factor5 ++ factor6.

(** The risk score computed by [runXAIAdvisor] from the factors. *)
Definition riskScoreOf (factors : list RiskFactor) : number :=
  let baseScore := JS.ofZ 10 in
  let riskContribution := JS.sumBy contribution (List.filter isRisk factors) in
  let safeContribution :=
    JS.sumBy (fun f => JS.abs (contribution f)) (List.filter isSafe factors) in
  let rawScore :=
    (baseScore + riskContribution * JS.ofZ 100 - safeContribution * JS.ofZ 15)%js in
  JS.round (JS.max (JS.ofZ 0) (JS.min (JS.ofZ 100) rawScore)).

(** The risk level and the recommendation assigned to a score. *)
Definition classify (riskScore : number) : RiskLevel * Recommendation :=
  if (riskScore >=? JS.ofZ 75)%js then (CRITICAL, REJECT)
  else if (riskScore >=? JS.ofZ 50)%js then (HIGH, ESCALATE)
  else if (riskScore >=? JS.ofZ 25)%js then (MEDIUM, REVIEW)
  else (LOW, APPROVE).

(** Insertion in a list sorted by decreasing contribution; an element
    stays behind those it does not exceed. *)
Fixpoint insertByContribution (f : RiskFactor) (sorted : list RiskFactor)
  : list RiskFactor :=
  match sorted with
  | [] => [f]
  | g :: rest =>
      if (contribution g <? contribution f)%js then f :: sorted
      else g :: insertByContribution f rest
  end.

(** [[...riskFactors].sort((a, b) => b.contribution - a.contribution)];
    the order is the implementation's when a contribution is NaN. *)
Definition sortByContribution (fs : list RiskFactor) : list RiskFactor :=
  fold_left (fun sorted f => insertByContribution f sorted) fs [].

(** [claims[0]?.patient_name || dflt] *)
Definition patientNameOr (dflt : string) (claims : list ClaimItem) : string :=
  match claims with
  | c :: _ => if (0 <? String.length (patient_name c))%nat then patient_name c else dflt
  | [] => dflt
  end.

Definition generateNarrative (factors : list RiskFactor) (riskScore : number)
  (claims : list ClaimItem) : LocalNarrative :=
  {| patientName := patientNameOr "Unknown Patient" claims;
     band := fst (classify riskScore);
     auditConcerns := sortByContribution (List.filter isRisk factors);
     inFavour := List.filter isSafe factors |}.

Section WithGenerator.

(** The external narrative generator; [None] when it is unavailable. *)
Variable generateMegaLLMBrief : BriefRequest -> option string.

(** Run the XAI advisor on the combined analysis results (the value the
    returned promise resolves to). *)
Definition runXAIAdvisor (crossModal : CrossModalResult)
  (timeline : TimelineResult) (ghostUnbundle : GhostUnbundleResult)
  (claims : list ClaimItem) (cptDb : CPTDatabase) : XAIResult :=
  let totalBilled := JS.sumBy billed_amount_inr claims in
  let factors := calculateFactors crossModal timeline ghostUnbundle claims cptDb in
  let riskScore := riskScoreOf factors in
  let '(riskLevel, recommendation) := classify riskScore in
  let localNarrative := generateNarrative factors riskScore claims in
  let llmBrief :=
    generateMegaLLMBrief
      {| br_patient_name := patientNameOr "Unknown" claims;
         br_total_billed := totalBilled;
         br_total_claims := length claims;
         br_risk_score := riskScore;
         br_factors := factors;
         br_potential_savings := total_potential_savings ghostUnbundle |} in
  let narrative :=
    match llmBrief with
    | Some text => if (0 <? String.length text)%nat then LlmBrief text
                   else Template localNarrative
    | None => Template localNarrative
    end in
  let potentialSavings := total_potential_savings ghostUnbundle in
  {| risk_score := riskScore;
     risk_level := riskLevel;
     factors := factors;
     narrative := narrative;
     recommendation := recommendation;
     financial_summary :=
       {| billed_amount := totalBilled;
          expected_amount := (totalBilled - potentialSavings)%js;
          fs_potential_savings := potentialSavings |} |}.

End WithGenerator.

End XAI.

(* ================================================================== *)
(** * Orchestrator ([analyzer.ts]) and API route ([api/analyze/route.ts]) *)
(* ================================================================== *)

(** The promise an [async] function returns to its caller: pending when
    the caller receives it, fulfilled later with [fulfilledWith].  A holder
    that does not await it reads none of the properties of that value
    (they are [undefined] on the promise), and [JSON.stringify] writes the
    promise as the empty object. *)
Record Promise (A : Type) : Type := pending {
  fulfilledWith : A;
}.

Arguments pending {A} _.
Arguments fulfilledWith {A} _.

Module Analyzer.

(** The object built by [analyzeFullClaim].  The source declares [xai] as
    an [XAIResult]; the function, which is not [async], stores there what
    [runXAIAdvisor] returns to it, un-awaited. *)
Record FullAnalysisResult : Type := {
  patient_name : string;
  total_claims : nat;
  total_billed : number;
  cross_modal : CrossModal.CrossModalResult;
  timeline : Timeline.TimelineResult;
  ghost_unbundle : GhostUnbundle.GhostUnbundleResult;
  xai : Promise XAI.XAIResult;
  analysis_timestamp : Z;
  claims : list ClaimItem;
}.

Section WithPlatform.

Variable P : Platform.
Variable generateMegaLLMBrief : XAI.BriefRequest -> option string.

(** Run the complete analysis pipeline on a set of claims; [xai] is the
    promise returned by the call of [runXAIAdvisor]. *)
Definition analyzeFullClaim (claims : list ClaimItem) (cptDb : CPTDatabase)
  : FullAnalysisResult :=
  let crossModal := CrossModal.runCrossModalAudit claims cptDb in
  let timeline := Timeline.runTimelineDetective P claims cptDb in
  let ghostUnbundle := GhostUnbundle.runGhostUnbundleHunter claims cptDb in
  let xai :=
    pending (XAI.runXAIAdvisor generateMegaLLMBrief crossModal timeline ghostUnbundle
                               claims cptDb) in
  {| patient_name := XAI.patientNameOr "Unknown" claims;
     total_claims := length claims;
     total_billed := JS.sumBy billed_amount_inr claims;
     cross_modal := crossModal;
     timeline := timeline;
     ghost_unbundle := ghostUnbundle;
     xai := xai;
     analysis_timestamp := dateNow P;
     claims := claims |}.

End WithPlatform.

End Analyzer.

Module Route.

(** A field of a raw claim, of unknown type: what the route observes of it
    through ToBoolean, [String], [Number] and [!= null]. *)
Record RawValue : Type := {
  isTruthy : bool;
  asString : string;
  asNumber : number;
  isNullish : bool;
}.

Record RawClaim : Type := {
  raw_claim_id : RawValue;
  raw_patient_name : RawValue;
  raw_date : RawValue;
  raw_time : RawValue;
  raw_department : RawValue;
  raw_cpt_code : RawValue;
  raw_cpt_description : RawValue;
  raw_billed_amount_inr : RawValue;
  raw_recorded_clinical_notes : RawValue;
  raw_location_lat : RawValue;
  raw_location_lng : RawValue;
}.

(** The request body: unreadable, or an object whose [claims] property is
    an array or anything else. *)
Inductive RequestBody : Type :=
| Unreadable
| Body (claims : option (list RawClaim)).

(** A response: [Json result] is [NextResponse.json(result)], the object
    handed to the serializer (which writes a promise as the empty
    object). *)
Inductive Response : Type :=
| Json (result : Analyzer.FullAnalysisResult)
| Error (status : nat) (message : string).

(** The message of the 400 response: Invalid request: "claims" array is
    required. *)
Definition invalidRequest : string :=
  let quote := String (ascii_of_nat 34) EmptyString in
  "Invalid request: " ++ quote ++ "claims" ++ quote ++ " array is required".

(** [String(v || dflt)] *)
Definition stringOr (v : RawValue) (dflt : string) : string :=
  if isTruthy v then asString v else dflt.

(** Coerce a raw claim at index [i] into a [ClaimItem]. *)
Definition coerceClaim (i : nat) (c : RawClaim) : ClaimItem :=
  {| claim_id := stringOr (raw_claim_id c)
                          ("CLM-" ++ NilEmpty.string_of_uint (Nat.to_uint (i + 1)));
     patient_name := stringOr (raw_patient_name c) "Unknown";
     date := stringOr (raw_date c) EmptyString;
     time := stringOr (raw_time c) "12:00";
     department := stringOr (raw_department c) EmptyString;
     cpt_code := stringOr (raw_cpt_code c) EmptyString;
     cpt_description := stringOr (raw_cpt_description c) EmptyString;
     billed_amount_inr :=
       JS.orElse (Some (asNumber (raw_billed_amount_inr c))) (JS.ofZ 0);
     recorded_clinical_notes := stringOr (raw_recorded_clinical_notes c) EmptyString;
     location_lat :=
       if isNullish (raw_location_lat c) then None
       else Some (asNumber (raw_location_lat c));
     location_lng :=
       if isNullish (raw_location_lng c) then None
       else Some (asNumber (raw_location_lng c)) |}.

Section WithPlatform.

Variable P : Platform.
Variable generateMegaLLMBrief : XAI.BriefRequest -> option string.
(** The reference data of [public/data/cpt_codes.json]. *)
Variable cptData : CPTDatabase.

(** POST /api/analyze *)
Definition POST (request : RequestBody) : Response :=
  match request with
  | Unreadable => Error 500 "Internal server error during analysis"
  | Body rawClaims =>
      match rawClaims with
      | None | Some [] => Error 400 invalidRequest
      | Some raw =>
          let claims :=
            map (fun '(i, c) => coerceClaim i c) (combine (seq 0 (length raw)) raw) in
          Json (Analyzer.analyzeFullClaim P generateMegaLLMBrief claims cptData)
      end
  end.

End WithPlatform.

End Route.

(* ================================================================== *)
(** * A concrete platform *)
(* ================================================================== *)

(** An executable platform on which the pipeline can be run: a strict
    parser of [YYYY-MM-DDTHH:MM:SS] read in a UTC time zone, a fixed clock,
    and truncated series for the functions of [Math], computed on
    rationals with 15 decimals and rounded to binary64. *)
Module SamplePlatform.

Definition digit (c : ascii) : option Z :=
  let n := nat_of_ascii c in
  if ((48 <=? n) && (n <=? 57))%nat then Some (Z.of_nat (n - 48)) else None.

Fixpoint digitsValue (s : string) (acc : Z) : option Z :=
  match s with
  | EmptyString => Some acc
  | String c r =>
      match digit c with
      | Some d => digitsValue r (acc * 10 + d)%Z
      | None => None
      end
  end.

Definition field (s : string) (start len : nat) : option Z :=
  digitsValue (substring start len s) 0.

Definition charAt (s : string) (i : nat) (c : ascii) : bool :=
  match String.get i s with
  | Some c' => Ascii.eqb c c'
  | None => false
  end.

Definition daysInMonth (y m : Z) : Z :=
  (DateISO.daysFromCivil (if m =? 12 then y + 1 else y) (if m =? 12 then 1 else m + 1) 1
   - DateISO.daysFromCivil y m 1)%Z.

Definition parse (s : string) : option Z :=
  if (String.length s =? 19)%nat
     && charAt s 4 "-" && charAt s 7 "-" && charAt s 10 "T"
     && charAt s 13 ":" && charAt s 16 ":"
  then
    match field s 0 4, field s 5 2, field s 8 2,
          field s 11 2, field s 14 2, field s 17 2 with
    | Some y, Some m, Some d, Some h, Some mi, Some sec =>
        if ((1 <=? m) && (m <=? 12) && (1 <=? d) && (d <=? daysInMonth y m)
            && (h <=? 23) && (mi <=? 59) && (sec <=? 59))%Z
        then Some ((((DateISO.daysFromCivil y m d * 24 + h) * 60 + mi) * 60 + sec)
                   * 1000)%Z
        else None
    | _, _, _, _, _, _ => None
    end
  else None.

Local Open Scope Q_scope.

(** Truncation to 15 decimals. *)
Definition trunc (q : Q) : Q := Qfloor (q * 1000000000000000) # 1000000000000000.

Definition PI : Q := 3.141592653589793.

(** Sum of [fuel] more terms of a power series whose next term is
    [- term * x2 / (k (k + 1))]. *)
Fixpoint series (fuel : nat) (x2 term : Q) (k : Z) (acc : Q) : Q :=
  match fuel with
  | O => acc
  | S fuel' =>
      let term' := trunc (- term * x2 / inject_Z (k * (k + 1))) in
      series fuel' x2 term' (k + 2) (acc + term')
  end.

Definition sinQ (x : Q) : Q := series 12 (x * x) x 2 x.
Definition cosQ (x : Q) : Q := series 12 (x * x) 1 1 1.

Fixpoint newton (fuel : nat) (a y : Q) : Q :=
  match fuel with
  | O => y
  | S fuel' => newton fuel' a (trunc ((y + a / y) / 2))
  end.

Definition sqrtQ (a : Q) : Q :=
  if Qle_bool a 0 then 0 else newton 60 a (trunc ((a + 1) / 2) + (1 # 1000000000000000)).

(** Sum of [fuel] terms of the arc tangent series. *)
Fixpoint atanSeries (fuel : nat) (t2 power : Q) (k : Z) (acc : Q) : Q :=
  match fuel with
  | O => acc
  | S fuel' =>
      let power' := trunc (- power * t2) in
      atanSeries fuel' t2 power' (k + 2) (acc + trunc (power' / inject_Z k))
  end.

(** Arc tangent of [t >= 0]: two halvings of the angle bring the argument
    of the series below 1/2. *)
Definition atanPos (t : Q) : Q :=
  let reduce u := trunc (u / (1 + sqrtQ (1 + u * u))) in
  let small u := let v := reduce (reduce u) in 4 * atanSeries 14 (v * v) v 3 v in
  if Qle_bool t 1 then small t else PI / 2 - small (/ t).

Definition atanQ (t : Q) : Q :=
  if Qle_bool 0 t then atanPos t else - atanPos (- t).

Definition atan2Q (y x : Q) : Q :=
  if Qeq_bool x 0 then
    (if Qeq_bool y 0 then 0 else if Qle_bool 0 y then PI / 2 else - (PI / 2))
  else if Qle_bool 0 x then atanQ (y / x)
  else if Qle_bool 0 y then atanQ (y / x) + PI
  else atanQ (y / x) - PI.

(** A function on rationals as a function on numbers, NaN elsewhere. *)
Definition lift (f : Q -> Q) (x : number) : number :=
  match x with
  | Num q => JS.fl (trunc (f q))
  | _ => NaN
  end.

Definition sqrtNumber (x : number) : number :=
  match x with
  | Num q => if Qle_bool 0 q then JS.fl (sqrtQ q) else NaN
  | Infinity => Infinity
  | _ => NaN
  end.

Definition atan2Number (y x : number) : number :=
  match y, x with
  | Num a, Num b => JS.fl (trunc (atan2Q a b))
  | _, _ => NaN
  end.

Local Close Scope Q_scope.

(** The clock reads 2026-11-02T00:00:00Z. *)
Definition platform : Platform :=
  {| dateParse := parse;
     dateNow := 1793577600000;
     Math_PI := JS.lit PI;
     Math_sin := lift sinQ;
     Math_cos := lift cosQ;
     Math_sqrt := sqrtNumber;
     Math_atan2 := atan2Number |}.

(** No narrative generator is configured. *)
Definition noGenerator : XAI.BriefRequest -> option string := fun _ => None.

End SamplePlatform.

(* ================================================================== *)
(** * The specification's formulas *)
(* ================================================================== *)

(** Definitions that follow the words of the specification, to be
    compared with the ones translated from the source. *)
Module Spec.

(** [clamp(lo, hi, x)], as [Math.max(lo, Math.min(hi, x))]. *)
Definition clamp (lo hi x : number) : number := JS.max lo (JS.min hi x).

(** Score = clamp(0, 100, round(10 + 100 x sum of RISK contributions
    - 15 x sum of absolute SAFE contributions)). *)
Definition score (factors : list XAI.RiskFactor) : number :=
  let sumRisk := JS.sumBy XAI.contribution (List.filter XAI.isRisk factors) in
  let sumAbsSafe :=
    JS.sumBy (fun f => JS.abs (XAI.contribution f)) (List.filter XAI.isSafe factors) in
  clamp (JS.ofZ 0) (JS.ofZ 100)
        (JS.round (JS.ofZ 10 + JS.ofZ 100 * sumRisk - JS.ofZ 15 * sumAbsSafe)%js).

(** Thresholds: >= 75 CRITICAL/REJECT, >= 50 HIGH/ESCALATE, >= 25
    MEDIUM/REVIEW, else LOW/APPROVE. *)
Definition levelAndRecommendation (score : number)
  : RiskLevel * XAI.Recommendation :=
  if (score >=? JS.ofZ 75)%js then (CRITICAL, XAI.REJECT)
  else if (score >=? JS.ofZ 50)%js then (HIGH, XAI.ESCALATE)
  else if (score >=? JS.ofZ 25)%js then (MEDIUM, XAI.REVIEW)
  else (LOW, XAI.APPROVE).

(** A coordinate equal to 0, or undefined. *)
Definition zeroOrUndefined (x : option number) : Prop :=
  x = None \/ exists q, x = Some (Num q) /\ (q == 0)%Q.

(** A coordinate that is a number other than 0. *)
Definition nonZero (x : option number) : Prop :=
  exists q, x = Some (Num q) /\ ~ (q == 0)%Q.

(** The haversine distance in km between the recorded positions of two
    events. *)
Definition distanceBetween (P : Platform) (a b : Timeline.TimelineEvent) : number :=
  Timeline.haversineDistance P
    (Timeline.toNumber (Timeline.ev_location_lat a))
    (Timeline.toNumber (Timeline.ev_location_lng a))
    (Timeline.toNumber (Timeline.ev_location_lat b))
    (Timeline.toNumber (Timeline.ev_location_lng b)).

(** Required speed: the distance divided by the time elapsed between the
    two start times, in hours; infinite when no time elapsed. *)
Definition requiredSpeed (distance : number) (a b : Timeline.TimelineEvent) : number :=
  let elapsedMs := Z.abs (Timeline.start_time b - Timeline.start_time a) in
  if (elapsedMs =? 0)%Z then Infinity
  else (distance / (JS.ofZ elapsedMs / JS.ofZ 3600000))%js.

(** Two events overlap when some time lies inside both intervals. *)
Definition overlapping (a b : Timeline.TimelineEvent) : Prop :=
  (Z.max (Timeline.start_time a) (Timeline.start_time b)
   < Z.min (Timeline.end_time a) (Timeline.end_time b))%Z.

(** Does the batch bill this code? *)
Definition billed (claims : list ClaimItem) (code : string) : bool :=
  existsb (String.eqb code) (map cpt_code claims).

(** The reference database restricted to some of its bundling rules. *)
Definition withBundles (cptDb : CPTDatabase) (rules : list NCCIBundle) : CPTDatabase :=
  {| codes := codes cptDb;
     ncci_bundles := rules;
     severity_keywords := severity_keywords cptDb |}.

End Spec.

(* ================================================================== *)
(** * Sample reference data and claims *)
(* ================================================================== *)

(** Concrete inputs on which the pipeline is run in the examples below.
    The reference database of the application
    ([public/data/cpt_codes.json]) is data, not code; the entries here
    have its shape. *)
Module Sample.

Definition mkCode (description : string) (severity : Z) (avgCost : Z)
  (category : string) : CPTCode :=
  {| description := description;
     severity := JS.ofZ severity;
     avg_cost_inr := JS.ofZ avgCost;
     category := category |}.

Definition shoulderBundle : NCCIBundle :=
  {| primary_code := "23650";
     bundled_codes := ["29240"];
     bundle_description := "Strapping is included in the dislocation treatment";
     correct_single_code := "23650";
     correct_description := "Closed treatment of shoulder dislocation" |}.

Definition severityKeywords : gmap string (list string) :=
  list_to_map
    [ ("1", ["stable"; "mild"; "routine"]);
      ("2", ["moderate"; "discomfort"]);
      ("3", ["significant"; "acute"]);
      ("4", ["severe"; "urgent"]);
      ("5", ["critical"; "life threatening"; "unstable"]) ].

Definition cptDb : CPTDatabase :=
  {| codes :=
       list_to_map
         [ ("99285", mkCode "Emergency department visit, high severity" 5 12000 "E&M");
           ("99213", mkCode "Office visit, established patient, low complexity" 2 1500 "E&M");
           ("73600", mkCode "X-Ray Ankle, 2 views" 1 1200 "Radiology");
           ("70553", mkCode "MRI Brain with contrast" 3 18000 "Radiology");
           ("97110", mkCode "Therapeutic exercise" 1 800 "Physical Therapy");
           ("23650", mkCode "Shoulder dislocation treatment" 3 9000 "Surgery");
           ("29240", mkCode "Strapping of shoulder" 1 1500 "Surgery");
           ("20610", mkCode "Major joint injection" 2 2500 "Surgery") ];
     ncci_bundles := [shoulderBundle];
     severity_keywords := severityKeywords |}.

Definition mkClaim (id date time department code description : string)
  (billed : Z) (notes : string) (lat lng : option number) : ClaimItem :=
  {| claim_id := id;
     patient_name := "Arnav Bansal";
     date := date;
     time := time;
     department := department;
     cpt_code := code;
     cpt_description := description;
     billed_amount_inr := JS.ofZ billed;
     recorded_clinical_notes := notes;
     location_lat := lat;
     location_lng := lng |}.

(** A brain MRI billed at 0 whose notes deny the service. *)
Definition deniedMri : ClaimItem :=
  mkClaim "CLM-1" "2026-03-01" "10:00" "Radiology" "70553"
          "MRI Brain with contrast" 0 "No record found" None None.

(** The shoulder treatment and its strapping billed separately, for less
    than the reference cost of the single correct code. *)
Definition cheapUnbundled : list ClaimItem :=
  [ mkClaim "CLM-1" "2026-03-01" "09:00" "Orthopaedics" "23650"
            "Shoulder dislocation treatment" 100
            "Closed treatment of shoulder dislocation performed, patient stable"
            None None;
    mkClaim "CLM-2" "2026-03-01" "13:00" "Orthopaedics" "29240"
            "Strapping of shoulder" 100
            "Shoulder strapping applied after reduction, mild discomfort"
            None None ].

(** An ankle X-ray in Bengaluru and a physiotherapy session in Mysuru,
    128 km away, fifteen minutes later. *)
Definition xray (department : string) (lat lng : option number) : ClaimItem :=
  mkClaim "CLM-1" "2026-03-01" "10:30" department "73600" "X-Ray Ankle, 2 views" 1200
          "Ankle x-ray, 2 views taken, no fracture" lat lng.

Definition physio (department : string) (lat lng : option number) : ClaimItem :=
  mkClaim "CLM-2" "2026-03-01" "10:45" department "97110" "Therapeutic exercise" 800
          "Therapeutic exercise session, 30 minutes" lat lng.

Definition bengaluru : option number * option number :=
  (Some (JS.lit 12.9716), Some (JS.lit 77.5946)).

Definition mysuru : option number * option number :=
  (Some (JS.lit 12.2958), Some (JS.lit 76.6394)).

(** A claim that arrives without a date and with a blank time. *)
Definition undated : ClaimItem :=
  mkClaim "CLM-3" EmptyString " " "Radiology" "73600" "X-Ray Ankle, 2 views" 1200
          "Ankle x-ray, 2 views taken, no fracture" None None.

(** The example of the specification: an emergency visit of the highest
    severity whose notes describe a stable patient. *)
Definition upcodedVisit : ClaimItem :=
  mkClaim "CLM-1" "2026-03-01" "10:00" "Emergency" "99285"
          "Emergency department visit, high severity" 12000
          "stable, mild discomfort, discharged" None None.

(** A joint injection, which no semantic group covers, with notes that
    deny the service. *)
Definition deniedInjection : ClaimItem :=
  mkClaim "CLM-4" "2026-03-01" "15:00" "Orthopaedics" "20610"
          "Major joint injection" 2500 "No record found for this patient" None None.

(** The shoulder treatment and its strapping billed separately. *)
Definition unbundled : list ClaimItem :=
  [ mkClaim "CLM-1" "2026-03-01" "09:00" "Orthopaedics" "23650"
            "Shoulder dislocation treatment" 10000
            "Closed treatment of shoulder dislocation performed, patient stable"
            None None;
    mkClaim "CLM-2" "2026-03-01" "13:00" "Orthopaedics" "29240"
            "Strapping of shoulder" 5000
            "Shoulder strapping applied after reduction, mild discomfort"
            None None ].

(** A brain MRI billed 24000 whose notes do not mention it, next to an
    ankle X-ray billed 36000: a severity mismatch of gap 2, a ghost service
    worth 2/5 of the total, and a total above three times the reference
    costs. *)
Definition nearCritical : list ClaimItem :=
  [ mkClaim "CLM-1" "2026-03-01" "09:00" "Radiology" "70553"
            "MRI Brain with contrast" 24000
            "Patient stable, mild headache, discharged home" None None;
    mkClaim "CLM-2" "2026-03-01" "13:00" "Radiology" "73600"
            "X-Ray Ankle, 2 views" 36000
            "Ankle x-ray, 2 views taken, no fracture" None None ].

(** A reference database whose replacement code 23655 is listed with an
    average cost of 0. *)
Definition zeroCostDb : CPTDatabase :=
  {| codes :=
       list_to_map
         [ ("23650", mkCode "Shoulder dislocation treatment" 3 9000 "Surgery");
           ("29240", mkCode "Strapping of shoulder" 1 1500 "Surgery");
           ("23655", mkCode "Shoulder dislocation treatment with anaesthesia" 3 0 "Surgery") ];
     ncci_bundles :=
       [ {| primary_code := "23650";
            bundled_codes := ["29240"];
            bundle_description := "Strapping is included in the dislocation treatment";
            correct_single_code := "23655";
            correct_description := "Shoulder dislocation treatment with anaesthesia" |} ];
     severity_keywords := severityKeywords |}.

End Sample.


(* ================================================================== *)
(** * The upload page ([app/page.tsx]) and the OCR helpers ([lib/ocr.ts]) *)
(* ================================================================== *)

Module Page.

(** [locText.split('').reduce((acc, ch) => acc + ch.charCodeAt(0), 0)] *)
Definition locationHash (locText : string) : Z :=
  fold_left (fun acc ch => (acc + Z.of_nat (nat_of_ascii ch))%Z)
            (list_ascii_of_string locText) 0%Z.

(** The pseudo-coordinates [handleAnalyze] derives from a location text:
    [28.5 + (hash % 50) * 0.01] and [77.0 + ((hash * 7) % 50) * 0.01]. *)
Definition pseudoCoordinates (locText : string) : number * number :=
  let hash := locationHash locText in
  ((Num 28.5 + JS.ofZ (Z.rem hash 50) * JS.lit 0.01)%js,
   (Num 77.0 + JS.ofZ (Z.rem (hash * 7) 50) * JS.lit 0.01)%js).

(** The coordinates [handleAnalyze] gives a row: those of the columns
    [location_lat] and [location_lng] when the first is truthy, else the
    pseudo-coordinates of a non-empty location text, else none. *)
Definition rowCoordinates (rawLat rawLng : Route.RawValue) (locText : string)
  : option number * option number :=
  if Route.isTruthy rawLat
  then (Some (Route.asNumber rawLat), Some (Route.asNumber rawLng))
  else if (0 <? String.length locText)%nat
       then (Some (fst (pseudoCoordinates locText)),
             Some (snd (pseudoCoordinates locText)))
       else (None, None).

End Page.

Module OCR.

Record BBox : Type := {
  x0 : number;
  y0 : number;
  x1 : number;
  y1 : number;
}.

Record OCRLine : Type := {
  text : string;
  bbox : BBox;
  confidence : number;
}.

(** Header keywords that are ignored for evidence highlighting. *)
Definition HEADER_KEYWORDS : list string :=
  [ "triage"; "department"; "hospital"; "summary"; "patient"; "name"; "date";
    "radiology"; "imaging"; "findings"; "discharge"; "emergency"; "clinics";
    "speciality" ].

(** The character class of [/[\s,;:|]+/]. *)
Definition isWordSeparator (c : ascii) : bool :=
  JS.isWhiteSpace c
  || existsb (Ascii.eqb c) (list_ascii_of_string ",;:|").

(** [keywords.map(k => k.toLowerCase().trim()).filter(k => k.length >= 2)] *)
Definition cleanKeywords (keywords : list string) : list string :=
  List.filter (fun k => (2 <=? String.length k)%nat)
              (map (fun k => JS.trim (JS.toLowerCase k)) keywords).

(** A line with at most four words, one of them a header keyword. *)
Definition isHeaderLine (lineLower : string) : bool :=
  let words :=
    List.filter (fun w => (0 <? String.length w)%nat)
                (JS.split isWordSeparator lineLower) in
  (length words <=? 4)%nat && existsb (JS.arrayIncludes HEADER_KEYWORDS) words.

(** The body of the loop of [matchKeywordsToLines] for one line: the line
    is pushed at the first keyword it contains, a header keyword on a
    header line being passed over. *)
Definition matchLine (lowerKws : list string) (line : OCRLine) : list OCRLine :=
  let text := JS.trim (text line) in
  let lineLower := JS.toLowerCase text in
  let isHeader := isHeaderLine lineLower in
  if (String.length text <? 3)%nat then []
  else if existsb (fun kw => JS.includes lineLower kw
                             && negb (isHeader && JS.arrayIncludes HEADER_KEYWORDS kw))
                  lowerKws
       then [line]
       else [].

(** Match keywords against OCR lines, case-insensitively. *)
Definition matchKeywordsToLines (ocrLines : list OCRLine) (keywords : list string)
  : list OCRLine :=
  if (length keywords =? 0)%nat || (length ocrLines =? 0)%nat then []
  else
    let lowerKws := cleanKeywords keywords in
    if (length lowerKws =? 0)%nat then []
    else forEachPush (matchLine lowerKws) ocrLines.

End OCR.

Module SampleScan.

Definition box : OCR.BBox :=
  {| OCR.x0 := JS.ofZ 10; OCR.y0 := JS.ofZ 10; OCR.x1 := JS.ofZ 400; OCR.y1 := JS.ofZ 30 |}.

Definition line (text : string) : OCR.OCRLine :=
  {| OCR.text := text; OCR.bbox := box; OCR.confidence := JS.ofZ 90 |}.

(** A scanned emergency note: a header, a finding and a noise line. *)
Definition note : list OCR.OCRLine :=
  [ line "Emergency Department";
    line "Patient presents to emergency with ankle sprain, stable";
    line "ok" ].

End SampleScan.

Module SampleRequest.

(** A property the JSON object does not have ([undefined]). *)
Definition missing : Route.RawValue :=
  {| Route.isTruthy := false;
     Route.asString := "undefined";
     Route.asNumber := NaN;
     Route.isNullish := true |}.


End SampleRequest.
(* ================================================================== *)
(** * Facts about the model of numbers and loops *)
(* ================================================================== *)

Lemma forEachPush_from {A B : Type} (body : A -> list B) (xs : list A) (acc : list B) :
  fold_left (fun acc x => acc ++ body x) xs acc = acc ++ flat_map body xs.
Proof.
  revert acc. induction xs as [|x xs IH]; intros acc; simpl.
  - now rewrite app_nil_r.
  - rewrite IH. now rewrite <- app_assoc.
Qed.

(** A loop that pushes is the concatenation of what each iteration pushes. *)
Lemma forEachPush_flat_map {A B : Type} (body : A -> list B) (xs : list A) :
  forEachPush body xs = flat_map body xs.
Proof. unfold forEachPush. now rewrite forEachPush_from. Qed.

Lemma forEachPush_app {A B : Type} (body : A -> list B) (xs ys : list A) :
  forEachPush body (xs ++ ys) = forEachPush body xs ++ forEachPush body ys.
Proof. rewrite !forEachPush_flat_map. apply flat_map_app. Qed.

Lemma forEachPush_cons {A B : Type} (body : A -> list B) (x : A) (xs : list A) :
  forEachPush body (x :: xs) = body x ++ forEachPush body xs.
Proof. now rewrite !forEachPush_flat_map. Qed.

Lemma Qle_bool_false (a b : Q) : Qle_bool a b = false -> (b < a)%Q.
Proof.
  intros H. apply Qnot_le_lt. intros Hle.
  apply Qle_bool_iff in Hle. congruence.
Qed.

(** Case analysis on a boolean comparison of rationals, leaving the
    corresponding order fact in the context. *)
Ltac case_Qle a b :=
  let E := fresh "E" in
  destruct (Qle_bool a b) eqn:E;
  [apply Qle_bool_iff in E | apply Qle_bool_false in E].

(** ** Rounding to binary64 *)

Lemma pow2_pos (e : Z) : (0 < 2 ^ e)%Q.
Proof. apply Qpower_0_lt. reflexivity. Qed.

Lemma pow2_le (a b : Z) : (a <= b)%Z -> (2 ^ a <= 2 ^ b)%Q.
Proof. intros H. apply Qpower_le_compat_l; [exact H | discriminate]. Qed.

Lemma pow2_Z (n : Z) : (0 <= n)%Z -> (inject_Z (2 ^ n) == 2 ^ n)%Q.
Proof. intros H. now rewrite Zpower_Qpower. Qed.

Lemma roundHalfEven_floor (x : Q) :
  (Qfloor x <= JS.roundHalfEven x <= Qfloor x + 1)%Z.
Proof.
  unfold JS.roundHalfEven.
  destruct (_ ?= _)%Q; [destruct (Z.even _)| |]; lia.
Qed.

(** Rounding to an integer does not cross an integer. *)
Lemma roundHalfEven_le (x : Q) (n : Z) :
  (x <= inject_Z n)%Q -> (JS.roundHalfEven x <= n)%Z.
Proof.
  intros H.
  assert (Hlo : (Qfloor x <= n)%Z).
  { rewrite <- (Qfloor_Z n). now apply Qfloor_resp_le. }
  destruct (Z.eq_dec (Qfloor x) n) as [E|E].
  - unfold JS.roundHalfEven.
    assert (Hx : (x - inject_Z (Qfloor x) <= 0)%Q) by (rewrite E; lra).
    destruct (_ ?= _)%Q eqn:C.
    + apply Qeq_alt in C. lra.
    + lia.
    + apply Qgt_alt in C. lra.
  - pose proof (roundHalfEven_floor x). lia.
Qed.

Lemma roundHalfEven_ge (x : Q) (n : Z) :
  (inject_Z n <= x)%Q -> (n <= JS.roundHalfEven x)%Z.
Proof.
  intros H.
  assert (Hlo : (n <= Qfloor x)%Z).
  { rewrite <- (Qfloor_Z n). now apply Qfloor_resp_le. }
  pose proof (roundHalfEven_floor x). lia.
Qed.

Lemma ilog2_le (q : Q) : (0 < q)%Q -> (2 ^ JS.ilog2 q <= q)%Q.
Proof.
  intros Hq. unfold JS.ilog2. destruct q as [n d]. cbn [Qnum Qden].
  set (a := Z.log2 n). set (b := Z.log2 (Zpos d)).
  destruct (Qle_bool (2 ^ (a - b)) (n # d)) eqn:E; [now apply Qle_bool_iff in E|].
  assert (Hn : (0 < n)%Z) by (unfold Qlt in Hq; simpl in Hq; lia).
  assert (Ha : (0 <= a)%Z) by apply Z.log2_nonneg.
  assert (Hb : (0 <= b)%Z) by apply Z.log2_nonneg.
  destruct (Z.log2_spec n Hn) as [Hn1 _]. fold a in Hn1.
  destruct (Z.log2_spec (Zpos d) eq_refl) as [_ Hd2]. fold b in Hd2.
  assert (H1 : (2 ^ (a - b - 1) * inject_Z (Zpos d) <= 2 ^ (a - b - 1) * 2 ^ (b + 1))%Q).
  { apply Qmult_le_l; [apply pow2_pos|].
    rewrite <- pow2_Z by lia. rewrite <- Zle_Qle. lia. }
  assert (H2 : (2 ^ (a - b - 1) * 2 ^ (b + 1) == 2 ^ a)%Q).
  { rewrite <- Qpower_plus by discriminate.
    replace (a - b - 1 + (b + 1))%Z with a by lia. reflexivity. }
  assert (H3 : (2 ^ a <= inject_Z n)%Q).
  { rewrite <- pow2_Z by lia. rewrite <- Zle_Qle. exact Hn1. }
  assert (Hd : (0 < inject_Z (Zpos d))%Q) by reflexivity.
  assert (Hq' : (n # d == inject_Z n / inject_Z (Zpos d))%Q).
  { rewrite (Qmake_Qdiv n d). reflexivity. }
  rewrite Hq'. apply Qle_shift_div_l; [exact Hd|]. lra.
Qed.

(** From the smallest positive value on, the spacing of the binary64
    values next to a real is at most that real. *)
Lemma exponentOf_le (a : Q) :
  (2 ^ (-1074) <= a)%Q -> (2 ^ JS.exponentOf a <= a)%Q.
Proof.
  intros H. unfold JS.exponentOf.
  assert (Ha : (0 < a)%Q) by (pose proof (pow2_pos (-1074)); lra).
  destruct (Z.max_spec (JS.ilog2 a - 52) (-1074)) as [[_ ->] | [_ ->]]; [exact H|].
  apply Qle_trans with (2 ^ JS.ilog2 a)%Q; [apply pow2_le; lia | now apply ilog2_le].
Qed.

(** What [flPos] returns. *)
Lemma flPos_value (a : Q) :
  let e := JS.exponentOf a in
  let m := JS.roundHalfEven (a / 2 ^ e) in
  JS.flPos a = Infinity
  \/ exists v, JS.flPos a = Num v /\ (v == inject_Z m * 2 ^ e)%Q /\ (v < 2 ^ 1024)%Q.
Proof.
  intros e m. unfold JS.flPos. fold e. fold m.
  destruct (Qle_bool _ _) eqn:E; [now left|]. right.
  eexists. split; [reflexivity|]. split; [apply Qred_correct|].
  rewrite Qred_correct.
  apply Qnot_le_lt. intros H. apply Qle_bool_iff in H. congruence.
Qed.

Lemma gtb_zero (v : Q) : (0 < v)%Q -> JS.gtb (Num v) (Num 0) = true.
Proof.
  intros Hpos. unfold JS.gtb, JS.ltb, JS.leb.
  destruct (Qle_bool 0 v) eqn:E1.
  - destruct (Qle_bool v 0) eqn:E2; [|reflexivity].
    apply Qle_bool_iff in E2. lra.
  - apply Qlt_le_weak, Qle_bool_iff in Hpos. congruence.
Qed.

Lemma flPos_positive (a : Q) :
  (2 ^ (-1074) <= a)%Q -> JS.gtb (JS.flPos a) (Num 0) = true.
Proof.
  intros H. pose proof (exponentOf_le a H) as He.
  pose proof (pow2_pos (JS.exponentOf a)) as Hp.
  destruct (flPos_value a) as [-> | (v & -> & Hv & _)]; [reflexivity|].
  assert (Hm : (1 <= JS.roundHalfEven (a / 2 ^ JS.exponentOf a))%Z).
  { apply roundHalfEven_ge. apply Qle_shift_div_l; [exact Hp|].
    change (inject_Z 1) with 1%Q. lra. }
  apply gtb_zero. rewrite Hv. apply Qmult_lt_0_compat; [|exact Hp].
  change 0%Q with (inject_Z 0). rewrite <- Zlt_Qlt. lia.
Qed.

(** A real that is at least the smallest positive binary64 value is
    rounded to a positive number. *)
Lemma fl_positive (q : Q) :
  (2 ^ (-1074) <= q)%Q -> JS.gtb (JS.fl q) (Num 0) = true.
Proof.
  intros H. unfold JS.fl.
  assert (Hq : (0 < q)%Q) by (pose proof (pow2_pos (-1074)); lra).
  apply Qgt_alt in Hq. rewrite Hq. now apply flPos_positive.
Qed.

(** Landmarks of binary64: the value of the literal 0.1, the classic sum
    that is not 0.3, a tie rounded to the even significand, the largest
    finite value and the overflow past it, the smallest positive value and
    the underflow of its half. *)
Lemma binary64_landmarks :
  JS.lit 0.1 = Num (3602879701896397 # 36028797018963968)
  /\ JS.eqb (JS.lit 0.1 + JS.lit 0.2)%js (JS.lit 0.3) = false
  /\ JS.eqb (JS.lit 0.1 + JS.lit 0.2)%js (JS.lit 0.30000000000000004) = true
  /\ (JS.ofZ (2 ^ 53) + JS.ofZ 1)%js = JS.ofZ (2 ^ 53)
  /\ (JS.ofZ (2 ^ 53) + JS.ofZ 3)%js = JS.ofZ (2 ^ 53 + 4)
  /\ JS.fl (inject_Z (2 ^ 1024 - 2 ^ 971)) = JS.ofZ (2 ^ 1024 - 2 ^ 971)
  /\ JS.fl (inject_Z (2 ^ 1024 - 2 ^ 970)) = Infinity
  /\ JS.fl (1 # 2 ^ 1074) = Num (1 # 2 ^ 1074)
  /\ JS.fl (1 # 2 ^ 1075) = Num 0
  /\ JS.fl (- (3 # 2 ^ 1075)) = Num (- (1 # 2 ^ 1073)).
Proof. vm_compute. repeat split; reflexivity. Qed.

(** The quotient of two positive integers is a positive number. *)
Lemma div_ofZ_positive (n m : Z) :
  (0 < n)%Z -> (0 < m)%Z -> (m <= 2 ^ 1074)%Z ->
  JS.gtb (JS.ofZ n / JS.ofZ m)%js (JS.ofZ 0) = true.
Proof.
  intros Hn Hm Hbound. unfold JS.ofZ, JS.div.
  assert (Hmq : (0 < inject_Z m)%Q).
  { change 0%Q with (inject_Z 0). rewrite <- Zlt_Qlt. exact Hm. }
  destruct (Qeq_bool (inject_Z m) 0) eqn:E.
  { apply Qeq_bool_iff in E. lra. }
  apply fl_positive. apply Qle_shift_div_l; [exact Hmq|].
  apply Qle_trans with (2 ^ (-1074) * 2 ^ 1074)%Q.
  - apply Qmult_le_l; [apply pow2_pos|].
    rewrite <- pow2_Z by lia. rewrite <- Zle_Qle. exact Hbound.
  - rewrite <- Qpower_plus by discriminate. cbn [Z.add Z.pos_sub].
    change (2 ^ (-1074 + 1074))%Q with 1%Q.
    change 1%Q with (inject_Z 1). rewrite <- Zle_Qle. lia.
Qed.

Lemma pow2_lt (a b : Z) : (a < b)%Z -> (2 ^ a < 2 ^ b)%Q.
Proof. intros H. apply Qpower_lt_compat_l; [exact H | reflexivity]. Qed.

Lemma pow2_split (a b : Z) : (2 ^ (a + b) == 2 ^ a * 2 ^ b)%Q.
Proof. apply Qpower_plus. discriminate. Qed.

(** A multiple of the spacing, seen from the other side. *)
Lemma scaled_integer (z e : Z) :
  (e <= 0)%Z -> (inject_Z (z * 2 ^ (- e)) == inject_Z z / 2 ^ e)%Q.
Proof.
  intros He. rewrite inject_Z_mult, pow2_Z by lia.
  rewrite Qpower_opp. unfold Qdiv. reflexivity.
Qed.

Lemma div_mul_cancel (x p : Q) : (0 < p)%Q -> (x / p * p == x)%Q.
Proof.
  intros Hp. rewrite Qmult_comm. apply Qmult_div_r. intros H0. rewrite H0 in Hp. lra.
Qed.

Lemma flPos_unfold (a : Q) :
  let e := JS.exponentOf a in
  let v := (inject_Z (JS.roundHalfEven (a / 2 ^ e)) * 2 ^ e)%Q in
  JS.flPos a = if Qle_bool (2 ^ 1024)%Q v then Infinity else Num (Qred v).
Proof. reflexivity. Qed.

(** Rounding a positive real does not cross an integer below 2^52 that
    lies above it. *)
Lemma flPos_le_int (a : Q) (z : Z) :
  (0 < a)%Q -> (a <= inject_Z z)%Q -> (z <= 2 ^ 52)%Z ->
  JS.leb (JS.flPos a) (JS.ofZ z) = true.
Proof.
  intros Ha Haz Hz. rewrite flPos_unfold. cbv zeta.
  set (e := JS.exponentOf a).
  pose proof (pow2_pos e) as Hp.
  assert (He : (e <= 0)%Z).
  { destruct (Z.le_gt_cases e 0) as [H|H]; [exact H|exfalso].
    unfold e, JS.exponentOf in H.
    assert (Hk : (53 <= JS.ilog2 a)%Z) by lia.
    pose proof (ilog2_le a Ha) as Hlog.
    pose proof (pow2_le 53 (JS.ilog2 a) Hk) as H53.
    pose proof (pow2_lt 52 53 eq_refl) as Hlt.
    assert (H52 : (inject_Z z <= 2 ^ 52)%Q).
    { rewrite <- pow2_Z by lia. rewrite <- Zle_Qle. exact Hz. }
    lra. }
  assert (Hm : (JS.roundHalfEven (a / 2 ^ e) <= z * 2 ^ (- e))%Z).
  { apply roundHalfEven_le. rewrite scaled_integer by exact He.
    apply Qmult_le_r; [apply Qinv_lt_0_compat; exact Hp | exact Haz]. }
  assert (Hv : (inject_Z (JS.roundHalfEven (a / 2 ^ e)) * 2 ^ e <= inject_Z z)%Q).
  { apply Qle_trans with (inject_Z (z * 2 ^ (- e)) * 2 ^ e)%Q.
    - apply Qmult_le_r; [exact Hp|]. rewrite <- Zle_Qle. exact Hm.
    - rewrite scaled_integer by exact He. rewrite div_mul_cancel by exact Hp.
      apply Qle_refl. }
  destruct (Qle_bool (2 ^ 1024) _) eqn:E.
  - apply Qle_bool_iff in E. exfalso.
    assert (H52 : (inject_Z z <= 2 ^ 52)%Q).
    { rewrite <- pow2_Z by lia. rewrite <- Zle_Qle. exact Hz. }
    pose proof (pow2_lt 52 1024 eq_refl). lra.
  - unfold JS.ofZ, JS.leb. apply Qle_bool_iff. rewrite Qred_correct. exact Hv.
Qed.

(** Nor an integer up to 2^53 that lies below it. *)
Lemma flPos_ge_int (a : Q) (z : Z) :
  (0 < a)%Q -> (inject_Z z <= a)%Q -> (z <= 2 ^ 53)%Z ->
  JS.leb (JS.ofZ z) (JS.flPos a) = true.
Proof.
  intros Ha Hza Hz. rewrite flPos_unfold. cbv zeta.
  set (e := JS.exponentOf a).
  pose proof (pow2_pos e) as Hp.
  assert (Hv : (inject_Z z <= inject_Z (JS.roundHalfEven (a / 2 ^ e)) * 2 ^ e)%Q).
  { destruct (Z.le_gt_cases e 0) as [He|He].
    - assert (Hm : (z * 2 ^ (- e) <= JS.roundHalfEven (a / 2 ^ e))%Z).
      { apply roundHalfEven_ge. rewrite scaled_integer by exact He.
        apply Qmult_le_r; [apply Qinv_lt_0_compat; exact Hp | exact Hza]. }
      apply Qle_trans with (inject_Z (z * 2 ^ (- e)) * 2 ^ e)%Q.
      + rewrite scaled_integer by exact He. rewrite div_mul_cancel by exact Hp.
        apply Qle_refl.
      + apply Qmult_le_r; [exact Hp|]. rewrite <- Zle_Qle. exact Hm.
    - assert (Hk : e = (JS.ilog2 a - 52)%Z) by (unfold e, JS.exponentOf in *; lia).
      pose proof (ilog2_le a Ha) as Hlog.
      assert (Hm : (2 ^ 52 <= JS.roundHalfEven (a / 2 ^ e))%Z).
      { apply roundHalfEven_ge. rewrite pow2_Z by lia.
        apply Qle_shift_div_l; [exact Hp|].
        rewrite <- pow2_split. replace (52 + e)%Z with (JS.ilog2 a) by lia. exact Hlog. }
      apply Qle_trans with (2 ^ 53)%Q.
      { rewrite <- pow2_Z by lia. rewrite <- Zle_Qle. exact Hz. }
      apply Qle_trans with (2 ^ 52 * 2 ^ e)%Q.
      { rewrite <- pow2_split. apply pow2_le. lia. }
      apply Qmult_le_r; [exact Hp|].
      rewrite <- pow2_Z by lia. rewrite <- Zle_Qle. exact Hm. }
  destruct (Qle_bool (2 ^ 1024) _) eqn:E; [reflexivity|].
  unfold JS.ofZ, JS.leb. apply Qle_bool_iff. rewrite Qred_correct. exact Hv.
Qed.

Lemma leb_neg_l (x : number) (z w : Z) :
  JS.leb (JS.ofZ w) x = true -> (- w <= z)%Z -> JS.leb (JS.neg x) (JS.ofZ z) = true.
Proof.
  intros H Hwz. destruct x as [| | |v]; try discriminate; try reflexivity.
  unfold JS.ofZ, JS.leb in *. apply Qle_bool_iff in H. apply Qle_bool_iff.
  rewrite Zle_Qle, inject_Z_opp in Hwz. cbn [JS.neg]. lra.
Qed.

Lemma leb_neg_r (x : number) (w : Z) :
  JS.leb x (JS.ofZ w) = true -> JS.leb (JS.ofZ (- w)) (JS.neg x) = true.
Proof.
  intros H. destruct x as [| | |v]; try discriminate; try reflexivity.
  unfold JS.ofZ, JS.leb in *. apply Qle_bool_iff in H. apply Qle_bool_iff.
  rewrite inject_Z_opp. lra.
Qed.

(** Rounding does not cross an integer that binary64 represents. *)
Lemma fl_le_int (q : Q) (z : Z) :
  (q <= inject_Z z)%Q -> (- 2 ^ 53 <= z <= 2 ^ 52)%Z ->
  JS.leb (JS.fl q) (JS.ofZ z) = true.
Proof.
  intros Hq Hz. unfold JS.fl. destruct (q ?= 0)%Q eqn:C.
  - apply Qeq_alt in C. unfold JS.ofZ, JS.leb. apply Qle_bool_iff. lra.
  - apply Qlt_alt in C.
    apply (leb_neg_l _ z (Z.max (- z) 0)); [|lia].
    apply flPos_ge_int; [lra | | lia].
    destruct (Z.max_spec (- z) 0) as [[_ ->] | [_ ->]].
    + change (inject_Z 0) with 0%Q. lra.
    + rewrite inject_Z_opp. lra.
  - apply Qgt_alt in C. apply flPos_le_int; [exact C | exact Hq | lia].
Qed.

Lemma fl_ge_int (q : Q) (z : Z) :
  (inject_Z z <= q)%Q -> (- 2 ^ 52 <= z <= 2 ^ 53)%Z ->
  JS.leb (JS.ofZ z) (JS.fl q) = true.
Proof.
  intros Hq Hz. unfold JS.fl. destruct (q ?= 0)%Q eqn:C.
  - apply Qeq_alt in C. unfold JS.ofZ, JS.leb. apply Qle_bool_iff. lra.
  - apply Qlt_alt in C.
    replace z with (- - z)%Z by lia. apply leb_neg_r.
    apply flPos_le_int; [lra | rewrite inject_Z_opp; lra | lia].
  - apply Qgt_alt in C. apply flPos_ge_int; [exact C | exact Hq | lia].
Qed.

(** A number between two integers is finite. *)
Lemma between_is_finite (x : number) (lo hi : Z) :
  JS.leb (JS.ofZ lo) x = true -> JS.leb x (JS.ofZ hi) = true ->
  exists v, x = Num v /\ (inject_Z lo <= v <= inject_Z hi)%Q.
Proof.
  intros Hlo Hhi. destruct x as [| | |v]; try discriminate.
  exists v. split; [reflexivity|].
  unfold JS.ofZ, JS.leb in *. apply Qle_bool_iff in Hlo, Hhi. split; assumption.
Qed.

(** The quotient of integers does not cross an integer bound. *)
Lemma div_ofZ_le (n m k : Z) :
  (0 < m)%Z -> (n <= k * m)%Z -> (- 2 ^ 53 <= k <= 2 ^ 52)%Z ->
  JS.leb (JS.ofZ n / JS.ofZ m)%js (JS.ofZ k) = true.
Proof.
  intros Hm Hn Hk.
  change (JS.ofZ n / JS.ofZ m)%js
    with (if Qeq_bool (inject_Z m) 0 then JS.ofSign (JS.sign (JS.ofZ n))
          else JS.fl (inject_Z n / inject_Z m)).
  assert (Hmq : (0 < inject_Z m)%Q).
  { change 0%Q with (inject_Z 0). rewrite <- Zlt_Qlt. exact Hm. }
  destruct (Qeq_bool (inject_Z m) 0) eqn:E.
  { apply Qeq_bool_iff in E. lra. }
  apply fl_le_int; [|exact Hk].
  apply Qle_shift_div_r; [exact Hmq|].
  rewrite <- inject_Z_mult, <- Zle_Qle. exact Hn.
Qed.

Lemma div_ofZ_ge (n m k : Z) :
  (0 < m)%Z -> (k * m <= n)%Z -> (- 2 ^ 52 <= k <= 2 ^ 53)%Z ->
  JS.leb (JS.ofZ k) (JS.ofZ n / JS.ofZ m)%js = true.
Proof.
  intros Hm Hn Hk.
  change (JS.ofZ n / JS.ofZ m)%js
    with (if Qeq_bool (inject_Z m) 0 then JS.ofSign (JS.sign (JS.ofZ n))
          else JS.fl (inject_Z n / inject_Z m)).
  assert (Hmq : (0 < inject_Z m)%Q).
  { change 0%Q with (inject_Z 0). rewrite <- Zlt_Qlt. exact Hm. }
  destruct (Qeq_bool (inject_Z m) 0) eqn:E.
  { apply Qeq_bool_iff in E. lra. }
  apply fl_ge_int; [|exact Hk].
  apply Qle_shift_div_l; [exact Hmq|].
  rewrite <- inject_Z_mult, <- Zle_Qle. exact Hn.
Qed.

Lemma mul_comm (x y : number) : JS.mul x y = JS.mul y x.
Proof.
  destruct x as [| | |[a b]], y as [| | |[c d]]; unfold JS.mul, JS.sign;
    try reflexivity; try (now rewrite Z.mul_comm).
  f_equal. unfold Qmult. cbn [Qnum Qden]. now rewrite Z.mul_comm, Pos.mul_comm.
Qed.

Lemma leb_num (a b : Q) : JS.leb (Num a) (Num b) = Qle_bool a b.
Proof. reflexivity. Qed.

Lemma ltb_num (a b : Q) : JS.ltb (Num a) (Num b) = negb (Qle_bool b a).
Proof.
  unfold JS.ltb; simpl. case_Qle a b; case_Qle b a; simpl; try reflexivity.
  exfalso. lra.
Qed.

Lemma Qfloor_half_nonneg (q : Q) : (0 <= q)%Q -> (0 <= Qfloor (q + (1 # 2)))%Z.
Proof.
  intros H. change 0%Z with (Qfloor 0). apply Qfloor_resp_le. lra.
Qed.

Lemma Qfloor_half_le (q : Q) (n : Z) :
  (q <= inject_Z n)%Q -> (Qfloor (q + (1 # 2)) <= n)%Z.
Proof.
  intros H.
  assert (Hn : Qfloor (inject_Z n + (1 # 2)) = n).
  { apply Z.le_antisymm.
    - apply Z.lt_succ_r. rewrite Zlt_Qlt.
      eapply Qle_lt_trans; [apply Qfloor_le|].
      rewrite <- Z.add_1_r, inject_Z_plus. apply Qplus_lt_r. reflexivity.
    - rewrite <- (Qfloor_Z n) at 1. apply Qfloor_resp_le. lra. }
  apply Z.le_trans with (Qfloor (inject_Z n + (1 # 2))).
  - apply Qfloor_resp_le. lra.
  - rewrite Hn. apply Z.le_refl.
Qed.

Lemma Qfloor_half_ge (q : Q) (n : Z) :
  (inject_Z n <= q)%Q -> (n <= Qfloor (q + (1 # 2)))%Z.
Proof.
  intros H. rewrite <- (Qfloor_Z n) at 1. apply Qfloor_resp_le. lra.
Qed.

Lemma Qle_bool_inject (a b : Z) : Qle_bool (inject_Z a) (inject_Z b) = (a <=? b)%Z.
Proof.
  destruct (a <=? b)%Z eqn:E.
  - apply Qle_bool_iff. rewrite <- Zle_Qle. now apply Z.leb_le.
  - destruct (Qle_bool (inject_Z a) (inject_Z b)) eqn:E'; [|reflexivity].
    apply Qle_bool_iff in E'. rewrite <- Zle_Qle in E'.
    apply Z.leb_le in E'. congruence.
Qed.



Lemma min_num (a b : Q) :
  JS.min (Num a) (Num b) = if Qle_bool a b then Num a else Num b.
Proof. unfold JS.min. simpl. rewrite ltb_num. now destruct (Qle_bool a b). Qed.

Lemma max_num (a b : Q) :
  JS.max (Num a) (Num b) = if Qle_bool b a then Num a else Num b.
Proof. unfold JS.max. simpl. rewrite ltb_num. now destruct (Qle_bool b a). Qed.

(** Rounding and clamping to the integer bounds 0 and 100 commute. *)
Lemma round_clamp (x : number) :
  JS.round (Spec.clamp (JS.ofZ 0) (JS.ofZ 100) x)
  = Spec.clamp (JS.ofZ 0) (JS.ofZ 100) (JS.round x).
Proof.
  destruct x as [| | |q]; try reflexivity.
  unfold Spec.clamp, JS.round, JS.ofZ.
  pose proof (Qfloor_half_le q 100) as Hle.
  pose proof (Qfloor_half_ge q 100) as Hge.
  pose proof (Qfloor_half_le q 0) as Hle0.
  pose proof (Qfloor_half_ge q 0) as Hge0.
  set (z := Qfloor (q + (1 # 2))) in *.
  rewrite !min_num, (Qle_bool_inject 100 z).
  case_Qle (inject_Z 100) q.
  - specialize (Hge E).
    destruct (100 <=? z)%Z eqn:Ez; [|apply Z.leb_gt in Ez; lia].
    rewrite max_num. reflexivity.
  - assert (Hz : (z <= 100)%Z) by (apply Hle; lra).
    rewrite max_num.
    case_Qle q (inject_Z 0).
    + specialize (Hle0 E0).
      destruct (100 <=? z)%Z eqn:Ez; [apply Z.leb_le in Ez; lia|].
      rewrite max_num, (Qle_bool_inject z 0).
      destruct (z <=? 0)%Z eqn:Ez0; [reflexivity|].
      apply Z.leb_gt in Ez0. lia.
    + assert (Hz0 : (0 <= z)%Z) by (apply Hge0; lra).
      fold z.
      destruct (100 <=? z)%Z eqn:Ez.
      * apply Z.leb_le in Ez. assert (Hz100 : z = 100%Z) by lia.
        rewrite Hz100. reflexivity.
      * rewrite max_num, (Qle_bool_inject z 0).
        destruct (z <=? 0)%Z eqn:Ez0; [|reflexivity].
        apply Z.leb_le in Ez0. assert (Hz00 : z = 0%Z) by lia. now rewrite Hz00.
Qed.

(** The score computed by the source is the score of the specification. *)
Lemma riskScoreOf_spec (factors : list XAI.RiskFactor) :
  XAI.riskScoreOf factors = Spec.score factors.
Proof.
  unfold XAI.riskScoreOf, Spec.score.
  rewrite <- round_clamp. unfold Spec.clamp.
  now rewrite (mul_comm (JS.ofZ 100)), (mul_comm (JS.ofZ 15)).
Qed.

Lemma classify_spec (riskScore : number) :
  XAI.classify riskScore = Spec.levelAndRecommendation riskScore.
Proof. reflexivity. Qed.


Lemma clamp_ofZ (z : Z) :
  Spec.clamp (JS.ofZ 0) (JS.ofZ 100) (JS.ofZ z) = JS.ofZ (Z.max 0 (Z.min 100 z)).
Proof.
  unfold Spec.clamp, JS.ofZ. rewrite min_num, (Qle_bool_inject 100 z).
  destruct (100 <=? z)%Z eqn:E.
  - apply Z.leb_le in E. rewrite max_num, (Qle_bool_inject 100 0). simpl.
    f_equal. f_equal. lia.
  - apply Z.leb_gt in E. rewrite max_num, (Qle_bool_inject z 0).
    destruct (z <=? 0)%Z eqn:E0.
    + apply Z.leb_le in E0. f_equal. f_equal. lia.
    + apply Z.leb_gt in E0. f_equal. f_equal. lia.
Qed.

Lemma leb_ofZ (a b : Z) : JS.leb (JS.ofZ a) (JS.ofZ b) = (a <=? b)%Z.
Proof. apply Qle_bool_inject. Qed.

(** ** The pair loop of the timeline detective *)

Lemma checkAllPairs_app_r (P : Platform) (pre rest : list Timeline.TimelineEvent) o :
  In o (Timeline.checkAllPairs P rest) ->
  In o (Timeline.checkAllPairs P (pre ++ rest)).
Proof.
  induction pre as [|e pre IH]; intros H; simpl; [exact H|].
  apply in_or_app. right. now apply IH.
Qed.

(** What the body pushes for a pair of events at positions [i < j] is in
    the result of the two loops. *)
Lemma checkPair_in_checkAllPairs (P : Platform)
  (pre mid post : list Timeline.TimelineEvent) (a b : Timeline.TimelineEvent)
  (o : Timeline.TimelineOverlap) :
  In o (Timeline.checkPair P a b) ->
  In o (Timeline.checkAllPairs P (pre ++ a :: mid ++ b :: post)).
Proof.
  intros H. apply checkAllPairs_app_r. simpl.
  apply in_or_app. left. rewrite forEachPush_flat_map.
  apply in_flat_map. exists b. split; [|exact H].
  apply in_or_app. right. now left.
Qed.

(** Conversely every overlap of the result was pushed for some pair. *)
Lemma checkAllPairs_from_pair (P : Platform) (events : list Timeline.TimelineEvent)
  (o : Timeline.TimelineOverlap) :
  In o (Timeline.checkAllPairs P events) ->
  exists pre a mid b post,
    events = pre ++ a :: mid ++ b :: post /\ In o (Timeline.checkPair P a b).
Proof.
  induction events as [|e events IH]; simpl; [intros []|].
  intros H. apply in_app_or in H as [H|H].
  - rewrite forEachPush_flat_map in H. apply in_flat_map in H as [b [Hb Ho]].
    apply in_split in Hb as [mid [post ->]].
    now exists [], e, mid, b, post.
  - destruct (IH H) as [pre [a [mid [b [post [-> Ho]]]]]].
    now exists (e :: pre), a, mid, b, post.
Qed.

Lemma claim_pair_in_run (P : Platform) (cptDb : CPTDatabase)
  (pre mid post : list ClaimItem) (c1 c2 : ClaimItem) (o : Timeline.TimelineOverlap) :
  In o (Timeline.checkPair P (Timeline.claimToEvent P cptDb c1)
                             (Timeline.claimToEvent P cptDb c2)) ->
  In o (Timeline.overlaps
          (Timeline.runTimelineDetective P (pre ++ c1 :: mid ++ c2 :: post) cptDb)).
Proof.
  intros H. unfold Timeline.runTimelineDetective, Timeline.claimsToEvents.
  cbn [Timeline.overlaps].
  rewrite map_app. simpl map. rewrite map_app. simpl map.
  now apply checkPair_in_checkAllPairs.
Qed.

(** The overlap in minutes is positive exactly for overlapping intervals. *)
Lemma intervalsOverlap_positive (a b : Timeline.TimelineEvent) :
  JS.gtb (Timeline.intervalsOverlap (Timeline.start_time a) (Timeline.end_time a)
                                    (Timeline.start_time b) (Timeline.end_time b))
         (JS.ofZ 0) = true
  <-> Spec.overlapping a b.
Proof.
  unfold Timeline.intervalsOverlap, Spec.overlapping.
  set (s := Z.max _ _). set (e := Z.min _ _).
  destruct (0 <? e - s)%Z eqn:E.
  - apply Z.ltb_lt in E. split; [lia|]. intros _.
    apply div_ofZ_positive; [exact E | reflexivity | discriminate].
  - apply Z.ltb_ge in E. split; [|lia]. intros H. vm_compute in H. discriminate.
Qed.

Lemma truthyOpt_zeroOrUndefined (x : option number) :
  Spec.zeroOrUndefined x -> JS.truthyOpt x = false.
Proof.
  intros [-> | [q [-> Hq]]]; [reflexivity|]. simpl.
  apply negb_false_iff. now apply Qeq_bool_iff.
Qed.

Lemma truthyOpt_nonZero (x : option number) :
  Spec.nonZero x -> JS.truthyOpt x = true.
Proof.
  intros [q [-> Hq]]. simpl. apply negb_true_iff.
  destruct (Qeq_bool q 0) eqn:E; [|reflexivity].
  apply Qeq_bool_iff in E. contradiction.
Qed.

Lemma string_eqb_neq (s t : string) : s <> t -> String.eqb s t = false.
Proof. intros H. now apply String.eqb_neq. Qed.

(** ** The ghost and unbundling loops *)

Lemma in_combine_seq {A : Type} (before after : list A) (x : A) (start : nat) :
  In ((start + length before)%nat, x)
     (combine (seq start (length (before ++ x :: after))) (before ++ x :: after)).
Proof.
  revert start. induction before as [|y before IH]; intros start; simpl.
  - left. f_equal. lia.
  - right. replace (start + S (length before))%nat with (S start + length before)%nat by lia.
    apply IH.
Qed.

(** What the body pushes for a claim of the batch is among the ghost
    services of the batch. *)
Lemma checkGhost_in_detect (cptDb : CPTDatabase) (before after : list ClaimItem)
  (claim : ClaimItem) (g : GhostUnbundle.GhostService) :
  (forall bodyAreas dominantArea i,
      In g (GhostUnbundle.checkGhost cptDb bodyAreas dominantArea i claim)) ->
  In g (GhostUnbundle.detectGhostServices (before ++ claim :: after) cptDb).
Proof.
  intros H. unfold GhostUnbundle.detectGhostServices.
  rewrite forEachPush_flat_map. apply in_flat_map.
  exists (length before, claim). split.
  - apply (in_combine_seq before after claim 0).
  - apply H.
Qed.

(** Path A of the ghost detector. *)
Lemma checkGhost_with_notes (cptDb : CPTDatabase)
  (bodyAreas : list GhostUnbundle.BodyAreaEntry) (dominantArea : option string)
  (i : nat) (claim : ClaimItem) :
  JS.hasText (recorded_clinical_notes claim) = true ->
  let score :=
    GhostUnbundle.calculateSimilarity (cpt_description claim)
                                      (recorded_clinical_notes claim) in
  GhostUnbundle.checkGhost cptDb bodyAreas dominantArea i claim
  = if (score <? GhostUnbundle.THRESHOLD)%js
    then [ {| GhostUnbundle.gs_claim_id := claim_id claim;
              GhostUnbundle.gs_cpt_code := cpt_code claim;
              GhostUnbundle.gs_cpt_description := cpt_description claim;
              GhostUnbundle.gs_billed_amount := billed_amount_inr claim;
              GhostUnbundle.similarity_score := score;
              GhostUnbundle.gs_explanation :=
                if (score === JS.ofZ 0)%js then GhostUnbundle.PhantomBilling
                else GhostUnbundle.InsufficientEvidence
                       score (GhostUnbundle.categoryOf cptDb claim) |} ]
    else [].
Proof.
  intros Hnotes score. unfold GhostUnbundle.checkGhost. now rewrite Hnotes.
Qed.

(** A denial phrase forces the ratio to 0 once the description has a
    semantic group. *)
Lemma calculateSimilarity_denial (cptDescription notes : string) :
  GhostUnbundle.getRelevantGroups cptDescription <> [] ->
  GhostUnbundle.hasDenial (JS.toLowerCase notes) = true ->
  GhostUnbundle.calculateSimilarity cptDescription notes = Num 0.
Proof.
  intros Hgroups Hdenial. unfold GhostUnbundle.calculateSimilarity.
  destruct (GhostUnbundle.getRelevantGroups cptDescription) as [|g gs] eqn:E;
    [contradiction|].
  cbn [length Nat.eqb].
  destruct (fold_left _ (g :: gs) _) as [matchCount totalKeywords].
  now rewrite Hdenial.
Qed.

(** A description without semantic group is scored 0.5 whatever the
    notes. *)
Lemma calculateSimilarity_no_group (cptDescription notes : string) :
  GhostUnbundle.getRelevantGroups cptDescription = [] ->
  GhostUnbundle.calculateSimilarity cptDescription notes = Num 0.5.
Proof.
  intros Hgroups. unfold GhostUnbundle.calculateSimilarity. now rewrite Hgroups.
Qed.

(** The threshold 0.15 lies between the ratios 0 and 0.5. *)
Lemma threshold_above_zero : JS.ltb (Num 0) GhostUnbundle.THRESHOLD = true.
Proof. vm_compute. reflexivity. Qed.

Lemma threshold_below_half : JS.ltb (Num 0.5) GhostUnbundle.THRESHOLD = false.
Proof. vm_compute. reflexivity. Qed.

Lemma billedCodes_spec (claims : list ClaimItem) (code : string) :
  bool_decide (code ∈ (list_to_set (map cpt_code claims) : gset string))
  = Spec.billed claims code.
Proof.
  unfold Spec.billed.
  destruct (existsb (String.eqb code) (map cpt_code claims)) eqn:E.
  - apply bool_decide_eq_true_2, elem_of_list_to_set, list_elem_of_In.
    apply existsb_exists in E as [x [Hin Heq]].
    apply String.eqb_eq in Heq. now subst.
  - apply bool_decide_eq_false_2. intros H.
    apply elem_of_list_to_set, list_elem_of_In in H.
    assert (Ht : existsb (String.eqb code) (map cpt_code claims) = true).
    { apply existsb_exists. exists code. split; [exact H | apply String.eqb_refl]. }
    congruence.
Qed.

(** The score is NaN or an integer between 0 and 100. *)
Lemma riskScoreOf_nan_or_range (factors : list XAI.RiskFactor) :
  XAI.riskScoreOf factors = NaN
  \/ exists z, (0 <= z <= 100)%Z /\ XAI.riskScoreOf factors = JS.ofZ z.
Proof.
  rewrite riskScoreOf_spec. unfold Spec.score.
  destruct (JS.ofZ 10 + _ - _)%js as [| | |q].
  - now left.
  - right. exists 100%Z. split; [lia | reflexivity].
  - right. exists 0%Z. split; [lia | reflexivity].
  - right. exists (Z.max 0 (Z.min 100 (Qfloor (q + (1 # 2))))).
    split; [lia|]. unfold JS.round. apply clamp_ofZ.
Qed.

(** ** When the timeline detective reports a teleportation *)

(** An overlap of type TELEPORTATION is only ever pushed for two events of
    different departments that both carry truthy coordinates more than
    5 km apart. *)
Lemma teleportation_only_beyond_5km (P : Platform) (claims : list ClaimItem)
  (cptDb : CPTDatabase) (o : Timeline.TimelineOverlap) :
  In o (Timeline.overlaps (Timeline.runTimelineDetective P claims cptDb)) ->
  Timeline.type o = Timeline.TELEPORTATION ->
  let a := Timeline.event_a o in
  let b := Timeline.event_b o in
  Timeline.ev_department a <> Timeline.ev_department b
  /\ JS.truthyOpt (Timeline.ev_location_lat a) = true
  /\ JS.truthyOpt (Timeline.ev_location_lng a) = true
  /\ JS.truthyOpt (Timeline.ev_location_lat b) = true
  /\ JS.truthyOpt (Timeline.ev_location_lng b) = true
  /\ JS.gtb (Spec.distanceBetween P a b) (JS.ofZ 5) = true.
Proof.
  intros Hin Htype. cbn [Timeline.overlaps Timeline.runTimelineDetective] in Hin.
  apply checkAllPairs_from_pair in Hin as (pre & a & mid & b & post & _ & Ho).
  unfold Timeline.checkPair in Ho.
  fold (Spec.distanceBetween P a b) in Ho.
  destruct (Timeline.intervalsOverlap _ _ _ _ >? JS.ofZ 0)%js; [|destruct Ho].
  destruct (String.eqb (Timeline.ev_department a) (Timeline.ev_department b)) eqn:Edep;
    simpl negb in Ho; cbv iota in Ho.
  - simpl andb in Ho. cbv iota in Ho.
    destruct Ho as [<-|[]]. discriminate Htype.
  - apply String.eqb_neq in Edep.
    destruct (JS.truthyOpt (Timeline.ev_location_lat a)) eqn:E1;
      [|destruct Ho as [<-|[]]; discriminate Htype].
    destruct (JS.truthyOpt (Timeline.ev_location_lng a)) eqn:E2;
      [|destruct Ho as [<-|[]]; discriminate Htype].
    destruct (JS.truthyOpt (Timeline.ev_location_lat b)) eqn:E3;
      [|destruct Ho as [<-|[]]; discriminate Htype].
    destruct (JS.truthyOpt (Timeline.ev_location_lng b)) eqn:E4;
      [|destruct Ho as [<-|[]]; discriminate Htype].
    simpl andb in Ho. cbv iota in Ho.
    destruct (Spec.distanceBetween P a b >? JS.ofZ 5)%js eqn:Efar;
      destruct Ho as [<-|[]]; [|discriminate Htype].
    cbn. repeat split; assumption.
Qed.

(* ================================================================== *)
(** * Risk aggregation: score formula and thresholds *)
(* ================================================================== *)

Lemma runXAIAdvisor_score llm crossModal timeline ghostUnbundle claims cptDb :
  let r := XAI.runXAIAdvisor llm crossModal timeline ghostUnbundle claims cptDb in
  XAI.risk_score r = XAI.riskScoreOf (XAI.factors r)
  /\ (XAI.risk_level r, XAI.recommendation r) = XAI.classify (XAI.risk_score r).
Proof.
  unfold XAI.runXAIAdvisor.
  destruct (XAI.classify _) as [lvl rec] eqn:E. simpl. now rewrite E.
Qed.

(** C1. For every claim batch, whatever the engines found, the risk
    score of the aggregator is
    clamp(0, 100, round(10 + 100 x the sum of the RISK contributions
    - 15 x the sum of the absolute SAFE contributions)) over the factors it
    reports, computed like the source in the arithmetic of JavaScript
    numbers (binary64, the sums taken in the order of the factors), and the
    risk level and the recommendation are the ones the fixed thresholds
    75 / 50 / 25 assign to that score. *)
Theorem C1_score_formula_and_thresholds
  (llm : XAI.BriefRequest -> option string)
  (crossModal : CrossModal.CrossModalResult) (timeline : Timeline.TimelineResult)
  (ghostUnbundle : GhostUnbundle.GhostUnbundleResult)
  (claims : list ClaimItem) (cptDb : CPTDatabase) :
  let r := XAI.runXAIAdvisor llm crossModal timeline ghostUnbundle claims cptDb in
  XAI.risk_score r = Spec.score (XAI.factors r)
  /\ (XAI.risk_level r, XAI.recommendation r)
     = Spec.levelAndRecommendation (XAI.risk_score r).
Proof.
  intros r. subst r.
  destruct (runXAIAdvisor_score llm crossModal timeline ghostUnbundle claims cptDb)
    as [Hs Hc].
  cbv zeta in Hs, Hc. split.
  - rewrite Hs. apply riskScoreOf_spec.
  - rewrite Hc. apply classify_spec.
Qed.

(** The arithmetic decides at the thresholds.  On [Sample.nearCritical]
    the RISK contributions are 0.24, 0.22 and 0.20 and the SAFE ones twice
    0.05: over the reals the raw score would be 74.5 and round to 75,
    CRITICAL.  In the arithmetic of the source the sum of the contributions
    falls short of 0.66, the raw score is 74.49999999999999, and the advisor
    reports 74, HIGH and ESCALATE. *)
Lemma risk_score_is_rounded_from_binary64 :
  let r := Analyzer.analyzeFullClaim SamplePlatform.platform SamplePlatform.noGenerator
             Sample.nearCritical Sample.cptDb in
  let advice := fulfilledWith (Analyzer.xai r) in
  map XAI.name (XAI.factors advice)
  = ["Severity Mismatch"; "Timeline Clean"; "Phantom Charges"; "Excessive Billing";
     "Documentation Complete"]
  /\ JS.ltb (JS.sumBy XAI.contribution (List.filter XAI.isRisk (XAI.factors advice)))
            (JS.lit 0.66) = true
  /\ XAI.risk_score advice = JS.ofZ 74
  /\ XAI.risk_level advice = HIGH
  /\ XAI.recommendation advice = XAI.ESCALATE
  /\ (10 + (0.24 + 0.22 + 0.20) * 100 - (0.05 + 0.05) * 15 == 74.5)%Q.
Proof. vm_compute. repeat split; reflexivity. Qed.

(* ================================================================== *)
(** * Risk score range *)
(* ================================================================== *)

(** C6 (the code departs from it).  On a batch whose total billed amount
    is zero and that contains a ghost service, the phantom-charges factor
    divides zero by zero: its contribution is NaN, and so is the risk
    score, which is then no number between 0 and 100. *)
Theorem C6_risk_score_nan_on_zero_billed :
  let r := Analyzer.analyzeFullClaim SamplePlatform.platform SamplePlatform.noGenerator
             [Sample.deniedMri] Sample.cptDb in
  let advice := fulfilledWith (Analyzer.xai r) in
  Analyzer.total_billed r = Num 0
  /\ length (GhostUnbundle.ghost_services (Analyzer.ghost_unbundle r)) = 1%nat
  /\ XAI.risk_score advice = NaN
  /\ JS.leb (JS.ofZ 0) (XAI.risk_score advice) = false
  /\ JS.leb (XAI.risk_score advice) (JS.ofZ 100) = false.
Proof. vm_compute. repeat split; reflexivity. Qed.

(** NaN absorbs a sum. *)
Lemma sumBy_nan_from {A : Type} (f : A -> number) (xs : list A) :
  fold_left (fun sum x => JS.add sum (f x)) xs NaN = NaN.
Proof. induction xs as [|x xs IH]; simpl; [reflexivity | exact IH]. Qed.

Lemma sumBy_nan {A : Type} (f : A -> number) (xs : list A) (x : A) :
  In x xs -> f x = NaN -> JS.sumBy f xs = NaN.
Proof.
  unfold JS.sumBy. generalize (Num 0) as acc.
  induction xs as [|y xs IH]; intros acc Hin Hx; [destruct Hin|].
  simpl. destruct Hin as [->|Hin].
  - rewrite Hx. replace (JS.add acc NaN) with NaN by (now destruct acc).
    apply sumBy_nan_from.
  - now apply IH.
Qed.

(** One RISK factor with a NaN contribution makes the score NaN. *)
Lemma riskScoreOf_nan (factors : list XAI.RiskFactor) (f : XAI.RiskFactor) :
  In f factors -> XAI.isRisk f = true -> XAI.contribution f = NaN ->
  XAI.riskScoreOf factors = NaN.
Proof.
  intros Hin Hrisk Hnan. unfold XAI.riskScoreOf.
  rewrite (sumBy_nan XAI.contribution (List.filter XAI.isRisk factors) f);
    [reflexivity | | exact Hnan].
  apply filter_In. split; assumption.
Qed.

(** The failure is systematic: whenever the batch bills a total of zero and
    ghost services were found (their amounts then sum to zero as well), the
    phantom-charges factor is NaN and so is the risk score. *)
Lemma zero_billed_ghost_score_nan
  (llm : XAI.BriefRequest -> option string)
  (crossModal : CrossModal.CrossModalResult) (timeline : Timeline.TimelineResult)
  (ghostUnbundle : GhostUnbundle.GhostUnbundleResult)
  (claims : list ClaimItem) (cptDb : CPTDatabase) (total ghostAmount : Q) :
  JS.sumBy billed_amount_inr claims = Num total ->
  (total == 0)%Q ->
  GhostUnbundle.ghost_services ghostUnbundle <> [] ->
  JS.sumBy GhostUnbundle.gs_billed_amount (GhostUnbundle.ghost_services ghostUnbundle)
  = Num ghostAmount ->
  (ghostAmount == 0)%Q ->
  XAI.risk_score
    (XAI.runXAIAdvisor llm crossModal timeline ghostUnbundle claims cptDb)
  = NaN.
Proof.
  intros Htotal Ht Hghosts Hamount Hg.
  destruct (runXAIAdvisor_score llm crossModal timeline ghostUnbundle claims cptDb)
    as [Hscore _].
  cbv zeta in Hscore. rewrite Hscore.
  assert (Hfactors :
            XAI.factors
              (XAI.runXAIAdvisor llm crossModal timeline ghostUnbundle claims cptDb)
            = XAI.calculateFactors crossModal timeline ghostUnbundle claims cptDb).
  { unfold XAI.runXAIAdvisor. now destruct (XAI.classify _). }
  rewrite Hfactors.
  set (phantom :=
         {| XAI.name := "Phantom Charges";
            XAI.contribution := NaN;
            XAI.rf_description :=
              XAI.PhantomChargesText
                (length (GhostUnbundle.ghost_services ghostUnbundle)) (Num ghostAmount);
            XAI.direction := XAI.RISK |}).
  apply (riskScoreOf_nan _ phantom); [|reflexivity|reflexivity].
  unfold XAI.calculateFactors. rewrite Htotal, Hamount.
  apply in_or_app. right. apply in_or_app. right. apply in_or_app. left.
  destruct (GhostUnbundle.ghost_services ghostUnbundle) as [|g gs];
    [contradiction|].
  cbn [length Nat.ltb Nat.leb].
  assert (Hdiv : JS.div (Num ghostAmount) (Num total) = NaN).
  { simpl. apply Qeq_bool_iff in Ht. rewrite Ht.
    destruct ghostAmount as [n d]. unfold Qeq in Hg. simpl in Hg.
    assert (n = 0%Z) by lia. subst n. reflexivity. }
  rewrite Hdiv. now left.
Qed.

(* ================================================================== *)
(** * Monotonicity of the score in the RISK factors *)
(* ================================================================== *)

(** C7 (the code departs from it).  On the batch [Sample.cheapUnbundled],
    which bills 100 each for a shoulder treatment and its strapping while
    the single correct code costs 9000, the advisor reports the RISK
    factor Code Unbundling with a contribution below -1 (the savings,
    -8800, are negative).  With that factor the score is 0; the other
    factors alone give 7: a RISK factor has lowered the score. *)
Theorem C7_risk_factor_lowers_score :
  let r := Analyzer.analyzeFullClaim SamplePlatform.platform SamplePlatform.noGenerator
             Sample.cheapUnbundled Sample.cptDb in
  let advice := fulfilledWith (Analyzer.xai r) in
  exists before f after,
    XAI.factors advice = before ++ f :: after
    /\ XAI.name f = "Code Unbundling"
    /\ XAI.direction f = XAI.RISK
    /\ JS.ltb (XAI.contribution f) (JS.ofZ (-1)) = true
    /\ XAI.riskScoreOf (before ++ after) = JS.ofZ 7
    /\ XAI.riskScoreOf (before ++ f :: after) = JS.ofZ 0
    /\ XAI.risk_score advice = JS.ofZ 0
    /\ JS.leb (XAI.riskScoreOf (before ++ after))
              (XAI.riskScoreOf (before ++ f :: after)) = false.
Proof.
  intros r advice.
  assert (Hscore : XAI.risk_score advice = JS.ofZ 0) by (vm_compute; reflexivity).
  remember (XAI.factors advice) as fs eqn:Hfs.
  vm_compute in Hfs. subst fs.
  eexists [_; _], _, [_; _]. split; [reflexivity|].
  split; [reflexivity|]. split; [reflexivity|].
  split; [vm_compute; reflexivity|].
  split; [vm_compute; reflexivity|].
  split; [vm_compute; reflexivity|].
  split; [exact Hscore|].
  vm_compute. reflexivity.
Qed.

(* ================================================================== *)
(** * The empty batch *)
(* ================================================================== *)

Lemma detectUnbundling_nil (cptDb : CPTDatabase) :
  GhostUnbundle.detectUnbundling [] cptDb = [].
Proof.
  unfold GhostUnbundle.detectUnbundling. rewrite forEachPush_flat_map.
  simpl map.
  induction (ncci_bundles cptDb) as [|b bs IH]; [reflexivity|].
  cbn [flat_map]. rewrite IH, app_nil_r.
  unfold GhostUnbundle.checkBundle.
  rewrite bool_decide_eq_false_2; [reflexivity|].
  apply not_elem_of_empty.
Qed.

(** The advisor on the results of the engines for the empty batch. *)
Lemma runXAIAdvisor_nil (P : Platform) (llm : XAI.BriefRequest -> option string)
  (cptDb : CPTDatabase) :
  let advice :=
    XAI.runXAIAdvisor llm (CrossModal.runCrossModalAudit [] cptDb)
                      (Timeline.runTimelineDetective P [] cptDb)
                      (GhostUnbundle.runGhostUnbundleHunter [] cptDb) [] cptDb in
  XAI.risk_score advice = JS.ofZ 7
  /\ XAI.risk_level advice = LOW
  /\ XAI.recommendation advice = XAI.APPROVE.
Proof.
  unfold XAI.runXAIAdvisor, XAI.calculateFactors,
    GhostUnbundle.runGhostUnbundleHunter.
  rewrite detectUnbundling_nil. vm_compute. repeat split; reflexivity.
Qed.

(** C8 as stated fails for the pipeline as it is reached: the route
    answers an empty [claims] array with status 400 and runs no
    analysis. *)
Lemma C8_counterexample_route_rejects_empty :
  Route.POST SamplePlatform.platform SamplePlatform.noGenerator Sample.cptDb
             (Route.Body (Some []))
  = Route.Error 400 Route.invalidRequest
  /\ ~ exists result,
         Route.POST SamplePlatform.platform SamplePlatform.noGenerator Sample.cptDb
                    (Route.Body (Some []))
         = Route.Json result.
Proof.
  split; [reflexivity|]. intros [result H]. discriminate H.
Qed.

(** C8, as the code has it.  Called on the empty batch, the orchestrator
    [analyzeFullClaim] does not fail: it returns a result with zero
    claims and zero billed, and the advisor it runs on the batch arrives
    at a risk score of 7, risk level LOW and recommendation APPROVE,
    whatever the reference database.  The API route does not reach it
    with an empty batch, which it rejects with status 400. *)
Theorem C8_empty_batch
  (P : Platform) (llm : XAI.BriefRequest -> option string) (cptDb : CPTDatabase) :
  let r := Analyzer.analyzeFullClaim P llm [] cptDb in
  let advice :=
    XAI.runXAIAdvisor llm (Analyzer.cross_modal r) (Analyzer.timeline r)
                      (Analyzer.ghost_unbundle r) [] cptDb in
  (Analyzer.total_claims r = 0%nat
   /\ Analyzer.total_billed r = Num 0
   /\ Analyzer.xai r = pending advice
   /\ XAI.risk_score advice = JS.ofZ 7
   /\ XAI.risk_level advice = LOW
   /\ XAI.recommendation advice = XAI.APPROVE)
  /\ Route.POST P llm cptDb (Route.Body (Some []))
     = Route.Error 400 Route.invalidRequest.
Proof.
  intros r advice. split; [|reflexivity].
  split; [reflexivity|]. split; [reflexivity|]. split; [reflexivity|].
  apply (runXAIAdvisor_nil P llm cptDb).
Qed.

(* ================================================================== *)
(** * Timeline: overlap against teleportation *)
(* ================================================================== *)

(** The record pushed for an overlapping pair that has no usable
    coordinates but different departments. *)
Lemma checkPair_without_coordinates (P : Platform) (a b : Timeline.TimelineEvent) :
  Spec.overlapping a b ->
  Timeline.ev_department a <> Timeline.ev_department b ->
  JS.truthyOpt (Timeline.ev_location_lat a) && JS.truthyOpt (Timeline.ev_location_lng a)
  && JS.truthyOpt (Timeline.ev_location_lat b) && JS.truthyOpt (Timeline.ev_location_lng b)
  = false ->
  let minutes :=
    Timeline.intervalsOverlap (Timeline.start_time a) (Timeline.end_time a)
                              (Timeline.start_time b) (Timeline.end_time b) in
  Timeline.checkPair P a b
  = [ {| Timeline.event_a := a; Timeline.event_b := b;
         Timeline.overlap_minutes := minutes;
         Timeline.explanation := Timeline.TimeOverlapDifferentLocations minutes;
         Timeline.type := Timeline.OVERLAP;
         Timeline.required_speed_kmh := None |} ].
Proof.
  intros Hov Hdep Hco minutes. unfold Timeline.checkPair.
  apply intervalsOverlap_positive in Hov. fold minutes. fold minutes in Hov.
  rewrite Hov, (string_eqb_neq _ _ Hdep). simpl negb.
  rewrite <- !andb_assoc. simpl andb. rewrite !andb_assoc, Hco. reflexivity.
Qed.

(** C10. An overlapping pair of claims from different departments in
    which a latitude or a longitude is 0 or undefined is handled as a pair
    without coordinates: the overlap recorded for it has type OVERLAP, no
    required speed, and the explanation that carries no distance; the
    positions play no part in it. *)
Theorem C10_zero_coordinate_means_no_coordinates
  (P : Platform) (cptDb : CPTDatabase) (pre mid post : list ClaimItem)
  (c1 c2 : ClaimItem) :
  let a := Timeline.claimToEvent P cptDb c1 in
  let b := Timeline.claimToEvent P cptDb c2 in
  Spec.overlapping a b ->
  department c1 <> department c2 ->
  Spec.zeroOrUndefined (location_lat c1) \/ Spec.zeroOrUndefined (location_lng c1)
  \/ Spec.zeroOrUndefined (location_lat c2) \/ Spec.zeroOrUndefined (location_lng c2) ->
  let minutes :=
    Timeline.intervalsOverlap (Timeline.start_time a) (Timeline.end_time a)
                              (Timeline.start_time b) (Timeline.end_time b) in
  let o := {| Timeline.event_a := a; Timeline.event_b := b;
              Timeline.overlap_minutes := minutes;
              Timeline.explanation := Timeline.TimeOverlapDifferentLocations minutes;
              Timeline.type := Timeline.OVERLAP;
              Timeline.required_speed_kmh := None |} in
  Timeline.checkPair P a b = [o]
  /\ In o (Timeline.overlaps
             (Timeline.runTimelineDetective P (pre ++ c1 :: mid ++ c2 :: post) cptDb)).
Proof.
  intros a b Hov Hdep Hzero minutes o.
  assert (Hpair : Timeline.checkPair P a b = [o]).
  { apply checkPair_without_coordinates; [exact Hov | exact Hdep |].
    subst a b. cbn [Timeline.claimToEvent Timeline.ev_location_lat Timeline.ev_location_lng].
    destruct Hzero as [H|[H|[H|H]]]; apply truthyOpt_zeroOrUndefined in H; rewrite H;
      rewrite ?andb_false_r; reflexivity. }
  split; [exact Hpair|].
  apply claim_pair_in_run. fold a b. rewrite Hpair. now left.
Qed.

(** Two overlapping claims of different departments: the X-ray carries
    latitude 0, the physiotherapy session is in Mysuru. *)
Lemma C10_zero_coordinate_means_no_coordinates_witness :
  let c1 := Sample.xray "PrimeCare Clinic" (Some (Num 0)) (Some (JS.lit 77.5946)) in
  let c2 := Sample.physio "Elite Rehab" (fst Sample.mysuru) (snd Sample.mysuru) in
  let a := Timeline.claimToEvent SamplePlatform.platform Sample.cptDb c1 in
  let b := Timeline.claimToEvent SamplePlatform.platform Sample.cptDb c2 in
  Timeline.checkPair SamplePlatform.platform a b
  = [ {| Timeline.event_a := a; Timeline.event_b := b;
         Timeline.overlap_minutes := JS.ofZ 30;
         Timeline.explanation := Timeline.TimeOverlapDifferentLocations (JS.ofZ 30);
         Timeline.type := Timeline.OVERLAP;
         Timeline.required_speed_kmh := None |} ].
Proof.
  intros c1 c2 a b.
  refine (proj1 (C10_zero_coordinate_means_no_coordinates
                   SamplePlatform.platform Sample.cptDb [] [] [] c1 c2 _ _ _)).
  - vm_compute. reflexivity.
  - vm_compute. discriminate.
  - left. right. exists 0%Q. split; reflexivity.
Defined.

Lemma requiredSpeed_spec (distance : number) (a b : Timeline.TimelineEvent) :
  (if (JS.ofZ (Z.abs (Timeline.start_time b - Timeline.start_time a)) / JS.ofZ 3600000
       >? JS.ofZ 0)%js
   then (distance / (JS.ofZ (Z.abs (Timeline.start_time b - Timeline.start_time a))
                     / JS.ofZ 3600000))%js
   else Infinity)
  = Spec.requiredSpeed distance a b.
Proof.
  unfold Spec.requiredSpeed.
  set (d := Z.abs (Timeline.start_time b - Timeline.start_time a)).
  assert (Hd : (0 <= d)%Z) by apply Z.abs_nonneg.
  cbv zeta.
  destruct (d =? 0)%Z eqn:E.
  - apply Z.eqb_eq in E. rewrite E. reflexivity.
  - apply Z.eqb_neq in E.
    rewrite div_ofZ_positive; [reflexivity | lia | reflexivity | discriminate].
Qed.

(** The record pushed for an overlapping pair from different departments
    with coordinates on both sides. *)
Lemma checkPair_with_coordinates (P : Platform) (a b : Timeline.TimelineEvent) :
  Spec.overlapping a b ->
  Timeline.ev_department a <> Timeline.ev_department b ->
  JS.truthyOpt (Timeline.ev_location_lat a) = true ->
  JS.truthyOpt (Timeline.ev_location_lng a) = true ->
  JS.truthyOpt (Timeline.ev_location_lat b) = true ->
  JS.truthyOpt (Timeline.ev_location_lng b) = true ->
  let minutes :=
    Timeline.intervalsOverlap (Timeline.start_time a) (Timeline.end_time a)
                              (Timeline.start_time b) (Timeline.end_time b) in
  let distance := Spec.distanceBetween P a b in
  let speed := Spec.requiredSpeed distance a b in
  Timeline.checkPair P a b
  = [ if (distance >? JS.ofZ 5)%js
      then {| Timeline.event_a := a; Timeline.event_b := b;
              Timeline.overlap_minutes := minutes;
              Timeline.explanation := Timeline.ImpossibleTravel distance speed;
              Timeline.type := Timeline.TELEPORTATION;
              Timeline.required_speed_kmh := Some speed |}
      else {| Timeline.event_a := a; Timeline.event_b := b;
              Timeline.overlap_minutes := minutes;
              Timeline.explanation := Timeline.TimeOverlap minutes;
              Timeline.type := Timeline.OVERLAP;
              Timeline.required_speed_kmh := Some speed |} ].
Proof.
  intros Hov Hdep H1 H2 H3 H4 minutes distance speed. unfold Timeline.checkPair.
  apply intervalsOverlap_positive in Hov. fold minutes. fold minutes in Hov.
  rewrite Hov, (string_eqb_neq _ _ Hdep), H1, H2, H3, H4. simpl andb. cbv iota.
  fold (Spec.distanceBetween P a b). fold distance.
  rewrite (requiredSpeed_spec distance a b). fold speed.
  now destruct (distance >? JS.ofZ 5)%js.
Qed.

(** Every overlap pushed for a pair is of type OVERLAP unless the distance
    exceeds 5 km. *)
Lemma checkPair_overlap_within_5km (P : Platform) (a b : Timeline.TimelineEvent) :
  Spec.overlapping a b ->
  JS.gtb (Spec.distanceBetween P a b) (JS.ofZ 5) = false ->
  exists o, Timeline.checkPair P a b = [o] /\ Timeline.type o = Timeline.OVERLAP.
Proof.
  intros Hov Hd. unfold Timeline.checkPair.
  apply intervalsOverlap_positive in Hov. rewrite Hov.
  fold (Spec.distanceBetween P a b). rewrite Hd.
  repeat match goal with
         | |- context [if ?c then _ else _] => destruct c
         end; eexists; split; reflexivity.
Qed.

Lemma leb_not_gtb (x y : number) : JS.leb x y = true -> JS.gtb x y = false.
Proof.
  intros H. unfold JS.gtb, JS.ltb. rewrite H. apply andb_false_r.
Qed.

(** C2, as the code has it.  For an overlapping pair of claims from
    different departments whose four coordinates are numbers other than 0
    and lie more than 5 km apart (haversine, Earth radius 6371 km), the
    overlap is classified TELEPORTATION and its required speed is the
    distance divided by the time elapsed between the two starts in hours,
    infinite when no time elapsed.  For every overlapping pair at most 5 km
    apart the classification is OVERLAP. *)
Theorem C2_teleportation_classification
  (P : Platform) (cptDb : CPTDatabase) (pre mid post : list ClaimItem)
  (c1 c2 : ClaimItem) :
  let a := Timeline.claimToEvent P cptDb c1 in
  let b := Timeline.claimToEvent P cptDb c2 in
  let run := Timeline.runTimelineDetective P (pre ++ c1 :: mid ++ c2 :: post) cptDb in
  let distance := Spec.distanceBetween P a b in
  Spec.overlapping a b ->
  (department c1 <> department c2 ->
   Spec.nonZero (location_lat c1) -> Spec.nonZero (location_lng c1) ->
   Spec.nonZero (location_lat c2) -> Spec.nonZero (location_lng c2) ->
   JS.gtb distance (JS.ofZ 5) = true ->
   exists o,
     Timeline.checkPair P a b = [o]
     /\ In o (Timeline.overlaps run)
     /\ Timeline.type o = Timeline.TELEPORTATION
     /\ Timeline.required_speed_kmh o = Some (Spec.requiredSpeed distance a b))
  /\ (JS.leb distance (JS.ofZ 5) = true ->
      exists o,
        Timeline.checkPair P a b = [o]
        /\ In o (Timeline.overlaps run)
        /\ Timeline.type o = Timeline.OVERLAP).
Proof.
  intros a b run distance Hov. split.
  - intros Hdep H1 H2 H3 H4 Hfar.
    pose proof (checkPair_with_coordinates P a b Hov Hdep
                  (truthyOpt_nonZero _ H1) (truthyOpt_nonZero _ H2)
                  (truthyOpt_nonZero _ H3) (truthyOpt_nonZero _ H4)) as Hpair.
    cbv zeta in Hpair. fold distance in Hpair. rewrite Hfar in Hpair.
    eexists. split; [exact Hpair|]. split; [|split; reflexivity].
    apply claim_pair_in_run. fold a b. rewrite Hpair. now left.
  - intros Hnear.
    destruct (checkPair_overlap_within_5km P a b Hov (leb_not_gtb _ _ Hnear))
      as [o [Hpair Htype]].
    exists o. split; [exact Hpair|]. split; [|exact Htype].
    apply claim_pair_in_run. fold a b. rewrite Hpair. now left.
Qed.

(** The X-ray in Bengaluru and the physiotherapy session in Mysuru, billed
    by two departments fifteen minutes apart. *)
Lemma C2_teleportation_classification_witness :
  let c1 := Sample.xray "PrimeCare Clinic" (fst Sample.bengaluru) (snd Sample.bengaluru) in
  let c2 := Sample.physio "Elite Rehab" (fst Sample.mysuru) (snd Sample.mysuru) in
  let a := Timeline.claimToEvent SamplePlatform.platform Sample.cptDb c1 in
  let b := Timeline.claimToEvent SamplePlatform.platform Sample.cptDb c2 in
  exists o,
    Timeline.checkPair SamplePlatform.platform a b = [o]
    /\ In o (Timeline.overlaps
               (Timeline.runTimelineDetective SamplePlatform.platform [c1; c2] Sample.cptDb))
    /\ Timeline.type o = Timeline.TELEPORTATION
    /\ Timeline.required_speed_kmh o
       = Some (Spec.requiredSpeed
                 (Spec.distanceBetween SamplePlatform.platform a b) a b).
Proof.
  intros c1 c2 a b.
  assert (Hov : Spec.overlapping a b) by (vm_compute; reflexivity).
  destruct (C2_teleportation_classification
              SamplePlatform.platform Sample.cptDb [] [] [] c1 c2 Hov) as [Hfar _].
  apply Hfar.
  - vm_compute. discriminate.
  - vm_compute. eexists. split; [reflexivity | discriminate].
  - vm_compute. eexists. split; [reflexivity | discriminate].
  - vm_compute. eexists. split; [reflexivity | discriminate].
  - vm_compute. eexists. split; [reflexivity | discriminate].
  - vm_compute. reflexivity.
Defined.

(** C2 as stated fails: the same two claims, 128 km apart and
    overlapping, billed under one department name are classified OVERLAP,
    with no required speed. *)
Lemma C2_counterexample_same_department :
  let c1 := Sample.xray "City Hospital" (fst Sample.bengaluru) (snd Sample.bengaluru) in
  let c2 := Sample.physio "City Hospital" (fst Sample.mysuru) (snd Sample.mysuru) in
  let a := Timeline.claimToEvent SamplePlatform.platform Sample.cptDb c1 in
  let b := Timeline.claimToEvent SamplePlatform.platform Sample.cptDb c2 in
  let run := Timeline.runTimelineDetective SamplePlatform.platform [c1; c2] Sample.cptDb in
  Spec.overlapping a b
  /\ JS.gtb (Spec.distanceBetween SamplePlatform.platform a b) (JS.ofZ 5) = true
  /\ map Timeline.type (Timeline.overlaps run) = [Timeline.OVERLAP]
  /\ map Timeline.required_speed_kmh (Timeline.overlaps run) = [None].
Proof.
  intros c1 c2 a b run. split; [vm_compute; reflexivity|].
  vm_compute. repeat split; reflexivity.
Qed.

(* ================================================================== *)
(** * Timeline: missing or unparseable date and time *)
(* ================================================================== *)

(** C9. A claim whose date or time is missing, or whose date and time do
    not parse, is not rejected: it yields its timeline event like any
    other claim.  A missing date is replaced by the current date and a
    missing time by 12:00 in the string that is parsed; when that string
    does not parse, the event starts at the current instant. *)
Theorem C9_missing_date_time_defaults
  (P : Platform) (cptDb : CPTDatabase) (claims : list ClaimItem) (c : ClaimItem) :
  In c claims ->
  let ev := Timeline.claimToEvent P cptDb c in
  let run := Timeline.runTimelineDetective P claims cptDb in
  let today := DateISO.isoDatePart (dateNow P) in
  let usedDate := if JS.hasText (date c) then date c else today in
  let usedTime := if JS.hasText (time c) then time c else "12:00" in
  length (Timeline.events run) = length claims
  /\ In ev (Timeline.events run)
  /\ Timeline.ev_claim_id ev = claim_id c
  /\ (JS.hasText (date c) = false ->
      forall t, dateParse P (today ++ "T" ++ usedTime ++ ":00") = Some t ->
                Timeline.start_time ev = t)
  /\ (JS.hasText (time c) = false ->
      forall t, dateParse P (usedDate ++ "T" ++ "12:00" ++ ":00") = Some t ->
                Timeline.start_time ev = t)
  /\ (dateParse P (usedDate ++ "T" ++ usedTime ++ ":00") = None ->
      Timeline.start_time ev = dateNow P).
Proof.
  intros Hin ev run today usedDate usedTime.
  assert (Hstart : Timeline.start_time ev
                   = match dateParse P (usedDate ++ "T" ++ usedTime ++ ":00") with
                     | Some d => d
                     | None => dateNow P
                     end) by reflexivity.
  split; [apply length_map|].
  split; [apply in_map; exact Hin|].
  split; [reflexivity|].
  split; [|split].
  - intros Hd t Ht. rewrite Hstart. subst usedDate. rewrite Hd. now rewrite Ht.
  - intros Htm t Ht. rewrite Hstart. subst usedTime. rewrite Htm. now rewrite Ht.
  - intros Hnone. rewrite Hstart. now rewrite Hnone.
Qed.

(** A claim that arrives with no date and a blank time on a platform whose
    clock reads 2026-11-02: its event starts on 2026-11-02 at 12:00. *)
Lemma C9_missing_date_time_defaults_witness :
  let c := Sample.undated in
  let ev := Timeline.claimToEvent SamplePlatform.platform Sample.cptDb c in
  In ev (Timeline.events
           (Timeline.runTimelineDetective SamplePlatform.platform
              [Sample.deniedMri; c] Sample.cptDb))
  /\ SamplePlatform.parse "2026-11-02T12:00:00" = Some (Timeline.start_time ev).
Proof.
  intros c ev.
  destruct (C9_missing_date_time_defaults SamplePlatform.platform Sample.cptDb
              [Sample.deniedMri; c] c)
    as (_ & Hin & _ & Hdate & _ & _).
  - right. left. reflexivity.
  - split; [exact Hin|].
    assert (Hstart : Timeline.start_time ev = 1793620800000%Z).
    { apply Hdate; [reflexivity | vm_compute; reflexivity]. }
    rewrite Hstart. vm_compute. reflexivity.
Defined.

(* ================================================================== *)
(** * Severity cross-check on claims with clinical notes *)
(* ================================================================== *)

(** C3. For a claim with non-empty clinical notes and a known procedure
    code, the cross-checker records a mismatch exactly when (a) the service
    has no evidence in the notes and its billed severity is at least 2, or
    (b) the billed severity minus the note severity is at least 3, or (c)
    that gap is at least 2 while the evidence is absent.  The mismatch sits
    in the result between those of the claims before and after; without
    evidence its note severity is min(matched level, 1), with evidence it
    is the matched level, and its gap is counted from that severity. *)
Theorem C3_severity_mismatch_flagging
  (cptDb : CPTDatabase) (before after : list ClaimItem) (claim : ClaimItem)
  (cptInfo : CPTCode) :
  JS.hasText (recorded_clinical_notes claim) = true ->
  codes cptDb !! cpt_code claim = Some cptInfo ->
  let claims := before ++ claim :: after in
  let audit :=
    CrossModal.auditClaim claims cptDb (CrossModal.inferClinicalPicture claims cptDb)
      (existsb (fun c => JS.hasText (recorded_clinical_notes c)) claims) in
  let billed := severity cptInfo in
  let matched :=
    CrossModal.level
      (CrossModal.extractNoteSeverity (recorded_clinical_notes claim)
                                      (severity_keywords cptDb)) in
  let hasEvidence :=
    CrossModal.checkServiceEvidence (cpt_code claim) (cpt_description claim)
                                    (recorded_clinical_notes claim) in
  let gap := (billed - matched)%js in
  let flagged :=
    (hasEvidence = false /\ JS.geb billed (JS.ofZ 2) = true)
    \/ JS.geb gap (JS.ofZ 3) = true
    \/ (JS.geb gap (JS.ofZ 2) = true /\ hasEvidence = false) in
  CrossModal.mismatches (CrossModal.runCrossModalAudit claims cptDb)
  = forEachPush audit before ++ audit claim ++ forEachPush audit after
  /\ (flagged ->
      exists m,
        audit claim = [m]
        /\ CrossModal.sm_claim_id m = claim_id claim
        /\ CrossModal.billed_severity m = billed
        /\ CrossModal.note_severity m
           = (if hasEvidence then matched else JS.min matched (JS.ofZ 1))
        /\ CrossModal.severity_gap m = (billed - CrossModal.note_severity m)%js)
  /\ (~ flagged -> audit claim = []).
Proof.
  intros Hnotes Hcode claims audit billed matched hasEvidence gap flagged.
  split.
  { unfold CrossModal.runCrossModalAudit. cbn [CrossModal.mismatches].
    change (forEachPush audit (before ++ claim :: after)
            = forEachPush audit before ++ audit claim ++ forEachPush audit after).
    now rewrite forEachPush_app, forEachPush_cons. }
  assert (Hbody : audit claim
                  = if CrossModal.shouldFlag hasEvidence billed gap
                    then audit claim else []).
  { unfold audit, CrossModal.auditClaim. rewrite Hcode, Hnotes.
    fold billed. fold matched. fold hasEvidence. fold gap.
    now destruct (CrossModal.shouldFlag hasEvidence billed gap). }
  assert (Hflag : CrossModal.shouldFlag hasEvidence billed gap = true <-> flagged).
  { unfold CrossModal.shouldFlag, flagged.
    rewrite !orb_true_iff, !andb_true_iff, !negb_true_iff. tauto. }
  split.
  - intros Hf. apply Hflag in Hf.
    unfold audit, CrossModal.auditClaim. rewrite Hcode, Hnotes.
    fold billed. fold matched. fold hasEvidence. fold gap. rewrite Hf.
    eexists. split; [reflexivity|]. cbn. repeat split; reflexivity.
  - intros Hnf. rewrite Hbody.
    destruct (CrossModal.shouldFlag hasEvidence billed gap) eqn:E; [|reflexivity].
    exfalso. apply Hnf, Hflag. reflexivity.
Qed.

(** The example of the specification: code 99285 (severity 5) with notes
    that read stable, mild discomfort, discharged.  The service has no
    evidence, so the claim is flagged with note severity min(2, 1) = 1 and
    gap 4. *)
Lemma C3_severity_mismatch_flagging_witness :
  exists m,
    CrossModal.mismatches (CrossModal.runCrossModalAudit [Sample.upcodedVisit] Sample.cptDb)
    = [m]
    /\ CrossModal.sm_claim_id m = "CLM-1"
    /\ CrossModal.billed_severity m = JS.ofZ 5
    /\ CrossModal.note_severity m = JS.ofZ 1
    /\ JS.eqb (CrossModal.severity_gap m) (JS.ofZ 4) = true.
Proof.
  destruct (C3_severity_mismatch_flagging Sample.cptDb [] [] Sample.upcodedVisit
              (Sample.mkCode "Emergency department visit, high severity" 5 12000 "E&M")
              eq_refl eq_refl)
    as (Hrun & Hflagged & _).
  destruct Hflagged as (m & Hm & Hid & Hbilled & Hnote & Hgap).
  { left. split; reflexivity. }
  cbn [app] in Hrun, Hm.
  exists m. rewrite Hrun, Hm. split; [reflexivity|].
  split; [exact Hid|]. split; [exact Hbilled|].
  split; [rewrite Hnote; reflexivity|].
  rewrite Hgap, Hnote. vm_compute. reflexivity.
Defined.

(* ================================================================== *)
(** * Ghost services: explicit denial in the notes *)
(* ================================================================== *)

(** C4, as the code has it.  For a claim with non-empty clinical notes
    that contain an explicit denial phrase: when the procedure description
    falls in at least one semantic group the similarity ratio is 0 whatever
    keywords match, the claim is flagged as a ghost service (0 < 0.15) and
    its explanation is the phantom-billing one; when the description falls
    in no semantic group the ratio is 0.5 and the claim is not flagged. *)
Theorem C4_denial_forces_ghost
  (cptDb : CPTDatabase) (before after : list ClaimItem) (claim : ClaimItem) :
  JS.hasText (recorded_clinical_notes claim) = true ->
  GhostUnbundle.hasDenial (JS.toLowerCase (recorded_clinical_notes claim)) = true ->
  let score :=
    GhostUnbundle.calculateSimilarity (cpt_description claim)
                                      (recorded_clinical_notes claim) in
  let ghosts :=
    GhostUnbundle.ghost_services
      (GhostUnbundle.runGhostUnbundleHunter (before ++ claim :: after) cptDb) in
  (GhostUnbundle.getRelevantGroups (cpt_description claim) <> [] ->
   score = Num 0
   /\ JS.ltb score GhostUnbundle.THRESHOLD = true
   /\ In {| GhostUnbundle.gs_claim_id := claim_id claim;
            GhostUnbundle.gs_cpt_code := cpt_code claim;
            GhostUnbundle.gs_cpt_description := cpt_description claim;
            GhostUnbundle.gs_billed_amount := billed_amount_inr claim;
            GhostUnbundle.similarity_score := Num 0;
            GhostUnbundle.gs_explanation := GhostUnbundle.PhantomBilling |}
         ghosts)
  /\ (GhostUnbundle.getRelevantGroups (cpt_description claim) = [] ->
      score = Num 0.5
      /\ forall bodyAreas dominantArea i,
           GhostUnbundle.checkGhost cptDb bodyAreas dominantArea i claim = []).
Proof.
  intros Hnotes Hdenial score ghosts. split.
  - intros Hgroups.
    assert (Hscore : score = Num 0) by (now apply calculateSimilarity_denial).
    split; [exact Hscore|]. split; [rewrite Hscore; apply threshold_above_zero|].
    unfold ghosts, GhostUnbundle.runGhostUnbundleHunter.
    cbn [GhostUnbundle.ghost_services].
    apply checkGhost_in_detect. intros bodyAreas dominantArea i.
    rewrite checkGhost_with_notes by exact Hnotes.
    fold score. rewrite Hscore, threshold_above_zero. left. reflexivity.
  - intros Hgroups.
    assert (Hscore : score = Num 0.5) by (now apply calculateSimilarity_no_group).
    split; [exact Hscore|]. intros bodyAreas dominantArea i.
    rewrite checkGhost_with_notes by exact Hnotes.
    fold score. rewrite Hscore, threshold_below_half. reflexivity.
Qed.

(** The brain MRI whose notes read No record found: ratio 0, flagged, with
    the phantom-billing explanation. *)
Lemma C4_denial_forces_ghost_witness :
  GhostUnbundle.calculateSimilarity (cpt_description Sample.deniedMri)
                                    (recorded_clinical_notes Sample.deniedMri) = Num 0
  /\ map GhostUnbundle.gs_explanation
         (GhostUnbundle.ghost_services
            (GhostUnbundle.runGhostUnbundleHunter [Sample.deniedMri] Sample.cptDb))
     = [GhostUnbundle.PhantomBilling].
Proof.
  destruct (C4_denial_forces_ghost Sample.cptDb [] [] Sample.deniedMri eq_refl eq_refl)
    as [Hgroups _].
  destruct Hgroups as (Hscore & _ & _).
  - vm_compute. discriminate.
  - split; [exact Hscore | reflexivity].
Defined.

(** C4 as stated fails: a joint injection falls in no semantic group, and
    although its notes read No record found its ratio is 0.5, not 0, and
    the claim is not flagged. *)
Lemma C4_counterexample_no_semantic_group :
  JS.hasText (recorded_clinical_notes Sample.deniedInjection) = true
  /\ JS.includes (JS.toLowerCase (recorded_clinical_notes Sample.deniedInjection))
                 "no record found" = true
  /\ GhostUnbundle.getRelevantGroups (cpt_description Sample.deniedInjection) = []
  /\ GhostUnbundle.calculateSimilarity (cpt_description Sample.deniedInjection)
                                       (recorded_clinical_notes Sample.deniedInjection)
     = Num 0.5
  /\ GhostUnbundle.ghost_services
       (GhostUnbundle.runGhostUnbundleHunter [Sample.deniedInjection] Sample.cptDb)
     = [].
Proof. vm_compute. repeat split; reflexivity. Qed.

(* ================================================================== *)
(** * Unbundling alerts *)
(* ================================================================== *)

Lemma detectUnbundling_split (claims : list ClaimItem) (cptDb : CPTDatabase)
  (earlier later : list NCCIBundle) (rule : NCCIBundle) :
  ncci_bundles cptDb = earlier ++ rule :: later ->
  GhostUnbundle.detectUnbundling claims cptDb
  = GhostUnbundle.detectUnbundling claims (Spec.withBundles cptDb earlier)
    ++ GhostUnbundle.checkBundle claims cptDb (list_to_set (map cpt_code claims)) rule
    ++ GhostUnbundle.detectUnbundling claims (Spec.withBundles cptDb later).
Proof.
  intros Hrules. unfold GhostUnbundle.detectUnbundling.
  rewrite Hrules, forEachPush_app, forEachPush_cons. reflexivity.
Qed.

Lemma filter_ext_bool {A : Type} (p q : A -> bool) (xs : list A) :
  (forall x, p x = q x) -> List.filter p xs = List.filter q xs.
Proof.
  intros H. induction xs as [|x xs IH]; simpl; [reflexivity|].
  now rewrite H, IH.
Qed.

(** C5, as the code has it.  For a bundling rule whose primary code and at
    least one bundled code are billed in the batch, exactly one alert is
    emitted, between the alerts of the earlier and of the later rules.  It
    covers the primary code and every bundled code that is billed, its
    total is the sum of the billed amounts of the claims with those codes,
    its correct cost is the average cost of the replacement code when the
    reference database lists that code with a cost that is a number other
    than 0, and 60% of the total otherwise, and its savings are the total
    minus the correct cost. *)
Theorem C5_unbundling_alert
  (claims : list ClaimItem) (cptDb : CPTDatabase)
  (earlier later : list NCCIBundle) (rule : NCCIBundle) :
  ncci_bundles cptDb = earlier ++ rule :: later ->
  Spec.billed claims (primary_code rule) = true ->
  (exists code, In code (bundled_codes rule) /\ Spec.billed claims code = true) ->
  let present := List.filter (Spec.billed claims) (bundled_codes rule) in
  let involved :=
    List.filter (fun c => JS.arrayIncludes (primary_code rule :: present) (cpt_code c))
                claims in
  let total := JS.sumBy billed_amount_inr involved in
  let cost :=
    match codes cptDb !! correct_single_code rule with
    | Some info =>
        if JS.truthy (avg_cost_inr info) then avg_cost_inr info
        else (total * JS.lit 0.6)%js
    | None => (total * JS.lit 0.6)%js
    end in
  exists alert,
    GhostUnbundle.detectUnbundling claims cptDb
    = GhostUnbundle.detectUnbundling claims (Spec.withBundles cptDb earlier)
      ++ [alert]
      ++ GhostUnbundle.detectUnbundling claims (Spec.withBundles cptDb later)
    /\ GhostUnbundle.involved_codes alert = primary_code rule :: present
    /\ GhostUnbundle.involved_claims alert = map claim_id involved
    /\ GhostUnbundle.total_billed alert = total
    /\ GhostUnbundle.correct_code alert = correct_single_code rule
    /\ GhostUnbundle.correct_cost alert = cost
    /\ GhostUnbundle.potential_savings alert = (total - cost)%js.
Proof.
  intros Hrules Hprimary [code [Hin Hcode]] present involved total cost.
  rewrite (detectUnbundling_split claims cptDb earlier later rule Hrules).
  unfold GhostUnbundle.checkBundle.
  rewrite billedCodes_spec, Hprimary.
  rewrite (filter_ext_bool _ (Spec.billed claims) (bundled_codes rule))
    by (intros x; apply billedCodes_spec).
  fold present.
  assert (Hpresent : (0 <? length present)%nat = true).
  { apply Nat.ltb_lt. unfold present.
    assert (Hc : In code (List.filter (Spec.billed claims) (bundled_codes rule)))
      by (apply filter_In; split; assumption).
    destruct (List.filter (Spec.billed claims) (bundled_codes rule));
      [destruct Hc | simpl; lia]. }
  rewrite Hpresent. simpl andb. cbv iota. fold involved. fold total.
  eexists. split; [reflexivity|]. cbn.
  repeat split; try reflexivity;
    unfold cost; destruct (codes cptDb !! correct_single_code rule); reflexivity.
Qed.

(** The example of the specification: the rule with primary 23650 and
    bundled 29240, on a batch that bills both codes, for 10000 and 5000. *)
Lemma C5_unbundling_alert_witness :
  exists alert,
    GhostUnbundle.unbundling_alerts
      (GhostUnbundle.runGhostUnbundleHunter Sample.unbundled Sample.cptDb)
    = [alert]
    /\ GhostUnbundle.involved_codes alert = ["23650"; "29240"]
    /\ GhostUnbundle.involved_claims alert = ["CLM-1"; "CLM-2"]
    /\ JS.eqb (GhostUnbundle.total_billed alert) (JS.ofZ 15000) = true
    /\ GhostUnbundle.correct_cost alert = JS.ofZ 9000
    /\ JS.eqb (GhostUnbundle.potential_savings alert) (JS.ofZ 6000) = true.
Proof.
  destruct (C5_unbundling_alert Sample.unbundled Sample.cptDb [] []
              Sample.shoulderBundle eq_refl eq_refl)
    as (alert & Hrun & Hcodes & Hclaims & Htotal & _ & Hcost & Hsavings).
  - exists "29240". split; [now left | reflexivity].
  - exists alert.
    split; [exact Hrun|]. split; [exact Hcodes|]. split; [exact Hclaims|].
    split; [now rewrite Htotal|]. split; [exact Hcost|].
    now rewrite Hsavings.
Defined.

(** C5 as stated fails on the correct cost: when the reference database
    lists the replacement code with an average cost of 0, the alert does
    not take that cost but 60% of the total billed (9000 of 15000), and the
    savings are 6000, not the total. *)
Lemma C5_counterexample_zero_cost_replacement :
  exists alert info,
    GhostUnbundle.detectUnbundling Sample.unbundled Sample.zeroCostDb = [alert]
    /\ codes Sample.zeroCostDb !! GhostUnbundle.correct_code alert = Some info
    /\ avg_cost_inr info = JS.ofZ 0
    /\ JS.eqb (GhostUnbundle.total_billed alert) (JS.ofZ 15000) = true
    /\ JS.eqb (GhostUnbundle.correct_cost alert) (JS.ofZ 9000) = true
    /\ JS.eqb (GhostUnbundle.correct_cost alert) (avg_cost_inr info) = false
    /\ JS.eqb (GhostUnbundle.potential_savings alert) (JS.ofZ 6000) = true.
Proof.
  eexists. eexists. split; [vm_compute; reflexivity|].
  split; [vm_compute; reflexivity|].
  vm_compute. repeat split; reflexivity.
Qed.

(* ================================================================== *)
(** * Further properties of the engines *)
(* ================================================================== *)

(** A property kept by every iteration of a loop holds after the loop. *)
Lemma fold_left_preserves {A B : Type} (I : A -> Prop) (f : A -> B -> A)
  (xs : list B) (a : A) :
  I a -> (forall a x, In x xs -> I a -> I (f a x)) -> I (fold_left f xs a).
Proof.
  revert a. induction xs as [|x xs IH]; intros a Ha Hstep; simpl; [exact Ha|].
  apply IH.
  - apply Hstep; [now left | exact Ha].
  - intros a' x' Hin. apply Hstep. now right.
Qed.

(** ** Severity read from clinical notes *)

Lemma gtb_ofZ (a b : Z) : JS.gtb (JS.ofZ a) (JS.ofZ b) = (b <? a)%Z.
Proof.
  unfold JS.gtb, JS.ofZ. rewrite ltb_num, Qle_bool_inject.
  destruct (a <=? b)%Z eqn:E; simpl; symmetry.
  - apply Z.ltb_ge. now apply Z.leb_le.
  - apply Z.ltb_lt. now apply Z.leb_gt.
Qed.

(** The severity read from the notes is an integer from 0 to 5; it is 0
    exactly when the notes carry one of the two no-record markers, and the
    keywords are then replaced by the single marker NO RECORD FOUND. *)
Theorem extractNoteSeverity_level_range
  (notes : string) (severityKeywords : gmap string (list string)) :
  let r := CrossModal.extractNoteSeverity notes severityKeywords in
  let denied :=
    JS.includes (JS.toLowerCase notes) "no record found"
    || JS.includes (JS.toLowerCase notes) "no clinical notes available" in
  exists n,
    CrossModal.level r = JS.ofZ n
    /\ (0 <= n <= 5)%Z
    /\ (n = 0%Z <-> denied = true)
    /\ (denied = true -> CrossModal.keywords r = ["NO RECORD FOUND"]).
Proof.
  intros r denied. subst r. unfold CrossModal.extractNoteSeverity.
  fold denied.
  set (loop := fold_left _ CrossModal.scanLevels _).
  assert (Hinv : exists n, snd loop = JS.ofZ n /\ (1 <= n <= 5)%Z).
  { unfold loop.
    apply (fold_left_preserves
             (fun st : list string * number =>
                exists n, snd st = JS.ofZ n /\ (1 <= n <= 5)%Z)).
    - exists 1%Z. split; [reflexivity | lia].
    - intros st lk Hlk Hst.
      assert (Hk : exists k, fst lk = JS.ofZ k /\ (1 <= k <= 5)%Z).
      { unfold CrossModal.scanLevels in Hlk. simpl in Hlk.
        destruct Hlk as [<-|[<-|[<-|[<-|[<-|[]]]]]]; simpl;
          eexists; (split; [reflexivity | lia]). }
      destruct Hk as [k [Hk Hkr]].
      apply fold_left_preserves; [exact Hst|].
      intros [found maxLevel] kw _ [n [Hn Hnr]]. simpl in Hn. subst maxLevel.
      destruct (JS.includes (JS.toLowerCase notes) (JS.toLowerCase kw));
        [|exists n; split; [reflexivity | exact Hnr]].
      rewrite Hk, gtb_ofZ. simpl.
      destruct (n <? k)%Z; eexists; (split; [reflexivity | lia]). }
  destruct loop as [foundKeywords maxLevel]. simpl in Hinv.
  destruct Hinv as [n [-> Hn]].
  destruct denied.
  - exists 0%Z. simpl. repeat split; try lia; reflexivity.
  - match goal with
    | |- context [if ?c then JS.ofZ 2 else JS.ofZ n] => destruct c
    end; simpl.
    + exists 2%Z. repeat split; try lia; try discriminate.
    + exists n. repeat split; try lia; try discriminate.
Qed.

Lemma scan_keywords_found (lowerNotes : string)
  (severityKeywords : gmap string (list string))
  (levels : list (number * string)) (st : list string * number) :
  fst (fold_left
         (fun st lk =>
            fold_left
              (fun '(found, maxLevel) kw =>
                 if JS.includes lowerNotes (JS.toLowerCase kw)
                 then (found ++ [kw],
                       if (fst lk >? maxLevel)%js then fst lk else maxLevel)
                 else (found, maxLevel))
              (CrossModal.keywordsAt severityKeywords (snd lk)) st)
         levels st)
  = fst st
    ++ flat_map
         (fun lk =>
            List.filter (fun kw => JS.includes lowerNotes (JS.toLowerCase kw))
                        (CrossModal.keywordsAt severityKeywords (snd lk)))
         levels.
Proof.
  revert st. induction levels as [|lk levels IH]; intros st; simpl.
  - now rewrite app_nil_r.
  - rewrite IH, app_assoc. f_equal.
    generalize (CrossModal.keywordsAt severityKeywords (snd lk)) as kws.
    clear IH. intros kws. revert st.
    induction kws as [|kw kws IHk]; intros [found maxLevel]; simpl.
    + now rewrite app_nil_r.
    + destruct (JS.includes lowerNotes (JS.toLowerCase kw)); rewrite IHk; simpl;
        [now rewrite <- app_assoc | reflexivity].
Qed.

(** Without a no-record marker, the keywords reported for the notes are
    exactly the lexicon keywords that occur in the lower-cased notes,
    listed from level 5 down to level 1 in the order of the lexicon. *)
Theorem extractNoteSeverity_keywords
  (notes : string) (severityKeywords : gmap string (list string)) :
  JS.includes (JS.toLowerCase notes) "no record found" = false ->
  JS.includes (JS.toLowerCase notes) "no clinical notes available" = false ->
  CrossModal.keywords (CrossModal.extractNoteSeverity notes severityKeywords)
  = flat_map
      (fun key =>
         List.filter (fun kw => JS.includes (JS.toLowerCase notes) (JS.toLowerCase kw))
                     (CrossModal.keywordsAt severityKeywords key))
      ["5"; "4"; "3"; "2"; "1"].
Proof.
  intros H1 H2. unfold CrossModal.extractNoteSeverity. rewrite H1, H2.
  pose proof (scan_keywords_found (JS.toLowerCase notes) severityKeywords
                CrossModal.scanLevels ([], JS.ofZ 1)) as Hfound.
  destruct (fold_left _ CrossModal.scanLevels _) as [foundKeywords maxLevel].
  simpl in Hfound. simpl. rewrite Hfound. now rewrite !app_nil_r.
Qed.

(** Notes that mention an unstable patient with mild pain: the level 5
    keyword comes first; "stable" is found inside "unstable". *)
Lemma extractNoteSeverity_keywords_witness :
  CrossModal.keywords
    (CrossModal.extractNoteSeverity "Patient UNSTABLE on arrival, mild pain"
                                    Sample.severityKeywords)
  = ["unstable"; "stable"; "mild"].
Proof.
  rewrite extractNoteSeverity_keywords; reflexivity.
Defined.

(** ** Evidence for a billed service *)

Local Open Scope string_scope.









Local Open Scope list_scope.

(** ** Severity cross-check on claims without clinical notes *)

(** For a claim without clinical text and with a known code, a mismatch is
    recorded exactly when the code is an E&M code, its severity is not at
    most 2, and it exceeds by 2 or more the ceiling min(maximal supported
    severity + 1, 5) inferred from the batch; the mismatch carries that
    ceiling as note severity and no department. *)
Theorem auditClaim_without_notes
  (cptDb : CPTDatabase) (before after : list ClaimItem) (claim : ClaimItem)
  (cptInfo : CPTCode) :
  JS.hasText (recorded_clinical_notes claim) = false ->
  codes cptDb !! cpt_code claim = Some cptInfo ->
  let claims := before ++ claim :: after in
  let picture := CrossModal.inferClinicalPicture claims cptDb in
  let audit :=
    CrossModal.auditClaim claims cptDb picture
      (existsb (fun c => JS.hasText (recorded_clinical_notes c)) claims) in
  let billed := severity cptInfo in
  let ceiling :=
    JS.min (CrossModal.maxSupportedSeverity picture + JS.ofZ 1)%js (JS.ofZ 5) in
  let flagged :=
    category cptInfo = "E&M"
    /\ JS.leb billed (JS.ofZ 2) = false
    /\ JS.geb (billed - ceiling)%js (JS.ofZ 2) = true in
  (flagged ->
   exists m,
     audit claim = [m]
     /\ CrossModal.sm_claim_id m = claim_id claim
     /\ CrossModal.billed_severity m = billed
     /\ CrossModal.note_severity m = ceiling
     /\ CrossModal.severity_gap m = (billed - ceiling)%js
     /\ CrossModal.sm_department m = None)
  /\ (~ flagged -> audit claim = []).
Proof.
  intros Hnotes Hcode claims picture audit billed ceiling flagged.
  unfold audit, CrossModal.auditClaim. rewrite Hcode, Hnotes.
  fold billed. fold ceiling. split.
  - intros (Hcat & Hlow & Hgap).
    rewrite Hcat, Hlow, Hgap. cbn [String.eqb Ascii.eqb Bool.eqb negb].
    eexists. split; [reflexivity|]. cbn. repeat split; reflexivity.
  - intros Hnot. unfold flagged in Hnot. clear flagged.
    destruct (String.eqb (category cptInfo) "E&M") eqn:Ecat; [|reflexivity].
    apply String.eqb_eq in Ecat. cbn [negb].
    destruct (JS.leb billed (JS.ofZ 2)) eqn:Elow; [reflexivity|].
    destruct (JS.geb (billed - ceiling)%js (JS.ofZ 2)) eqn:Egap; [|reflexivity].
    exfalso. apply Hnot. repeat split; solve [assumption | reflexivity].
Qed.

(** An emergency visit of severity 5 billed without notes next to an ankle
    X-ray of severity 1: the ceiling is 2 and the visit is flagged. *)
Lemma auditClaim_without_notes_witness :
  let visit :=
    Sample.mkClaim "CLM-2" "2026-03-01" "11:00" "Emergency" "99285"
      "Emergency department visit, high severity" 12000 EmptyString None None in
  let xray := Sample.xray "Radiology" None None in
  exists m,
    CrossModal.mismatches (CrossModal.runCrossModalAudit [xray; visit] Sample.cptDb)
    = [m]
    /\ CrossModal.sm_claim_id m = "CLM-2"
    /\ CrossModal.note_severity m = JS.ofZ 2.
Proof.
  intros visit xray.
  destruct (auditClaim_without_notes Sample.cptDb [xray] [] visit
              (Sample.mkCode "Emergency department visit, high severity" 5 12000 "E&M")
              eq_refl eq_refl) as [Hflag _].
  destruct Hflag as (m & Hm & Hid & _ & Hnote & _).
  { repeat split; reflexivity. }
  exists m. split; [|split; [exact Hid | rewrite Hnote; reflexivity]].
  cbn [app] in Hm.
  unfold CrossModal.runCrossModalAudit. cbn [CrossModal.mismatches].
  rewrite forEachPush_cons, forEachPush_cons, Hm. reflexivity.
Defined.

(** ** Where findings come from *)

Ltac destruct_conditions_in H :=
  repeat match type of H with
         | context [if ?c then _ else _] => destruct c
         end.

Lemma auditClaim_shape (claims : list ClaimItem) (cptDb : CPTDatabase)
  (picture : CrossModal.ClinicalPicture) (hasAnyNotes : bool) (c : ClaimItem)
  (m : CrossModal.SeverityMismatch) :
  In m (CrossModal.auditClaim claims cptDb picture hasAnyNotes c) ->
  exists info,
    codes cptDb !! cpt_code c = Some info
    /\ CrossModal.sm_claim_id m = claim_id c
    /\ CrossModal.sm_cpt_code m = cpt_code c
    /\ CrossModal.billed_severity m = severity info
    /\ CrossModal.sm_billed_amount m = billed_amount_inr c
    /\ CrossModal.severity_gap m
       = (CrossModal.billed_severity m - CrossModal.note_severity m)%js.
Proof.
  unfold CrossModal.auditClaim. intros H.
  destruct (codes cptDb !! cpt_code c) as [info|]; [|destruct H].
  exists info. split; [reflexivity|].
  destruct (JS.hasText (recorded_clinical_notes c)).
  - destruct (CrossModal.shouldFlag _ _ _); [|destruct H].
    destruct H as [<-|[]]. cbn. repeat split; reflexivity.
  - destruct (negb _); [destruct H|].
    destruct (JS.leb _ _); [destruct H|].
    destruct (JS.geb _ _); [|destruct H].
    destruct H as [<-|[]]. cbn. repeat split; reflexivity.
Qed.

(** Every severity mismatch of a run belongs to a claim of the batch whose
    code the reference database knows: it carries that claim's id, code and
    billed amount, the severity the database gives the code, and a gap
    equal to that severity minus the recorded note severity. *)
Theorem mismatches_come_from_known_claims
  (claims : list ClaimItem) (cptDb : CPTDatabase) (m : CrossModal.SeverityMismatch) :
  In m (CrossModal.mismatches (CrossModal.runCrossModalAudit claims cptDb)) ->
  exists c info,
    In c claims
    /\ codes cptDb !! cpt_code c = Some info
    /\ CrossModal.sm_claim_id m = claim_id c
    /\ CrossModal.sm_cpt_code m = cpt_code c
    /\ CrossModal.billed_severity m = severity info
    /\ CrossModal.sm_billed_amount m = billed_amount_inr c
    /\ CrossModal.severity_gap m
       = (CrossModal.billed_severity m - CrossModal.note_severity m)%js.
Proof.
  unfold CrossModal.runCrossModalAudit. cbn [CrossModal.mismatches].
  rewrite forEachPush_flat_map. intros H.
  apply in_flat_map in H as [c [Hc Hm]].
  destruct (auditClaim_shape _ _ _ _ _ _ Hm) as [info Hinfo].
  exists c, info. split; [exact Hc | exact Hinfo].
Qed.

Lemma mismatches_come_from_known_claims_witness :
  let found :=
    CrossModal.mismatches
      (CrossModal.runCrossModalAudit [Sample.upcodedVisit] Sample.cptDb) in
  length found = 1%nat
  /\ Forall (fun m => exists c, In c [Sample.upcodedVisit]
                                /\ CrossModal.sm_claim_id m = claim_id c
                                /\ CrossModal.sm_billed_amount m = billed_amount_inr c)
            found.
Proof.
  intros found. split; [vm_compute; reflexivity|].
  apply List.Forall_forall. intros m Hin.
  destruct (mismatches_come_from_known_claims [Sample.upcodedVisit] Sample.cptDb m Hin)
    as (c & info & Hc & _ & Hid & _ & _ & Hamount & _).
  exists c. split; [exact Hc|]. split; assumption.
Defined.

(** ** Timeline events and overlaps *)

Lemma durationOf_range (category : string) :
  (10 <= Timeline.durationOf category <= 120)%Z.
Proof.
  unfold Timeline.durationOf, Timeline.DEFAULT_DURATIONS. cbn [find fst snd].
  repeat match goal with
         | |- context [if ?c then _ else _] => destruct c
         end; cbn [snd]; lia.
Qed.

(** Every timeline event of a run ends after it starts, and lasts between
    10 and 120 minutes, whatever the procedure code, its category or the
    date and time of the claim. *)
Theorem event_duration_bounds
  (P : Platform) (claims : list ClaimItem) (cptDb : CPTDatabase)
  (ev : Timeline.TimelineEvent) :
  In ev (Timeline.events (Timeline.runTimelineDetective P claims cptDb)) ->
  (Timeline.start_time ev + 600000 <= Timeline.end_time ev
   <= Timeline.start_time ev + 7200000)%Z.
Proof.
  cbn [Timeline.events Timeline.runTimelineDetective]. unfold Timeline.claimsToEvents.
  intros H. apply in_map_iff in H as [c [<- _]].
  unfold Timeline.claimToEvent. cbn [Timeline.start_time Timeline.end_time].
  match goal with
  | |- context [Timeline.durationOf ?cat] => pose proof (durationOf_range cat)
  end.
  lia.
Qed.

(** A claim with an unknown code and an unparseable date still gets its
    30 minutes. *)
Lemma event_duration_bounds_witness :
  let c := Sample.mkClaim "CLM-9" "yesterday" "noon" "Ward" "00000" "Unlisted" 10
             EmptyString None None in
  let ev := Timeline.claimToEvent SamplePlatform.platform Sample.cptDb c in
  (Timeline.start_time ev + 600000 <= Timeline.end_time ev
   <= Timeline.start_time ev + 7200000)%Z
  /\ (Timeline.end_time ev - Timeline.start_time ev = 30 * 60000)%Z.
Proof.
  intros c ev. split.
  - apply (event_duration_bounds SamplePlatform.platform [c] Sample.cptDb ev).
    now left.
  - reflexivity.
Defined.

(** Two events whose intervals share no instant (in particular two
    back-to-back procedures) produce no finding, in either order. *)
Theorem checkPair_disjoint (P : Platform) (a b : Timeline.TimelineEvent) :
  (Timeline.end_time a <= Timeline.start_time b
   \/ Timeline.end_time b <= Timeline.start_time a)%Z ->
  Timeline.checkPair P a b = [] /\ Timeline.checkPair P b a = [].
Proof.
  intros H.
  assert (Hab : ~ Spec.overlapping a b) by (unfold Spec.overlapping; lia).
  assert (Hba : ~ Spec.overlapping b a) by (unfold Spec.overlapping; lia).
  unfold Timeline.checkPair. split.
  - destruct (JS.gtb _ _) eqn:E; [|reflexivity].
    apply intervalsOverlap_positive in E. contradiction.
  - destruct (JS.gtb _ _) eqn:E; [|reflexivity].
    apply intervalsOverlap_positive in E. contradiction.
Qed.

(** The X-ray ends at 11:15; a session that starts at 11:15 in another
    city is not flagged. *)
Lemma checkPair_disjoint_witness :
  let a := Timeline.claimToEvent SamplePlatform.platform Sample.cptDb
             (Sample.xray "PrimeCare Clinic" (fst Sample.bengaluru) (snd Sample.bengaluru)) in
  let b := Timeline.claimToEvent SamplePlatform.platform Sample.cptDb
             (Sample.mkClaim "CLM-2" "2026-03-01" "11:15" "Elite Rehab" "97110"
                "Therapeutic exercise" 800 EmptyString
                (fst Sample.mysuru) (snd Sample.mysuru)) in
  Timeline.checkPair SamplePlatform.platform a b = [].
Proof.
  intros a b.
  destruct (checkPair_disjoint SamplePlatform.platform a b) as [H _]; [|exact H].
  left. vm_compute. discriminate.
Defined.

Lemma checkPair_shape (P : Platform) (a b : Timeline.TimelineEvent)
  (o : Timeline.TimelineOverlap) :
  In o (Timeline.checkPair P a b) ->
  Timeline.event_a o = a /\ Timeline.event_b o = b
  /\ Spec.overlapping a b
  /\ Timeline.overlap_minutes o
     = Timeline.intervalsOverlap (Timeline.start_time a) (Timeline.end_time a)
                                 (Timeline.start_time b) (Timeline.end_time b).
Proof.
  unfold Timeline.checkPair. intros H.
  destruct (JS.gtb _ _) eqn:E; [|destruct H].
  apply intervalsOverlap_positive in E.
  destruct_conditions_in H; destruct H as [<-|[]]; cbn; repeat split; assumption.
Qed.

Lemma overlap_minutes_bound (a b : Timeline.TimelineEvent) (limit : Z) :
  Spec.overlapping a b ->
  (Timeline.end_time a <= Timeline.start_time a + limit * 60000)%Z ->
  (limit <= 2 ^ 52)%Z ->
  let minutes :=
    Timeline.intervalsOverlap (Timeline.start_time a) (Timeline.end_time a)
                              (Timeline.start_time b) (Timeline.end_time b) in
  JS.gtb minutes (JS.ofZ 0) = true /\ JS.leb minutes (JS.ofZ limit) = true.
Proof.
  intros Hov Hlim Hbound minutes. split; [now apply intervalsOverlap_positive|].
  unfold minutes, Timeline.intervalsOverlap. unfold Spec.overlapping in Hov.
  set (s := Z.max _ _) in *. set (e := Z.min _ _) in *.
  destruct (0 <? e - s)%Z eqn:E; [|apply Z.ltb_ge in E; lia].
  assert (Hms : (e - s <= limit * 60000)%Z) by (unfold s, e; lia).
  apply div_ofZ_le; [reflexivity | exact Hms | lia].
Qed.

(** Every overlap of a run joins the events of two claims of the batch,
    the first standing before the second; their intervals do overlap, and
    the overlap recorded is more than 0 and at most 120 minutes. *)
Theorem overlaps_come_from_claim_pairs
  (P : Platform) (claims : list ClaimItem) (cptDb : CPTDatabase)
  (o : Timeline.TimelineOverlap) :
  In o (Timeline.overlaps (Timeline.runTimelineDetective P claims cptDb)) ->
  exists pre c1 mid c2 post,
    claims = pre ++ c1 :: mid ++ c2 :: post
    /\ Timeline.event_a o = Timeline.claimToEvent P cptDb c1
    /\ Timeline.event_b o = Timeline.claimToEvent P cptDb c2
    /\ Spec.overlapping (Timeline.event_a o) (Timeline.event_b o)
    /\ JS.gtb (Timeline.overlap_minutes o) (JS.ofZ 0) = true
    /\ JS.leb (Timeline.overlap_minutes o) (JS.ofZ 120) = true.
Proof.
  cbn [Timeline.overlaps Timeline.runTimelineDetective]. unfold Timeline.claimsToEvents.
  intros H.
  apply checkAllPairs_from_pair in H as (pre' & a & mid' & b & post' & Hsplit & Ho).
  apply map_eq_app in Hsplit as (pre & rest & -> & <- & Hrest).
  apply map_eq_cons in Hrest as (c1 & rest' & -> & <- & Hrest).
  apply map_eq_app in Hrest as (mid & rest & -> & <- & Hrest).
  apply map_eq_cons in Hrest as (c2 & post & -> & <- & <-).
  destruct (checkPair_shape _ _ _ _ Ho) as (Ha & Hb & Hov & Hmin).
  exists pre, c1, mid, c2, post. rewrite Ha, Hb, Hmin.
  split; [reflexivity|]. split; [reflexivity|]. split; [reflexivity|].
  split; [exact Hov|].
  apply overlap_minutes_bound; [exact Hov | | discriminate].
  unfold Timeline.claimToEvent. cbn [Timeline.start_time Timeline.end_time].
  match goal with
  | |- context [Timeline.durationOf ?cat] => pose proof (durationOf_range cat)
  end.
  lia.
Qed.

(** The X-ray of 10:30 and the session of 10:45 both end at 11:15: they
    overlap for 30 minutes. *)
Lemma overlaps_come_from_claim_pairs_witness :
  let c1 := Sample.xray "PrimeCare Clinic" (fst Sample.bengaluru) (snd Sample.bengaluru) in
  let c2 := Sample.physio "Elite Rehab" (fst Sample.mysuru) (snd Sample.mysuru) in
  let found :=
    Timeline.overlaps
      (Timeline.runTimelineDetective SamplePlatform.platform [c1; c2] Sample.cptDb) in
  map Timeline.overlap_minutes found = [JS.ofZ 30]
  /\ Forall (fun o => JS.gtb (Timeline.overlap_minutes o) (JS.ofZ 0) = true
                      /\ JS.leb (Timeline.overlap_minutes o) (JS.ofZ 120) = true)
            found.
Proof.
  intros c1 c2 found. split; [vm_compute; reflexivity|].
  apply List.Forall_forall. intros o Hin.
  destruct (overlaps_come_from_claim_pairs SamplePlatform.platform [c1; c2] Sample.cptDb
              o Hin)
    as (_ & _ & _ & _ & _ & _ & _ & _ & _ & Hgt & Hle).
  split; assumption.
Defined.

(** The sample teleportation: Bengaluru and Mysuru, two departments. *)
Lemma teleportation_only_beyond_5km_witness :
  let c1 := Sample.xray "PrimeCare Clinic" (fst Sample.bengaluru) (snd Sample.bengaluru) in
  let c2 := Sample.physio "Elite Rehab" (fst Sample.mysuru) (snd Sample.mysuru) in
  let found :=
    Timeline.overlaps
      (Timeline.runTimelineDetective SamplePlatform.platform [c1; c2] Sample.cptDb) in
  map Timeline.type found = [Timeline.TELEPORTATION]
  /\ Forall (fun o =>
               Timeline.type o = Timeline.TELEPORTATION ->
               Timeline.ev_department (Timeline.event_a o)
               <> Timeline.ev_department (Timeline.event_b o)
               /\ JS.gtb (Spec.distanceBetween SamplePlatform.platform
                            (Timeline.event_a o) (Timeline.event_b o)) (JS.ofZ 5) = true)
            found.
Proof.
  intros c1 c2 found. split; [vm_compute; reflexivity|].
  apply List.Forall_forall. intros o Hin Htype.
  destruct (teleportation_only_beyond_5km SamplePlatform.platform [c1; c2] Sample.cptDb
              o Hin Htype) as (Hdep & _ & _ & _ & _ & Hfar).
  split; assumption.
Defined.

(** ** Ghost services *)

Lemma keyword_counts_ordered (lowerNotes : string) (groups : list string) :
  let counts :=
    fold_left
      (fun st group =>
         fold_left
           (fun '(matchCount, totalKeywords) kw =>
              (if JS.includes lowerNotes kw then S matchCount else matchCount,
               S totalKeywords))
           (lookupList GhostUnbundle.SEMANTIC_GROUPS group) st)
      groups (0%nat, 0%nat) in
  (fst counts <= snd counts)%nat.
Proof.
  cbv zeta.
  apply (fold_left_preserves (fun st : nat * nat => (fst st <= snd st)%nat));
    [simpl; lia|].
  intros st group _ Hst.
  apply (fold_left_preserves (fun st : nat * nat => (fst st <= snd st)%nat));
    [exact Hst|].
  intros [m t] kw _ H. simpl in *. destruct (JS.includes lowerNotes kw); simpl; lia.
Qed.

Lemma ratio_in_unit_interval (m t : nat) :
  (m <= t)%nat -> (0 < t)%nat ->
  exists q, (JS.ofNat m / JS.ofNat t)%js = Num q /\ (0 <= q <= 1)%Q.
Proof.
  intros Hmt Ht. unfold JS.ofNat.
  destruct (between_is_finite (JS.ofZ (Z.of_nat m) / JS.ofZ (Z.of_nat t))%js 0 1)
    as (v & Hv & Hrange).
  - apply div_ofZ_ge; lia.
  - apply div_ofZ_le; lia.
  - exists v. split; [exact Hv | exact Hrange].
Qed.

(** The similarity score is always a number between 0 and 1, never NaN:
    the ratio is only formed over a positive keyword total. *)
Theorem calculateSimilarity_range (cptDescription notes : string) :
  exists q,
    GhostUnbundle.calculateSimilarity cptDescription notes = Num q /\ (0 <= q <= 1)%Q.
Proof.
  unfold GhostUnbundle.calculateSimilarity.
  destruct (length _ =? 0)%nat.
  { exists 0.5%Q. split; [reflexivity|]. split; discriminate. }
  pose proof (keyword_counts_ordered (JS.toLowerCase notes)
                (GhostUnbundle.getRelevantGroups cptDescription)) as Hinv.
  cbv zeta in Hinv.
  destruct (fold_left _ _ _) as [m t]. simpl in Hinv.
  destruct (GhostUnbundle.hasDenial _).
  { exists 0%Q. split; [reflexivity|]. split; discriminate. }
  destruct (0 <? t)%nat eqn:Et.
  - apply Nat.ltb_lt in Et. now apply ratio_in_unit_interval.
  - exists 0.5%Q. split; [reflexivity|]. split; discriminate.
Qed.







Lemma flat_map_map_ext {A B C : Type} (f g : A -> list B) (h : B -> C) (xs : list A) :
  (forall x, In x xs -> map h (f x) = map h (g x)) ->
  map h (flat_map f xs) = map h (flat_map g xs).
Proof.
  induction xs as [|x xs IH]; intros H; simpl; [reflexivity|].
  rewrite !map_app, (H x (or_introl eq_refl)), IH; [reflexivity|].
  intros y Hy. apply H. now right.
Qed.

(** When every claim of the batch carries notes, which claims are flagged
    as ghost services, and with which score, does not depend on the
    reference database: a code the database does not list is scored like
    any other. *)
Theorem ghosts_with_notes_ignore_database
  (claims : list ClaimItem) (cptDb cptDb' : CPTDatabase) :
  Forall (fun c => JS.hasText (recorded_clinical_notes c) = true) claims ->
  let flagged (db : CPTDatabase) :=
    map (fun g => (GhostUnbundle.gs_claim_id g, GhostUnbundle.similarity_score g))
        (GhostUnbundle.detectGhostServices claims db) in
  flagged cptDb = flagged cptDb'.
Proof.
  intros Hnotes flagged. unfold flagged, GhostUnbundle.detectGhostServices.
  rewrite !forEachPush_flat_map.
  apply flat_map_map_ext. intros [i c] Hic.
  apply in_combine_r in Hic.
  rewrite List.Forall_forall in Hnotes. specialize (Hnotes c Hic).
  rewrite !checkGhost_with_notes by exact Hnotes. cbv zeta.
  destruct (JS.ltb _ _); reflexivity.
Qed.

(** The denied MRI is flagged with score 0 whether or not the database
    knows its code. *)
Lemma ghosts_with_notes_ignore_database_witness :
  map (fun g => (GhostUnbundle.gs_claim_id g, GhostUnbundle.similarity_score g))
      (GhostUnbundle.detectGhostServices [Sample.deniedMri] Sample.cptDb)
  = map (fun g => (GhostUnbundle.gs_claim_id g, GhostUnbundle.similarity_score g))
        (GhostUnbundle.detectGhostServices [Sample.deniedMri]
           {| codes := ∅; ncci_bundles := [];
              severity_keywords := severity_keywords Sample.cptDb |})
  /\ GhostUnbundle.detectGhostServices [Sample.deniedMri] Sample.cptDb <> [].
Proof.
  split.
  - apply (ghosts_with_notes_ignore_database [Sample.deniedMri]).
    constructor; [reflexivity | constructor].
  - vm_compute. discriminate.
Defined.

(** ** Unbundling alerts *)

(** Every unbundling alert of a run stems from a bundling rule of the
    database whose primary code is billed in the batch together with at
    least one of its bundled codes; a batch that bills bundled codes
    without the primary code raises nothing for that rule.  The involved
    claims are claims of the batch billing one of the involved codes. *)
Theorem alerts_come_from_rules
  (claims : list ClaimItem) (cptDb : CPTDatabase) (a : GhostUnbundle.UnbundlingAlert) :
  In a (GhostUnbundle.unbundling_alerts
          (GhostUnbundle.runGhostUnbundleHunter claims cptDb)) ->
  exists rule,
    In rule (ncci_bundles cptDb)
    /\ Spec.billed claims (primary_code rule) = true
    /\ (exists code, In code (bundled_codes rule) /\ Spec.billed claims code = true)
    /\ GhostUnbundle.involved_codes a
       = primary_code rule :: List.filter (Spec.billed claims) (bundled_codes rule)
    /\ GhostUnbundle.correct_code a = correct_single_code rule
    /\ (forall id, In id (GhostUnbundle.involved_claims a) ->
          exists c, In c claims /\ claim_id c = id
                    /\ In (cpt_code c) (GhostUnbundle.involved_codes a)).
Proof.
  cbn [GhostUnbundle.unbundling_alerts GhostUnbundle.runGhostUnbundleHunter].
  unfold GhostUnbundle.detectUnbundling. rewrite forEachPush_flat_map.
  intros H. apply in_flat_map in H as [rule [Hrule Ha]].
  exists rule. split; [exact Hrule|].
  unfold GhostUnbundle.checkBundle in Ha.
  rewrite billedCodes_spec in Ha.
  rewrite (filter_ext_bool _ (Spec.billed claims) (bundled_codes rule)) in Ha
    by (intros x; apply billedCodes_spec).
  destruct (Spec.billed claims (primary_code rule)); [|destruct Ha].
  split; [reflexivity|].
  destruct (List.filter (Spec.billed claims) (bundled_codes rule))
    as [|code present] eqn:Epresent; [destruct Ha|].
  cbn [length Nat.ltb Nat.leb andb] in Ha. destruct Ha as [<-|[]].
  cbn [GhostUnbundle.involved_codes GhostUnbundle.correct_code
       GhostUnbundle.involved_claims].
  split.
  { exists code.
    assert (Hcode : In code (List.filter (Spec.billed claims) (bundled_codes rule)))
      by (rewrite Epresent; now left).
    apply filter_In in Hcode. exact Hcode. }
  split; [reflexivity|]. split; [reflexivity|].
  intros id Hid. apply in_map_iff in Hid as [c [Hc Hin]].
  apply filter_In in Hin as [Hin Hinc].
  exists c. split; [exact Hin|]. split; [exact Hc|].
  unfold JS.arrayIncludes in Hinc.
  apply existsb_exists in Hinc as [x [Hx Heq]].
  apply String.eqb_eq in Heq. now subst x.
Qed.

(** The shoulder treatment and its strapping billed separately. *)
Lemma alerts_come_from_rules_witness :
  let found :=
    GhostUnbundle.unbundling_alerts
      (GhostUnbundle.runGhostUnbundleHunter Sample.unbundled Sample.cptDb) in
  length found = 1%nat
  /\ Forall (fun a => exists rule,
                        In rule (ncci_bundles Sample.cptDb)
                        /\ Spec.billed Sample.unbundled (primary_code rule) = true
                        /\ GhostUnbundle.correct_code a = correct_single_code rule)
            found.
Proof.
  intros found. split; [vm_compute; reflexivity|].
  apply List.Forall_forall. intros a Hin.
  destruct (alerts_come_from_rules Sample.unbundled Sample.cptDb a Hin)
    as (rule & Hrule & Hprimary & _ & _ & Hcode & _).
  exists rule. split; [exact Hrule|]. split; assumption.
Defined.

(** ** How many findings a batch can have *)

Lemma length_flat_map_le {A B : Type} (f : A -> list B) (xs : list A) :
  (forall x, (length (f x) <= 1)%nat) ->
  (length (flat_map f xs) <= length xs)%nat.
Proof.
  intros H. induction xs as [|x xs IH]; simpl; [lia|].
  rewrite length_app. specialize (H x). lia.
Qed.

Ltac at_most_one :=
  repeat match goal with
         | |- context [if ?c then _ else _] => destruct c
         | |- context [match ?x with Some _ => _ | None => _ end] => destruct x
         end;
  simpl; lia.

Lemma auditClaim_at_most_one (claims : list ClaimItem) (cptDb : CPTDatabase)
  (picture : CrossModal.ClinicalPicture) (hasAnyNotes : bool) (c : ClaimItem) :
  (length (CrossModal.auditClaim claims cptDb picture hasAnyNotes c) <= 1)%nat.
Proof.
  unfold CrossModal.auditClaim.
  destruct (codes cptDb !! cpt_code c); [|simpl; lia].
  destruct (JS.hasText _).
  - destruct (CrossModal.shouldFlag _ _ _); simpl; lia.
  - destruct (negb _); [simpl; lia|].
    destruct (JS.leb _ _); [simpl; lia|].
    destruct (JS.geb _ _); simpl; lia.
Qed.

Lemma checkPair_at_most_one (P : Platform) (a b : Timeline.TimelineEvent) :
  (length (Timeline.checkPair P a b) <= 1)%nat.
Proof. unfold Timeline.checkPair. at_most_one. Qed.

Lemma checkGhost_at_most_one (cptDb : CPTDatabase)
  (bodyAreas : list GhostUnbundle.BodyAreaEntry) (dominantArea : option string)
  (i : nat) (c : ClaimItem) :
  (length (GhostUnbundle.checkGhost cptDb bodyAreas dominantArea i c) <= 1)%nat.
Proof.
  unfold GhostUnbundle.checkGhost.
  destruct (JS.hasText _).
  - destruct (JS.ltb _ _); simpl; lia.
  - destruct (GhostUnbundle.isGeneric _); [simpl; lia|].
    destruct (GhostUnbundle.truthyArea _); [|simpl; lia].
    destruct dominantArea; [|simpl; lia].
    destruct (negb (String.eqb _ _)); [|simpl; lia].
    destruct (negb _); simpl; lia.
Qed.

Lemma checkBundle_at_most_one (claims : list ClaimItem) (cptDb : CPTDatabase)
  (billedCodes : gset string) (bundle : NCCIBundle) :
  (length (GhostUnbundle.checkBundle claims cptDb billedCodes bundle) <= 1)%nat.
Proof.
  unfold GhostUnbundle.checkBundle. destruct (_ && _); simpl; lia.
Qed.

Lemma checkAllPairs_count (P : Platform) (events : list Timeline.TimelineEvent) :
  (2 * length (Timeline.checkAllPairs P events)
   <= length events * (length events - 1))%nat.
Proof.
  induction events as [|a later IH]; simpl Timeline.checkAllPairs; [simpl; lia|].
  rewrite length_app, forEachPush_flat_map.
  pose proof (length_flat_map_le (Timeline.checkPair P a) later
                                 (checkPair_at_most_one P a)) as H.
  cbn [length]. nia.
Qed.

(** The number of findings of each engine is bounded by the size of its
    input: at most one severity mismatch and one ghost service per claim,
    one overlap per pair of claims and one unbundling alert per rule. *)
Theorem finding_counts_bounded
  (P : Platform) (llm : XAI.BriefRequest -> option string)
  (claims : list ClaimItem) (cptDb : CPTDatabase) :
  let r := Analyzer.analyzeFullClaim P llm claims cptDb in
  let n := Analyzer.total_claims r in
  n = length claims
  /\ (CrossModal.flagged_count (Analyzer.cross_modal r) <= n)%nat
  /\ CrossModal.total_claims (Analyzer.cross_modal r) = n
  /\ length (Timeline.events (Analyzer.timeline r)) = n
  /\ (2 * Timeline.flagged_count (Analyzer.timeline r) <= n * (n - 1))%nat
  /\ (length (GhostUnbundle.ghost_services (Analyzer.ghost_unbundle r)) <= n)%nat
  /\ (length (GhostUnbundle.unbundling_alerts (Analyzer.ghost_unbundle r))
      <= length (ncci_bundles cptDb))%nat
  /\ (GhostUnbundle.flagged_count (Analyzer.ghost_unbundle r)
      <= n + length (ncci_bundles cptDb))%nat.
Proof.
  intros r n. subst r n.
  cbn [Analyzer.analyzeFullClaim Analyzer.total_claims Analyzer.cross_modal
       Analyzer.timeline Analyzer.ghost_unbundle].
  assert (Hcross : (length (CrossModal.mismatches
                             (CrossModal.runCrossModalAudit claims cptDb))
                    <= length claims)%nat).
  { cbn [CrossModal.mismatches CrossModal.runCrossModalAudit].
    rewrite forEachPush_flat_map. apply length_flat_map_le.
    intros c. apply auditClaim_at_most_one. }
  assert (Hghost : (length (GhostUnbundle.detectGhostServices claims cptDb)
                    <= length claims)%nat).
  { unfold GhostUnbundle.detectGhostServices. rewrite forEachPush_flat_map.
    etransitivity.
    - apply length_flat_map_le. intros [i c]. apply checkGhost_at_most_one.
    - rewrite length_combine, length_seq. lia. }
  assert (Halerts : (length (GhostUnbundle.detectUnbundling claims cptDb)
                     <= length (ncci_bundles cptDb))%nat).
  { unfold GhostUnbundle.detectUnbundling. rewrite forEachPush_flat_map.
    apply length_flat_map_le. intros rule. apply checkBundle_at_most_one. }
  pose proof (checkAllPairs_count P (Timeline.claimsToEvents P claims cptDb)) as Hpairs.
  assert (Hevents : length (Timeline.claimsToEvents P claims cptDb) = length claims)
    by (unfold Timeline.claimsToEvents; apply length_map).
  rewrite Hevents in Hpairs.
  cbn [CrossModal.flagged_count CrossModal.total_claims CrossModal.runCrossModalAudit
       CrossModal.mismatches Timeline.events Timeline.flagged_count
       Timeline.runTimelineDetective GhostUnbundle.ghost_services
       GhostUnbundle.unbundling_alerts GhostUnbundle.flagged_count
       GhostUnbundle.runGhostUnbundleHunter] in *.
  repeat split; try assumption; try lia.
Qed.

(** ** The advisor *)

Lemma filter_none {A : Type} (p : A -> bool) (xs : list A) :
  Forall (fun x => p x = false) xs -> List.filter p xs = [].
Proof.
  induction 1 as [|x xs Hx _ IH]; simpl; [reflexivity|]. now rewrite Hx.
Qed.

(** A batch on which no engine finds anything, whose notes are all long
    enough and whose total does not exceed one and a half times the
    expected cost, gets only SAFE factors and the score 7 (not 0), hence
    LOW and APPROVE. *)
Theorem clean_batch_scores_7
  (llm : XAI.BriefRequest -> option string)
  (crossModal : CrossModal.CrossModalResult) (timeline : Timeline.TimelineResult)
  (ghostUnbundle : GhostUnbundle.GhostUnbundleResult)
  (claims : list ClaimItem) (cptDb : CPTDatabase) :
  CrossModal.mismatches crossModal = [] ->
  Timeline.overlaps timeline = [] ->
  GhostUnbundle.ghost_services ghostUnbundle = [] ->
  GhostUnbundle.unbundling_alerts ghostUnbundle = [] ->
  Forall (fun c => XAI.lacksDocumentation c = false) claims ->
  let totalBilled := JS.sumBy billed_amount_inr claims in
  let avgExpected :=
    JS.sumBy (fun c => JS.orElse (avg_cost_inr <$> (codes cptDb !! cpt_code c)) (JS.ofZ 0))
             claims in
  JS.gtb avgExpected (JS.ofZ 0) && JS.gtb (totalBilled / avgExpected)%js (Num 1.5) = false ->
  let r := XAI.runXAIAdvisor llm crossModal timeline ghostUnbundle claims cptDb in
  XAI.risk_score r = JS.ofZ 7
  /\ XAI.risk_level r = LOW
  /\ XAI.recommendation r = XAI.APPROVE
  /\ Forall (fun f => XAI.direction f = XAI.SAFE) (XAI.factors r).
Proof.
  intros Hm Ho Hg Ha Hdocs totalBilled avgExpected Hcost r.
  assert (Hfactors :
            XAI.calculateFactors crossModal timeline ghostUnbundle claims cptDb
            = [ {| XAI.name := "Severity Match"; XAI.contribution := JS.lit (-0.08);
                   XAI.rf_description := XAI.SeverityMatchText;
                   XAI.direction := XAI.SAFE |};
                {| XAI.name := "Timeline Clean"; XAI.contribution := JS.lit (-0.05);
                   XAI.rf_description := XAI.TimelineCleanText;
                   XAI.direction := XAI.SAFE |} ]
              ++ (if JS.gtb avgExpected (JS.ofZ 0)
                  then [ {| XAI.name := "Cost Normal"; XAI.contribution := JS.lit (-0.05);
                            XAI.rf_description := XAI.CostNormalText totalBilled;
                            XAI.direction := XAI.SAFE |} ]
                  else [])
              ++ [ {| XAI.name := "Documentation Complete";
                      XAI.contribution := JS.lit (-0.05);
                      XAI.rf_description := XAI.DocumentationCompleteText;
                      XAI.direction := XAI.SAFE |} ]).
  { unfold XAI.calculateFactors.
    rewrite Hm, Ho, Hg, Ha, (filter_none _ _ Hdocs).
    fold totalBilled. fold avgExpected.
    cbn [length Nat.ltb Nat.leb app].
    destruct (JS.gtb avgExpected (JS.ofZ 0)); [|reflexivity].
    cbn [andb] in Hcost. rewrite Hcost. reflexivity. }
  subst r. unfold XAI.runXAIAdvisor. rewrite Hfactors.
  clearbody totalBilled. clear Hfactors Hcost.
  destruct (JS.gtb avgExpected (JS.ofZ 0)).
  - cbn [app].
    match goal with
    | |- context [XAI.classify ?s] =>
        replace s with (JS.ofZ 7) by (vm_compute; reflexivity)
    end.
    change (XAI.classify (JS.ofZ 7)) with (LOW, XAI.APPROVE).
    cbn [XAI.risk_score XAI.risk_level XAI.recommendation XAI.factors].
    repeat split. repeat constructor.
  - cbn [app].
    match goal with
    | |- context [XAI.classify ?s] =>
        replace s with (JS.ofZ 7) by (vm_compute; reflexivity)
    end.
    change (XAI.classify (JS.ofZ 7)) with (LOW, XAI.APPROVE).
    cbn [XAI.risk_score XAI.risk_level XAI.recommendation XAI.factors].
    repeat split. repeat constructor.
Qed.

(** The X-ray alone, billed at its reference cost with full notes. *)
Lemma clean_batch_scores_7_witness :
  let claims := [Sample.xray "Radiology" None None] in
  let r :=
    Analyzer.analyzeFullClaim SamplePlatform.platform SamplePlatform.noGenerator
                              claims Sample.cptDb in
  XAI.risk_score (fulfilledWith (Analyzer.xai r)) = JS.ofZ 7
  /\ XAI.risk_level (fulfilledWith (Analyzer.xai r)) = LOW.
Proof.
  intros claims r.
  destruct (clean_batch_scores_7 SamplePlatform.noGenerator
              (CrossModal.runCrossModalAudit claims Sample.cptDb)
              (Timeline.runTimelineDetective SamplePlatform.platform claims Sample.cptDb)
              (GhostUnbundle.runGhostUnbundleHunter claims Sample.cptDb)
              claims Sample.cptDb) as (Hscore & Hlevel & _).
  - vm_compute. reflexivity.
  - vm_compute. reflexivity.
  - vm_compute. reflexivity.
  - vm_compute. reflexivity.
  - constructor; [vm_compute; reflexivity | constructor].
  - vm_compute. reflexivity.
  - split; [exact Hscore | exact Hlevel].
Defined.


(** ** The route *)




(** ** The clinical picture inferred from the billing *)

Lemma fold_left_skip {A B : Type} (f : A -> B -> A) (keep : B -> bool)
  (xs : list B) (a : A) :
  (forall a x, keep x = false -> f a x = a) ->
  fold_left f xs a = fold_left f (List.filter keep xs) a.
Proof.
  intros H. revert a. induction xs as [|x xs IH]; intros a; simpl; [reflexivity|].
  destruct (keep x) eqn:E; simpl; [apply IH|]. rewrite (H a x E). apply IH.
Qed.

(** The E&M claims of a batch, the ones the severity cross-check
    validates, never influence the picture they are validated against:
    the dominant areas and the supported severity are those of the batch
    without them. *)
Theorem picture_ignores_EM_claims (claims : list ClaimItem) (cptDb : CPTDatabase) :
  let notEM (c : ClaimItem) :=
    negb match codes cptDb !! cpt_code c with
         | Some info => String.eqb (category info) "E&M"
         | None => false
         end in
  let picture := CrossModal.inferClinicalPicture claims cptDb in
  let picture' := CrossModal.inferClinicalPicture (List.filter notEM claims) cptDb in
  CrossModal.dominantAreas picture = CrossModal.dominantAreas picture'
  /\ CrossModal.maxSupportedSeverity picture = CrossModal.maxSupportedSeverity picture'.
Proof.
  intros notEM picture picture'.
  assert (Hcount : CrossModal.countAreas claims cptDb
                   = CrossModal.countAreas (List.filter notEM claims) cptDb).
  { unfold CrossModal.countAreas. apply fold_left_skip.
    intros st c Hc. unfold notEM in Hc.
    destruct (codes cptDb !! cpt_code c) as [info|]; [|discriminate Hc].
    destruct (String.eqb (category info) "E&M"); [reflexivity | discriminate Hc]. }
  assert (Hfallback : CrossModal.fallbackSeverity claims cptDb
                      = CrossModal.fallbackSeverity (List.filter notEM claims) cptDb).
  { unfold CrossModal.fallbackSeverity. apply fold_left_skip.
    intros sev c Hc. unfold notEM in Hc.
    destruct (codes cptDb !! cpt_code c) as [info|]; [|reflexivity].
    destruct (String.eqb (category info) "E&M"); [reflexivity | discriminate Hc]. }
  subst picture picture'. unfold CrossModal.inferClinicalPicture.
  rewrite <- Hcount, <- Hfallback.
  destruct (CrossModal.countAreas claims cptDb) as [areaCounts areaSeverities].
  split; reflexivity.
Qed.

(** ** Pseudo-coordinates of the upload page *)

Lemma locationHash_nonneg (locText : string) : (0 <= Page.locationHash locText)%Z.
Proof.
  unfold Page.locationHash.
  apply (fold_left_preserves (fun h => (0 <= h)%Z)); [lia|].
  intros h ch _ Hh. lia.
Qed.

Lemma pseudo_coordinate_range (r : Z) :
  (0 <= r < 50)%Z ->
  (exists q, (Num 28.5 + JS.ofZ r * JS.lit 0.01)%js = Num q /\ (28.5 <= q <= 28.99)%Q)
  /\ (exists q, (Num 77.0 + JS.ofZ r * JS.lit 0.01)%js = Num q /\ (77 <= q <= 77.49)%Q).
Proof.
  intros Hr.
  assert (Hall :
            forallb
              (fun n =>
                 match (Num 28.5 + JS.ofZ (Z.of_nat n) * JS.lit 0.01)%js,
                       (Num 77.0 + JS.ofZ (Z.of_nat n) * JS.lit 0.01)%js with
                 | Num a, Num b =>
                     Qle_bool 28.5 a && Qle_bool a 28.99
                     && Qle_bool 77 b && Qle_bool b 77.49
                 | _, _ => false
                 end)
              (seq 0 50) = true) by (vm_compute; reflexivity).
  rewrite forallb_forall in Hall. specialize (Hall (Z.to_nat r)).
  rewrite Z2Nat.id in Hall by lia.
  assert (Hin : In (Z.to_nat r) (seq 0 50)) by (apply in_seq; lia).
  specialize (Hall Hin).
  destruct (Num 28.5 + JS.ofZ r * JS.lit 0.01)%js as [| | |a]; try discriminate Hall.
  destruct (Num 77.0 + JS.ofZ r * JS.lit 0.01)%js as [| | |b]; try discriminate Hall.
  rewrite !andb_true_iff in Hall. destruct Hall as [[[H1 H2] H3] H4].
  apply Qle_bool_iff in H1, H2, H3, H4.
  split; eexists; (split; [reflexivity|]); split; assumption.
Qed.

Lemma truthy_positive (q : Q) : (0 < q)%Q -> JS.truthy (Num q) = true.
Proof.
  intros Hq. unfold JS.truthy. destruct (Qeq_bool q 0) eqn:E; [|reflexivity].
  apply Qeq_bool_iff in E. lra.
Qed.

(** A row without a [location_lat] column but with a location text always
    gets coordinates: a latitude between 28.5 and 28.99 and a longitude
    between 77 and 77.49, both truthy, so such a row never falls in the
    branch of the timeline detective for missing coordinates. *)
Theorem row_coordinates_of_location_text
  (rawLat rawLng : Route.RawValue) (locText : string) :
  Route.isTruthy rawLat = false ->
  locText <> EmptyString ->
  exists lat lng,
    Page.rowCoordinates rawLat rawLng locText = (Some (Num lat), Some (Num lng))
    /\ (28.5 <= lat <= 28.99)%Q
    /\ (77 <= lng <= 77.49)%Q
    /\ JS.truthyOpt (Some (Num lat)) = true
    /\ JS.truthyOpt (Some (Num lng)) = true.
Proof.
  intros Hlat Htext. unfold Page.rowCoordinates. rewrite Hlat.
  destruct locText as [|ch rest]; [contradiction|].
  cbn [String.length Nat.ltb Nat.leb]. unfold Page.pseudoCoordinates. cbn [fst snd].
  set (hash := Page.locationHash (String ch rest)).
  pose proof (locationHash_nonneg (String ch rest)) as Hhash. fold hash in Hhash.
  destruct (pseudo_coordinate_range (Z.rem hash 50)) as [(lat & Elat & Hlatr) _].
  { apply Z.rem_bound_pos; lia. }
  destruct (pseudo_coordinate_range (Z.rem (hash * 7) 50)) as [_ (lng & Elng & Hlngr)].
  { apply Z.rem_bound_pos; lia. }
  exists lat, lng. rewrite Elat, Elng.
  split; [reflexivity|]. split; [exact Hlatr|]. split; [exact Hlngr|].
  split; apply truthy_positive; lra.
Qed.

(** The example of the source, Fortis Rohini - OR 4. *)
Lemma row_coordinates_of_location_text_witness :
  exists lat lng,
    Page.rowCoordinates SampleRequest.missing SampleRequest.missing "Fortis Rohini - OR 4"
    = (Some (Num lat), Some (Num lng))
    /\ (28.5 <= lat <= 28.99)%Q
    /\ (77 <= lng <= 77.49)%Q.
Proof.
  destruct (row_coordinates_of_location_text
              SampleRequest.missing SampleRequest.missing "Fortis Rohini - OR 4")
    as (lat & lng & Hrow & Hlat & Hlng & _); [reflexivity | discriminate |].
  exists lat, lng. split; [exact Hrow|]. split; assumption.
Defined.

(** The pseudo-coordinates depend on the location text only through its
    hash modulo 50: two texts whose hashes agree modulo 50, such as two
    texts made of the same characters, are given the same place. *)
Theorem pseudo_coordinates_collide (locText locText' : string) :
  (Page.locationHash locText mod 50 = Page.locationHash locText' mod 50)%Z ->
  Page.pseudoCoordinates locText = Page.pseudoCoordinates locText'.
Proof.
  intros H. unfold Page.pseudoCoordinates.
  pose proof (locationHash_nonneg locText) as Hh.
  pose proof (locationHash_nonneg locText') as Hh'.
  set (h := Page.locationHash locText) in *.
  set (h' := Page.locationHash locText') in *.
  rewrite !Z.rem_mod_nonneg by lia.
  rewrite H.
  rewrite (Z.mul_mod h 7 50), (Z.mul_mod h' 7 50), H by lia.
  reflexivity.
Qed.

(** Two wards of one hospital named with the same characters. *)
Lemma pseudo_coordinates_collide_witness :
  Page.pseudoCoordinates "Ward A3" = Page.pseudoCoordinates "Ward 3A"
  /\ "Ward A3"%string <> "Ward 3A"%string.
Proof.
  split; [|discriminate].
  apply (pseudo_coordinates_collide "Ward A3" "Ward 3A"). reflexivity.
Defined.

(** ** Keyword matching on scanned lines *)

Lemma matchLine_cases (lowerKws : list string) (line : OCR.OCRLine) :
  OCR.matchLine lowerKws line = [line] \/ OCR.matchLine lowerKws line = [].
Proof.
  unfold OCR.matchLine.
  destruct (_ <? 3)%nat; [now right|].
  destruct (existsb _ lowerKws); [now left | now right].
Qed.

(** The matched lines are lines of the scan, in the order of the scan and
    each at most as often as it occurs there. *)
Theorem matched_lines_are_a_sublist
  (ocrLines : list OCR.OCRLine) (keywords : list string) :
  sublist (OCR.matchKeywordsToLines ocrLines keywords) ocrLines.
Proof.
  unfold OCR.matchKeywordsToLines.
  destruct (_ || _); [apply sublist_nil_l|].
  destruct (_ =? 0)%nat; [apply sublist_nil_l|].
  rewrite forEachPush_flat_map.
  induction ocrLines as [|line rest IH]; simpl; [constructor|].
  destruct (matchLine_cases (OCR.cleanKeywords keywords) line) as [-> | ->]; simpl.
  - now apply sublist_skip.
  - now apply sublist_cons.
Qed.

(** A matched line has at least 3 characters once trimmed and contains,
    ignoring case, one of the keywords, lower-cased and trimmed and of at
    least 2 characters; on a header line (at most four words, one of them
    a header keyword) that keyword is not itself a header keyword. *)
Theorem matched_lines_contain_a_keyword
  (ocrLines : list OCR.OCRLine) (keywords : list string) (line : OCR.OCRLine) :
  In line (OCR.matchKeywordsToLines ocrLines keywords) ->
  let lineLower := JS.toLowerCase (JS.trim (OCR.text line)) in
  In line ocrLines
  /\ (3 <= String.length (JS.trim (OCR.text line)))%nat
  /\ exists keyword,
       In keyword keywords
       /\ let kw := JS.trim (JS.toLowerCase keyword) in
          (2 <= String.length kw)%nat
          /\ JS.includes lineLower kw = true
          /\ (OCR.isHeaderLine lineLower = true ->
              JS.arrayIncludes OCR.HEADER_KEYWORDS kw = false).
Proof.
  intros H lineLower. unfold OCR.matchKeywordsToLines in H.
  destruct (_ || _); [destruct H|].
  destruct (_ =? 0)%nat; [destruct H|].
  rewrite forEachPush_flat_map in H. apply in_flat_map in H as [l [Hl Hin]].
  unfold OCR.matchLine in Hin.
  destruct (_ <? 3)%nat eqn:Elen; [destruct Hin|].
  destruct (existsb _ _) eqn:Ekw; [|destruct Hin].
  destruct Hin as [->|[]]. split; [exact Hl|].
  apply Nat.ltb_ge in Elen. split; [exact Elen|].
  apply existsb_exists in Ekw as [kw [Hkw Hmatch]].
  unfold OCR.cleanKeywords in Hkw. apply filter_In in Hkw as [Hkw Hlen].
  apply in_map_iff in Hkw as [keyword [<- Hkeyword]].
  exists keyword. split; [exact Hkeyword|]. cbv zeta.
  apply Nat.leb_le in Hlen. split; [exact Hlen|].
  apply andb_true_iff in Hmatch as [Hinc Hhead]. split; [exact Hinc|].
  fold lineLower in Hhead. intros Hheader. rewrite Hheader in Hhead.
  cbn [andb] in Hhead. now apply negb_true_iff in Hhead.
Qed.

(** On the sample note the keywords Emergency and ANKLE match the finding
    but not the header line "Emergency Department". *)
Lemma matched_lines_contain_a_keyword_witness :
  let found := OCR.matchKeywordsToLines SampleScan.note ["Emergency"; " ANKLE "] in
  map OCR.text found = ["Patient presents to emergency with ankle sprain, stable"]
  /\ Forall (fun line => In line SampleScan.note
                         /\ (3 <= String.length (JS.trim (OCR.text line)))%nat) found.
Proof.
  intros found. split; [vm_compute; reflexivity|].
  apply List.Forall_forall. intros line Hin.
  destruct (matched_lines_contain_a_keyword SampleScan.note ["Emergency"; " ANKLE "]
              line Hin) as (Hl & Hlen & _).
  split; assumption.
Defined.
